(** * Claude Usage Indicator: the usage-state reconciliation policy

    A shallow embedding of the three scripts of the repository
    ([get_usage.py], [claude_usage_indicator.py], [update_claude_usage.py])
    and the properties of the reconciliation policy, the fetch
    orchestrator and the manual-update command line.

    Conventions.
    - A Python [str] is a [string] whose characters are code points below
      256; [dict]s decoded from JSON are [gmap string json].
    - Python exceptions are values of [exn]; code that can raise returns
      [res], code that mutates the indicator object or the configuration
      file threads an explicit state and keeps the state reached when an
      exception is raised.
    - The clock, the file system, the browser session and the child
      process are inputs of the functions that consult them.
    - [int], [str.strip], [str.split], [datetime.isoformat] and
      [datetime.fromisoformat] (the one of Python 3.10) are defined here; [json.loads],
      [json.dumps], [float] and the text of a traceback are parameters of
      the functions that call them. *)

Set Warnings "-register-all".
From Stdlib Require Import ZArith QArith String Ascii List Lia Bool DecimalString.
From stdpp Require Import gmap strings list fin_maps option.
Open Scope string_scope.
Open Scope Z_scope.

(** ** Python exceptions and results *)

Inductive exn :=
| ValueError
| TypeError
| AttributeError
| OverflowError
| IndexError
| KeyError
| OSError.

Inductive res (A : Type) :=
| Ok (a : A)
| Raise (e : exn).
Arguments Ok {A} a.
Arguments Raise {A} e.

#[global] Instance res_ret : MRet res := fun A a => Ok a.

#[global] Instance res_bind : MBind res := fun A B k r =>
  match r with
  | Ok a => k a
  | Raise e => Raise e
  end.

(** ** Strings the way the scripts use them *)

Module PyStr.

(** [str.isspace] on one code point below 256. *)
Definition isspace (c : ascii) : bool :=
  let n := N_of_ascii c in
  (((9 <=? n) && (n <=? 13)) || ((28 <=? n) && (n <=? 32))
   || (n =? 133) || (n =? 160))%N.

Fixpoint lstrip (s : string) : string :=
  match s with
  | String c s' => if isspace c then lstrip s' else s
  | EmptyString => EmptyString
  end.

Fixpoint rstrip (s : string) : string :=
  match s with
  | EmptyString => EmptyString
  | String c s' =>
      match rstrip s' with
      | EmptyString => if isspace c then EmptyString else String c EmptyString
      | t => String c t
      end
  end.

(** A string whose characters all satisfy [P]. *)
Fixpoint all_chars (P : ascii -> bool) (s : string) : bool :=
  match s with
  | EmptyString => true
  | String c s' => P c && all_chars P s'
  end.

(** A character other than [x]. *)
Definition other_than (x : ascii) (c : ascii) : bool := negb (Ascii.eqb c x).

(** A string of white space only. *)
Fixpoint all_space (s : string) : bool :=
  match s with
  | EmptyString => true
  | String c s' => isspace c && all_space s'
  end.

(** [s.strip()] *)
Definition strip (s : string) : string := rstrip (lstrip s).

(** [s.find(c)] for a one-character [c]; [None] stands for [-1]. *)
Fixpoint find (c : ascii) (s : string) : option nat :=
  match s with
  | EmptyString => None
  | String a s' => if Ascii.eqb a c then Some O else S <$> find c s'
  end.

(** [s[:n]] and [s[n:]] for [0 <= n]. *)
Fixpoint take (n : nat) (s : string) : string :=
  match n, s with
  | S k, String a s' => String a (take k s')
  | _, _ => EmptyString
  end.

Fixpoint drop (n : nat) (s : string) : string :=
  match n, s with
  | S k, String _ s' => drop k s'
  | _, _ => s
  end.

(** [s.startswith(p)] *)
Definition startswith (p s : string) : bool := String.prefix p s.

(** [sub in s] *)
Fixpoint contains (sub s : string) : bool :=
  String.prefix sub s ||
  match s with
  | EmptyString => false
  | String _ s' => contains sub s'
  end.

(** [s.split(sep)] for a non-empty [sep]: the first segment and the
    segments after it.  [skip] counts the characters of a separator
    occurrence still to be passed over. *)
Fixpoint split_go (sep : string) (skip : nat) (s : string) : string * list string :=
  match s with
  | EmptyString => (EmptyString, [])
  | String c s' =>
      match skip with
      | S k => split_go sep k s'
      | O =>
          if String.prefix sep s
          then let '(seg, segs) := split_go sep (String.length sep - 1) s' in
               (EmptyString, seg :: segs)
          else let '(seg, segs) := split_go sep O s' in
               (String c seg, segs)
      end
  end.

Definition split (sep s : string) : list string :=
  let '(seg, segs) := split_go sep O s in seg :: segs.

(** [s.split(c, 1)[1]]: what follows the first [c]; [IndexError] when
    there is none. *)
Definition split1_snd (c : ascii) (s : string) : res string :=
  match find c s with
  | Some i => Ok (drop (S i) s)
  | None => Raise IndexError
  end.

(** [s.replace(c, by)] for a one-character [c]. *)
Fixpoint replace (c : ascii) (by_ : string) (s : string) : string :=
  match s with
  | EmptyString => EmptyString
  | String a s' =>
      if Ascii.eqb a c then by_ ++ replace c by_ s' else String a (replace c by_ s')
  end.

(** [s.lower()] on code points below 256. *)
Definition lower_char (c : ascii) : ascii :=
  let n := N_of_ascii c in
  if (((65 <=? n) && (n <=? 90))
      || ((192 <=? n) && (n <=? 222) && negb (n =? 215)))%N
  then ascii_of_N (n + 32) else c.

Fixpoint lower (s : string) : string :=
  match s with
  | EmptyString => EmptyString
  | String c s' => String (lower_char c) (lower s')
  end.

Definition is_digit (c : ascii) : bool :=
  let n := N_of_ascii c in ((48 <=? n) && (n <=? 57))%N.

Definition digit_val (c : ascii) : option Z :=
  if is_digit c then Some (Z.of_N (N_of_ascii c) - 48) else None.

(** The white space [int] skips around a literal: the white space of
    ASCII and, of the code points from 128 to 255, the two that
    [str.isspace] accepts, which are rewritten to a space before the
    literal is read.  The separators U+001C to U+001F are white space
    for [str.strip] and not for [int]. *)
Definition int_space (c : ascii) : bool :=
  let n := N_of_ascii c in
  (((9 <=? n) && (n <=? 13)) || (n =? 32) || (n =? 133) || (n =? 160))%N.

Fixpoint int_lstrip (s : string) : string :=
  match s with
  | String c s' => if int_space c then int_lstrip s' else s
  | EmptyString => EmptyString
  end.

(** The digits of a decimal literal and what follows them: single
    underscores are allowed between digits, white space alone may come
    after the last digit; [seen] tells that the previous character was
    a digit. *)
Fixpoint int_digits (acc : Z) (seen : bool) (s : string) : option Z :=
  match s with
  | EmptyString => if seen then Some acc else None
  | String c s' =>
      match digit_val c with
      | Some d => int_digits (10 * acc + d) true s'
      | None =>
          if Ascii.eqb c "_" then (if seen then int_digits acc false s' else None)
          else if seen && all_chars int_space s then Some acc else None
      end
  end.

Fixpoint count_digits (s : string) : Z :=
  match s with
  | EmptyString => 0
  | String c s' => (if is_digit c then 1 else 0) + count_digits s'
  end.

(** The default of [sys.int_max_str_digits]. *)
Definition max_str_digits : Z := 4300.

(** [int(s)] in base 10; [None] is [ValueError], raised for a text that
    is not a literal and for a literal of more than [max_str_digits]
    digits, leading zeros counted. *)
Definition int_of_str (s : string) : option Z :=
  let t := int_lstrip s in
  if max_str_digits <? count_digits t then None
  else match t with
       | String "+" r => int_digits 0 false r
       | String "-" r => Z.opp <$> int_digits 0 false r
       | r => int_digits 0 false r
       end.

End PyStr.

(** ** JSON documents as Python values *)

(** A Python [float]: a finite double is the rational it denotes. *)
Inductive pyfloat :=
| FFinite (q : Q)
| FInf (negative : bool)
| FNan.

(** What [json.loads] builds: [None], [bool], [int], [float], [str],
    [list] and [dict] with [str] keys. *)
Inductive json :=
| JNull
| JBool (b : bool)
| JInt (z : Z)
| JFloat (f : pyfloat)
| JStr (s : string)
| JList (l : list json)
| JObj (m : gmap string json).

Module Py.

(** Truth value of an object, as [if x:] tests it. *)
Definition truthy (v : json) : bool :=
  match v with
  | JNull => false
  | JBool b => b
  | JInt z => negb (z =? 0)
  | JFloat (FFinite q) => negb (Qeq_bool q 0)
  | JFloat _ => true
  | JStr s => negb (String.eqb s EmptyString)
  | JList l => match l with [] => false | _ => true end
  | JObj m => negb (bool_decide (size m = O))
  end.

(** [v.get(k)] and [v.get(k, d)]: only a [dict] has the method; the
    one-argument form has [d = None]. *)
Definition get (v : json) (k : string) (d : json) : res json :=
  match v with
  | JObj m => Ok (default d (m !! k))
  | _ => Raise AttributeError
  end.

Definition is_str (k : string) (v : json) : bool :=
  match v with
  | JStr s => String.eqb s k
  | _ => false
  end.

(** [k in v] for a [str] [k]: a key of a [dict], an element of a [list],
    a substring of a [str]; the other values are not containers. *)
Definition contains (k : string) (v : json) : res bool :=
  match v with
  | JObj m => Ok (bool_decide (is_Some (m !! k)))
  | JList l => Ok (existsb (is_str k) l)
  | JStr s => Ok (PyStr.contains k s)
  | _ => Raise TypeError
  end.

(** [v[k]] for a [str] [k]: a [list] or a [str] cannot be indexed by a
    [str]. *)
Definition getitem (v : json) (k : string) : res json :=
  match v with
  | JObj m => match m !! k with
              | Some x => Ok x
              | None => Raise KeyError
              end
  | _ => Raise TypeError
  end.

(** [int(v)]: truncation towards zero on a [float]. *)
Definition int (v : json) : res Z :=
  match v with
  | JInt z => Ok z
  | JBool b => Ok (if b then 1 else 0)
  | JFloat (FFinite q) => Ok (Z.quot (Qnum q) (Zpos (Qden q)))
  | JFloat (FInf _) => Raise OverflowError
  | JFloat FNan => Raise ValueError
  | JStr s => match PyStr.int_of_str s with
              | Some z => Ok z
              | None => Raise ValueError
              end
  | JNull | JList _ | JObj _ => Raise TypeError
  end.

(** [v.replace("Z", "+00:00")]: only a [str] has the method. *)
Definition replace_Z (v : json) : res string :=
  match v with
  | JStr s => Ok (PyStr.replace "Z" "+00:00" s)
  | _ => Raise AttributeError
  end.

(** [v[k] = x]: only a [dict] supports the assignment. *)
Definition setitem (v : json) (k : string) (x : json) : res json :=
  match v with
  | JObj m => Ok (JObj (<[k := x]> m))
  | _ => Raise TypeError
  end.

(** [str(n)] for an [int]. *)
Definition str_of_int (n : Z) : string := NilZero.string_of_int (Z.to_int n).

(** The [dict] [{"error": msg}]. *)
Definition error_dict (msg : string) : json := JObj {[ "error" := JStr msg ]}.

End Py.

(** ** [datetime]: the values, [isoformat] and [fromisoformat] *)

Module DateTime.

(** A [datetime] object.  [tzinfo] is the UTC offset of a fixed-offset
    [timezone], in microseconds; [None] for a naive value. *)
Record datetime := mk {
  year : Z;
  month : Z;
  day : Z;
  hour : Z;
  minute : Z;
  second : Z;
  microsecond : Z;
  tzinfo : option Z
}.

Definition is_leap (y : Z) : bool :=
  (y mod 4 =? 0) && (negb (y mod 100 =? 0) || (y mod 400 =? 0)).

Definition days_in_month (y m : Z) : Z :=
  if m =? 2 then (if is_leap y then 29 else 28)
  else if (m =? 4) || (m =? 6) || (m =? 9) || (m =? 11) then 30
  else 31.

Definition between (lo x hi : Z) : bool := (lo <=? x) && (x <=? hi).

(** [timezone(offset)] accepts offsets strictly between -24 h and 24 h. *)
Definition valid_offset (off : Z) : bool :=
  (-86400000000 <? off) && (off <? 86400000000).

(** The ranges the [datetime] constructor enforces. *)
Definition valid (d : datetime) : bool :=
  between 1 (year d) 9999 && between 1 (month d) 12
  && between 1 (day d) (days_in_month (year d) (month d))
  && between 0 (hour d) 23 && between 0 (minute d) 59
  && between 0 (second d) 59 && between 0 (microsecond d) 999999
  && match tzinfo d with
     | Some off => valid_offset off
     | None => true
     end.

Definition digit_char (n : Z) : ascii := ascii_of_N (Z.to_N (48 + n)).

(** [n] on exactly [w] decimal digits: ["%0wd" % n] for [0 <= n < 10^w]. *)
Fixpoint fixed (w : nat) (n : Z) : string :=
  match w with
  | O => EmptyString
  | S k => String (digit_char (n / 10 ^ Z.of_nat k)) (fixed k (n mod 10 ^ Z.of_nat k))
  end.

Definition format_time (d : datetime) : string :=
  fixed 2 (hour d) ++ ":" ++ fixed 2 (minute d) ++ ":" ++ fixed 2 (second d)
  ++ (if microsecond d =? 0 then "" else "." ++ fixed 6 (microsecond d)).

Definition format_offset (tz : option Z) : string :=
  match tz with
  | None => ""
  | Some off =>
      let a := Z.abs off in
      let hh := a / 3600000000 in
      let mm := (a mod 3600000000) / 60000000 in
      let ss := (a mod 3600000000) mod 60000000 in
      (if off <? 0 then "-" else "+") ++ fixed 2 hh ++ ":" ++ fixed 2 mm
      ++ (if ss =? 0 then ""
          else ":" ++ fixed 2 (ss / 1000000)
               ++ (if ss mod 1000000 =? 0 then ""
                   else "." ++ fixed 6 (ss mod 1000000)))
  end.

(** [d.isoformat()] *)
Definition isoformat (d : datetime) : string :=
  fixed 4 (year d) ++ "-" ++ fixed 2 (month d) ++ "-" ++ fixed 2 (day d)
  ++ "T" ++ format_time d ++ format_offset (tzinfo d).

(** Exactly [w] decimal digits, then the rest of the string. *)
Fixpoint digits (w : nat) (acc : Z) (s : string) : option (Z * string) :=
  match w with
  | O => Some (acc, s)
  | S k =>
      match s with
      | String c s' =>
          match PyStr.digit_val c with
          | Some v => digits k (10 * acc + v) s'
          | None => None
          end
      | EmptyString => None
      end
  end.

(** A field of [w] digits that ends the string. *)
Definition last_digits (w : nat) (s : string) : option Z :=
  match digits w 0 s with
  | Some (n, EmptyString) => Some n
  | _ => None
  end.

(** [HH[:MM[:SS[.fff[fff]]]]], the whole string. *)
Definition parse_hh_mm_ss_ff (s : string) : option (Z * Z * Z * Z) :=
  '(hh, s1) ← digits 2 0 s;
  match s1 with
  | EmptyString => Some (hh, 0, 0, 0)
  | String ":" s2 =>
      '(mm, s3) ← digits 2 0 s2;
      match s3 with
      | EmptyString => Some (hh, mm, 0, 0)
      | String ":" s4 =>
          '(ss, s5) ← digits 2 0 s4;
          match s5 with
          | EmptyString => Some (hh, mm, ss, 0)
          | String "." f =>
              match String.length f with
              | 6%nat => us ← last_digits 6 f; Some (hh, mm, ss, us)
              | 3%nat => ms ← last_digits 3 f; Some (hh, mm, ss, ms * 1000)
              | _ => None
              end
          | _ => None
          end
      | _ => None
      end
  | _ => None
  end.

(** The position of the UTC offset's sign:
    [tstr.find('-') + 1 or tstr.find('+') + 1], less one. *)
Definition tz_pos (tstr : string) : option nat :=
  match PyStr.find "-" tstr with
  | Some i => Some i
  | None => PyStr.find "+" tstr
  end.

(** The offset after its sign: [HH:MM], [HH:MM:SS] or [HH:MM:SS.ffffff];
    all fields zero is [timezone.utc]. *)
Definition parse_tz (negative : bool) (tzstr : string) : option Z :=
  let n := String.length tzstr in
  if bool_decide (n = 5 \/ n = 8 \/ n = 15)%nat then
    '(hh, mm, ss, us) ← parse_hh_mm_ss_ff tzstr;
    let td := (hh * 3600 + mm * 60 + ss) * 1000000 + us in
    let off := if negative then - td else td in
    if valid_offset off then Some off else None
  else None.

(** The part after the date separator: the time and the optional offset. *)
Definition parse_isoformat_time (tstr : string)
  : option (Z * Z * Z * Z * option Z) :=
  match tz_pos tstr with
  | None => t ← parse_hh_mm_ss_ff tstr; Some (t, None)
  | Some i =>
      t ← parse_hh_mm_ss_ff (PyStr.take i tstr);
      off ← parse_tz (bool_decide (PyStr.take 1 (PyStr.drop i tstr) = "-"))
                     (PyStr.drop (S i) tstr);
      Some (t, Some off)
  end.

(** [YYYY-MM-DD], then the rest of the string. *)
Definition parse_isoformat_date (s : string) : option (Z * Z * Z * string) :=
  '(y, s1) ← digits 4 0 s;
  match s1 with
  | String "-" s2 =>
      '(m, s3) ← digits 2 0 s2;
      match s3 with
      | String "-" s4 => '(d, s5) ← digits 2 0 s4; Some (y, m, d, s5)
      | _ => None
      end
  | _ => None
  end.

(** [datetime.fromisoformat(s)] as Python 3.10 has it, the oldest
    version that runs the scripts: the format
    [YYYY-MM-DD[*HH[:MM[:SS[.fff[fff]]]][+HH:MM[:SS[.ffffff]]]]].  [None]
    is [ValueError].  From 3.11 on the method reads more of ISO 8601
    (other fraction lengths, offsets without colon, the basic format)
    and rejects a date followed by the separator alone.  All versions
    agree on what [isoformat] prints and on the texts of [no_year]
    below; the statements about reset times are about these. *)
Definition fromisoformat (s : string) : option datetime :=
  '(y, m, d, rest) ← parse_isoformat_date s;
  '(hh, mm, ss, us, tz) ←
     match PyStr.drop 1 rest with
     | EmptyString => Some (0, 0, 0, 0, None)
     | tstr => parse_isoformat_time tstr
     end;
  let dt := mk y m d hh mm ss us tz in
  if valid dt then Some dt else None.


(** *** Notions used to relate [isoformat] and [fromisoformat] *)

(** The characters of a time or an offset after its sign. *)
Definition time_char (c : ascii) : bool :=
  PyStr.is_digit c || Ascii.eqb c ":" || Ascii.eqb c ".".

(** A time of day or an offset, written [HH:MM[:SS[.ffffff]]]. *)
Definition clock (hh mm : Z) (tail : option (Z * option Z)) : string :=
  fixed 2 hh ++ ":" ++ fixed 2 mm
  ++ match tail with
     | None => ""
     | Some (ss, None) => ":" ++ fixed 2 ss
     | Some (ss, Some us) => ":" ++ fixed 2 ss ++ "." ++ fixed 6 us
     end.

(** The fields of a clock string stay within their widths. *)
Definition clock_ok (hh mm : Z) (tail : option (Z * option Z)) : Prop :=
  0 <= hh < 100 /\ 0 <= mm < 100
  /\ match tail with
     | None => True
     | Some (ss, None) => 0 <= ss < 100
     | Some (ss, Some us) => 0 <= ss < 100 /\ 0 <= us < 1000000
     end.

Definition clock_fields (hh mm : Z) (tail : option (Z * option Z)) : Z * Z * Z * Z :=
  match tail with
  | None => (hh, mm, 0, 0)
  | Some (ss, None) => (hh, mm, ss, 0)
  | Some (ss, Some us) => (hh, mm, ss, us)
  end.

(** The seconds and microseconds [isoformat] prints after a minute
    field: none when [rest], in microseconds, is zero. *)
Definition offset_tail (rest : Z) : option (Z * option Z) :=
  if rest =? 0 then None
  else Some (rest / 1000000,
             if rest mod 1000000 =? 0 then None else Some (rest mod 1000000)).

End DateTime.

(** ** [get_usage.py] *)

Module GetUsage.

(** A cookie in the format the browser context takes. *)
Record cookie := {
  name : string;
  value : string;
  domain : string;
  path : string
}.

(** One turn of the loop of [parse_cookies]: the cookie appended for
    [part], or [None] where the loop [continue]s. *)
Definition parse_part (dom : string) (part : string) : option cookie :=
  let part := PyStr.strip part in
  if String.eqb part "" then None
  else match PyStr.find "=" part with
       | None => None
       | Some idx =>
           let name := PyStr.strip (PyStr.take idx part) in
           let value := PyStr.strip (PyStr.drop (S idx) part) in
           if String.eqb name "" then None
           else Some {| name := name; value := value; domain := dom; path := "/" |}
       end.

(** A segment that is not empty and has a ["="] in it. *)
Definition usable (part : string) : bool :=
  negb (String.eqb (PyStr.strip part) "")
  && bool_decide (is_Some (PyStr.find "=" part)).

Definition parse_cookies_in (dom : string) (cookie_str : string) : list cookie :=
  omap (parse_part dom) (PyStr.split "; " cookie_str).

(** [parse_cookies(cookie_str)] with the default domain. *)
Definition parse_cookies (cookie_str : string) : list cookie :=
  parse_cookies_in "claude.ai" cookie_str.

(** The test [part.strip().startswith("lastActiveOrg=")]. *)
Definition names_org (part : string) : bool :=
  PyStr.startswith "lastActiveOrg=" (PyStr.strip part).

(** The loop that looks for the [lastActiveOrg] cookie: the value of the
    first segment that passes the test, [None] when the loop ends without
    a [break]. *)

Fixpoint last_active_org (parts : list string) : res (option string) :=
  match parts with
  | [] => Ok None
  | part :: rest =>
      if names_org part
      then v ← PyStr.split1_snd "=" part; Ok (Some (PyStr.strip v))
      else last_active_org rest
  end.

Definition default_org_id : string := "32321586-22bf-4e89-9007-8b6469448821".

Definition is_empty (o : option string) : bool :=
  match o with
  | Some s => String.eqb s ""
  | None => true
  end.

(** The organisation the request is made for. *)
Definition resolve_org_id (org_id : option string) (cookie_str : string)
  : res string :=
  if is_empty org_id then
    found ← last_active_org (PyStr.split "; " cookie_str);
    Ok (if is_empty found then default_org_id else default "" found)
  else Ok (default "" org_id).

Definition usage_url (org_id : string) : string :=
  "https://claude.ai/api/organizations/" ++ org_id ++ "/usage".

(** What [page.goto] does. *)
Inductive goto_result :=
| Response (status : Z)
| NoResponse
| PlaywrightTimeout
| GotoError (msg : string).

(** A [response] event of the page: its URL, its status and what
    [response.json()] returns ([None] when it raises). *)
Record response_event := {
  r_url : string;
  r_status : Z;
  r_json : option json
}.

(** A browser session for one URL and cookie jar: the events fired
    while [page.goto] runs, and how [page.goto] ends. *)
Record session := {
  events : list response_event;
  goto : goto_result
}.

(** [handle_response]: [response_data] after one more event. *)
Definition handle_response (url : string) (response_data : json)
  (r : response_event) : json :=
  if String.eqb (r_url r) url && (r_status r =? 200) then
    match r_json r with
    | Some j => j
    | None => response_data
    end
  else response_data.

(** The [try] block around [page.goto]: the error message, if any. *)
Definition classify (g : goto_result) (response_data : json) : option string :=
  match g with
  | Response status =>
      if status =? 401 then Some "Cookie expired (401 Unauthorized)"
      else if status =? 403
      then Some "Access denied (403 Forbidden). Try renewing org_id or cookies."
      else if negb (status =? 200)
      then Some ("API Error: " ++ Py.str_of_int status)
      else None
  | NoResponse =>
      if negb (Py.truthy response_data)
      then Some "No response received from API" else None
  | PlaywrightTimeout => Some "Timeout connecting to Claude"
  | GotoError msg =>
      if PyStr.contains "Executable doesn't exist" msg
         || PyStr.contains "playwright install" msg
      then Some "Playwright browsers not installed. Run: playwright install chromium"
      else Some ("Error: " ++ msg)
  end.

(** What the script finds around it: whether [playwright] can be
    imported, the cookie file ([None] when it does not exist) and what a
    browser session does; the browser itself is taken to start. *)
Record world := {
  playwright : bool;
  cookie_path : string;
  cookie_text : option string;
  browse : string -> list cookie -> session
}.

Definition nonempty (o : option string) : bool := negb (is_empty o).

(** The browser session of [get_usage] for [url] and [cookies]: the
    value [get_usage] returns after it. *)
Definition browser_fetch (w : world) (url : string) (cookies : list cookie)
  : json :=
  let s := browse w url cookies in
  let response_data := fold_left (handle_response url) (events s) JNull in
  let error_msg := classify (goto s) response_data in
  if nonempty error_msg && negb (Py.truthy response_data)
  then Py.error_dict (default "" error_msg)
  else response_data.

(** [get_usage(cookie_file, org_id, headless, quiet)]: the lines written
    to the standard error stream and the returned value, [JNull] for
    [None].  Reading the cookie file and handling the browser, the
    statements outside the [try], are taken to go through here;
    [Script.get_usage] below has them raise as well. *)
Definition get_usage (w : world) (org_id : option string) (quiet : bool)
  : list string * res json :=
  let say (line : string) := if quiet then [] else [line] in
  if negb (playwright w) then
    (say "Error: Playwright required. Run: pip install playwright && playwright install chromium",
     Ok JNull)
  else match cookie_text w with
  | None => (say ("Error: Cookie file not found: " ++ cookie_path w), Ok JNull)
  | Some text =>
      let cookie_str := PyStr.strip text in
      if String.eqb cookie_str "" then (say "Error: Cookie file is empty", Ok JNull)
      else
        ([], org ← resolve_org_id org_id cookie_str;
             Ok (browser_fetch w (usage_url org) (parse_cookies cookie_str)))
  end.

Section Main.

(** [json.dumps(data, indent=...)] *)
Variable json_dumps : option Z -> json -> string.

(** [print] ends every line with a newline character. *)
Definition lines (l : list string) : string :=
  fold_right (fun line acc => line ++ String (ascii_of_N 10) acc) "" l.

(** [main()] for the arguments [--org-id], [--quiet] and [--raw], the
    default cookie file and no [--login]: the exit status and the text
    written to the standard output and error streams. *)
Definition main (w : world) (org_id : option string) (quiet raw : bool)
  : res (Z * string * string) :=
  let say (l : list string) := if quiet then [] else l in
  match cookie_text w with
  | None =>
      Ok (1, "", lines (say ["Error: Cookie file not found: " ++ cookie_path w;
                              "Tip: Run with --login to capture cookies automatically."]))
  | Some _ =>
      let err0 := say ["Fetching usage (this may take a moment)..."] in
      let '(err1, r) := get_usage w org_id quiet in
      data ← r;
      match data with
      | JNull =>
          Ok (1, "", lines (err0 ++ err1
                ++ say ["Error: Failed to fetch usage. Cookies may have expired."]))
      | _ =>
          Ok (0, lines [json_dumps (if raw then None else Some 2) data],
              lines (err0 ++ err1))
      end
  end.

End Main.

End GetUsage.

(** ** Child processes *)

(** What [subprocess.run(..., capture_output=True, text=True, timeout=90)]
    does: the child ends, the time allowed runs out, or the call raises
    another exception [e], [message] being [str(e)]. *)
Inductive run_result :=
| Completed (returncode : Z) (stdout stderr : string)
| TimeoutExpired
| RunError (message : string).

(** ** [claude_usage_indicator.py] *)

Module Indicator.
Import DateTime.

(** One entry of [self.usage_data]: [usage] holds whatever was assigned
    to it, [reset] a [datetime] or [None]. *)
Record window := {
  usage : json;
  reset : option datetime
}.

Record usage_data := {
  five_hour : window;
  weekly : window;
  last_update : option datetime
}.

(** The value [__init__] gives [self.usage_data]. *)
Definition initial_usage : usage_data :=
  {| five_hour := {| usage := JInt 0; reset := None |};
     weekly := {| usage := JInt 0; reset := None |};
     last_update := None |}.

Definition set_usage (v : json) (w : window) : window :=
  {| usage := v; reset := reset w |}.

Definition set_reset (d : datetime) (w : window) : window :=
  {| usage := usage w; reset := Some d |}.

Definition with_five_hour (f : window -> window) (u : usage_data) : usage_data :=
  {| five_hour := f (five_hour u); weekly := weekly u; last_update := last_update u |}.

Definition with_weekly (f : window -> window) (u : usage_data) : usage_data :=
  {| five_hour := five_hour u; weekly := f (weekly u); last_update := last_update u |}.

(** Callbacks handed to [GLib.idle_add]. *)
Inductive ui_event :=
| ShowError (message : json)
| ShowException (e : exn)
| MarkOffline
| UpdateUI.

(** What [fetch_usage] reads and writes: the indicator's [usage_data],
    the configuration file ([None] when it does not exist, else the JSON
    document it holds) and the queue of callbacks. *)
Record state := {
  data : usage_data;
  config_file : option json;
  idle : list ui_event
}.

Definition set_data (f : usage_data -> usage_data) (s : state) : state :=
  {| data := f (data s); config_file := config_file s; idle := idle s |}.

Definition write_config (c : json) (s : state) : state :=
  {| data := data s; config_file := Some c; idle := idle s |}.

Definition idle_add (e : ui_event) (s : state) : state :=
  {| data := data s; config_file := config_file s; idle := idle s ++ [e] |}.

(** A statement: the state it leaves, and whether it ended normally.
    An exception leaves the assignments made before it in place. *)
Definition stmt (A : Type) : Type := state -> state * res A.

Definition pure {A} (a : A) : stmt A := fun s => (s, Ok a).

Definition bind {A B} (m : stmt A) (k : A -> stmt B) : stmt B :=
  fun s => match m s with
           | (s', Ok a) => k a s'
           | (s', Raise e) => (s', Raise e)
           end.

Definition lift {A} (r : res A) : stmt A := fun s => (s, r).

Definition modify (f : state -> state) : stmt unit := fun s => (f s, Ok tt).

Definition read {A} (f : state -> A) : stmt A := fun s => (s, Ok (f s)).

#[export] Instance stmt_ret : MRet stmt := @pure.
#[export] Instance stmt_bind : MBind stmt := fun A B k m => bind m k.

(** The [try] around [datetime.fromisoformat(text.replace("Z", "+00:00"))]
    with [except (ValueError, TypeError): pass]: the parsed value, or
    [None] when the assignment is skipped; an [AttributeError] of
    [replace] is not handled. *)
Definition try_parse_reset (text : json) : res (option datetime) :=
  t ← Py.replace_Z text; Ok (fromisoformat t).

(** The block of [_parse_api_usage] for one window, [w] being
    [data.get(key)]. *)
Definition parse_window (w : json)
  (upd : (window -> window) -> usage_data -> usage_data) : stmt unit :=
  if Py.truthy w then
    u ← lift (Py.get w "utilization" (JInt 0));
    n ← lift (Py.int u);
    modify (set_data (upd (set_usage (JInt n))));;
    resets_at ← lift (Py.get w "resets_at" JNull);
    if Py.truthy resets_at then
      d ← lift (try_parse_reset resets_at);
      match d with
      | Some d => modify (set_data (upd (set_reset d)))
      | None => pure tt
      end
    else pure tt
  else pure tt.

(** [_parse_api_usage(data)] *)
Definition _parse_api_usage (api : json) : stmt unit :=
  fh ← lift (Py.get api "five_hour" JNull);
  parse_window fh with_five_hour;;
  wk ← lift (Py.get api "seven_day" JNull);
  parse_window wk with_weekly.

(** Which case of [fetch_usage] supplied the figures. *)
Inductive source :=
| Live
| Cached
| Default.

(** The test [api_data and "error" not in api_data]. *)
Definition is_success (api_data : json) : res bool :=
  if Py.truthy api_data then
    b ← Py.contains "error" api_data; Ok (negb b)
  else Ok false.

(** The configuration written in case 1. *)
Definition live_config (u : usage_data) (now : datetime) : gmap string json :=
  let c0 : gmap string json :=
    <["last_auto_update" := JStr (isoformat now)]>
      (<["weekly_usage" := usage (weekly u)]>
         {["five_hour_usage" := usage (five_hour u)]}) in
  let c1 := match reset (five_hour u) with
            | Some d => <["five_hour_reset" := JStr (isoformat d)]> c0
            | None => c0
            end in
  match reset (weekly u) with
  | Some d => <["weekly_reset" := JStr (isoformat d)]> c1
  | None => c1
  end.

(** The configuration written in case 3. *)
Definition example_config : gmap string json :=
  <["reset_hours" := JInt 5]>
    (<["usage_percentage" := JInt 0]>
       {["note" := JStr "Configure cookies.txt for automatic updates"]}).

(** The reading of one saved reset time in case 2. *)
Definition load_reset (config : json) (key : string)
  (upd : (window -> window) -> usage_data -> usage_data) : stmt unit :=
  saved ← lift (Py.get config key JNull);
  if Py.truthy saved then
    text ← lift (Py.getitem config key);
    d ← lift (try_parse_reset text);
    match d with
    | Some d => modify (set_data (upd (set_reset d)))
    | None => pure tt
    end
  else pure tt.

(** The body of the [try] of [fetch_usage], given what
    [self._fetch_usage_from_api()] returned and the clock. *)
Definition fetch_usage_body (api_data : json) (now : datetime) : stmt source :=
  ok ← lift (is_success api_data);
  if (ok : bool) then
    _parse_api_usage api_data;;
    u ← read data;
    modify (write_config (JObj (live_config u now)));;
    modify (idle_add UpdateUI);;
    pure Live
  else
    saved ← read config_file;
    match saved with
    | Some config =>
        (if Py.truthy api_data then
           has ← lift (Py.contains "error" api_data);
           if (has : bool) then
             msg ← lift (Py.getitem api_data "error");
             modify (idle_add (ShowError msg))
           else pure tt
         else pure tt);;
        pct ← lift (Py.get config "usage_percentage" (JInt 0));
        fh ← lift (Py.get config "five_hour_usage" pct);
        modify (set_data (with_five_hour (set_usage fh)));;
        wk ← lift (Py.get config "weekly_usage" (JInt 0));
        modify (set_data (with_weekly (set_usage wk)));;
        load_reset config "five_hour_reset" with_five_hour;;
        load_reset config "weekly_reset" with_weekly;;
        modify (idle_add MarkOffline);;
        modify (idle_add UpdateUI);;
        pure Cached
    | None =>
        modify (write_config (JObj example_config));;
        modify (set_data (with_five_hour (set_usage (JInt 0))));;
        modify (set_data (with_weekly (set_usage (JInt 0))));;
        modify (idle_add UpdateUI);;
        pure Default
    end.

(** [fetch_usage()]: the state it leaves and the case that ran, or the
    exception its [except Exception] clause reported. *)
Definition fetch_usage (api_data : json) (now : datetime) (s : state)
  : state * res source :=
  match fetch_usage_body api_data now s with
  | (s', Ok src) => (s', Ok src)
  | (s', Raise e) => (idle_add (ShowException e) s', Raise e)
  end.

(** *** Notions used in the statements about [fetch_usage] *)

(** A saved reset time that case 2 can read: a [str], or a value that
    the test [if config.get(key):] skips. *)
Definition reset_readable (c : gmap string json) (key : string) : Prop :=
  match c !! key with
  | Some (JStr _) | None => True
  | Some v => Py.truthy v = false
  end.

(** The two ways [fetch_usage] addresses a window of [usage_data]. *)
Definition window_setter
  (upd : (window -> window) -> usage_data -> usage_data) : Prop :=
  upd = with_five_hour \/ upd = with_weekly.

(** An outcome without live data: nothing was attempted ([None]), or
    the fetch failed and reports [{"error": msg, ...}]. *)
Definition no_live_data (api_data : json) : Prop :=
  api_data = JNull
  \/ exists (m : gmap string json) (msg : json),
       api_data = JObj m /\ m !! "error" = Some msg.

(** The state after a series of polls, each with its outcome and its
    clock reading. *)
Definition polls (history : list (json * datetime)) (s : state) : state :=
  fold_left (fun s p => fst (fetch_usage (fst p) (snd p) s)) history s.

(** A configuration file case 2 reads without an exception. *)
Definition readable_config (s : state) : Prop :=
  exists c : gmap string json,
    config_file s = Some (JObj c)
    /\ reset_readable c "five_hour_reset" /\ reset_readable c "weekly_reset".

(** A statement that leaves the observation [f] of the state as it was,
    however it ends. *)
Definition keeps {A X} (f : state -> X) (m : stmt A) : Prop :=
  forall s s' r, m s = (s', r) -> f s' = f s.



(** The same indicator with another configuration file in place. *)
Definition with_config_file (c : option json) (s : state) : state :=
  {| data := data s; config_file := c; idle := idle s |}.

(** A statement that neither reads nor writes the configuration file. *)
Definition config_blind {A} (m : stmt A) : Prop :=
  forall c s, m (with_config_file c s)
              = (with_config_file c (fst (m s)), snd (m s)).

(** The keys of the configuration written in case 1. *)
Definition live_keys : list string :=
  ["five_hour_usage"; "weekly_usage"; "last_auto_update";
   "five_hour_reset"; "weekly_reset"].

(** A statement whose normal results all satisfy [P]. *)
Definition returns {A} (P : A -> Prop) (m : stmt A) : Prop :=
  forall s s' a, m s = (s', Ok a) -> P a.

(** The reset times held by the indicator are values the [datetime]
    constructor accepts. *)
Definition valid_reset (w : window) : Prop :=
  match reset w with
  | Some d => valid d = true
  | None => True
  end.

Definition valid_usage (u : usage_data) : Prop :=
  valid_reset (five_hour u) /\ valid_reset (weekly u).

(** A statement that maintains the property [P] of the state, however
    it ends. *)
Definition maintains {A} (P : state -> Prop) (m : stmt A) : Prop :=
  forall s s' r, P s -> m s = (s', r) -> P s'.

(** The indicator of a process that has just started and finds the
    configuration file [c]. *)
Definition fresh_state (c : option json) : state :=
  {| data := initial_usage; config_file := c; idle := [] |}.

(** *** The orchestrator *)

Section Orchestrator.

(** [json.loads]; [None] when it raises. *)
Variable json_loads : string -> option json.

(** The [else] branch of [_fetch_usage_from_api]: the child failed or
    printed nothing. *)
Definition report_failure (stderr : string) : json :=
  let stderr_msg :=
    if String.eqb stderr "" then "Unknown error" else PyStr.strip stderr in
  let system_error :=
    Py.error_dict ("System error: " ++ PyStr.take 50 stderr_msg ++ "...") in
  if PyStr.startswith "{" stderr_msg && PyStr.contains "error" stderr_msg then
    match json_loads stderr_msg with
    | Some j => j
    | None => system_error
    end
  else system_error.

(** [_fetch_usage_from_api()]: [JNull] for [None].  [run] is what
    running [get_usage.py --quiet --raw] does. *)
Definition _fetch_usage_from_api (cookie_exists script_exists : bool)
  (run : run_result) : json :=
  if negb cookie_exists || negb script_exists then JNull
  else match run with
       | Completed returncode stdout stderr =>
           if (returncode =? 0) && negb (String.eqb (PyStr.strip stdout) "") then
             match json_loads stdout with
             | Some j => j
             | None => Py.error_dict "Error parsing API JSON"
             end
           else report_failure stderr
       | TimeoutExpired => Py.error_dict "Timeout connecting to Claude"
       | RunError message => Py.error_dict message
       end.

Variable json_dumps : option Z -> json -> string.

(** The text the interpreter prints when an exception ends the script. *)
Variable traceback : exn -> string.

(** The machine the indicator runs on: what [get_usage.py] finds, whether
    the script is installed next to the indicator, and whether the child
    outlives the 90 s allowed. *)
Record host := {
  script_world : GetUsage.world;
  script_exists : bool;
  timed_out : bool
}.

(** Running [get_usage.py --quiet --raw] as a child process. *)
Definition run_get_usage (h : host) : run_result :=
  if timed_out h then TimeoutExpired
  else match GetUsage.main json_dumps (script_world h) None true true with
       | Ok (returncode, stdout, stderr) => Completed returncode stdout stderr
       | Raise e => Completed 1 "" (traceback e)
       end.

(** The fetch orchestrator as the indicator sees it. *)
Definition fetch_outcome (h : host) : json :=
  _fetch_usage_from_api
    (bool_decide (is_Some (GetUsage.cookie_text (script_world h))))
    (script_exists h) (run_get_usage h).

End Orchestrator.

End Indicator.

(** ** [update_claude_usage.py] *)

Module Updater.
Import DateTime.

(** A function of the script: the configuration file it leaves ([None]
    when there is none) and its result. *)
Definition action (A : Type) : Type := option json * res A.

Section FetchAndUpdate.

Variable json_loads : string -> option json.

(** The configuration [fetch_and_update] writes for the decoded
    response [data], starting from [config]. *)
Definition merged_config (data : json) (now : datetime) (config : json)
  : res (option json) :=
  fh ← Py.get data "five_hour" JNull;
  usage_info ← (if Py.truthy fh then Ok fh else Py.get data "seven_day" JNull);
  if Py.truthy usage_info then
    utilization ← Py.get usage_info "utilization" (JInt 0);
    resets_at ← Py.get usage_info "resets_at" JNull;
    n ← Py.int utilization;
    c1 ← Py.setitem config "usage_percentage" (JInt n);
    c2 ← Py.setitem c1 "last_auto_update" (JStr (isoformat now));
    c3 ← (if Py.truthy resets_at then Py.setitem c2 "reset_at" resets_at else Ok c2);
    Ok (Some c3)
  else Ok None.

(** [fetch_and_update()].  An exception of [subprocess.run] other than
    the three the function handles is not caught; it stands here as the
    [OSError] raised when the interpreter cannot be started. *)
Definition fetch_and_update (cookie_exists : bool) (run : run_result)
  (now : datetime) (config_file : option json) : action bool :=
  if negb cookie_exists then (config_file, Ok false)
  else match run with
       | TimeoutExpired => (config_file, Ok false)
       | RunError _ => (config_file, Raise OSError)
       | Completed returncode stdout _ =>
           if negb (returncode =? 0) || String.eqb (PyStr.strip stdout) ""
           then (config_file, Ok false)
           else match json_loads stdout with
                | None => (config_file, Ok false)
                | Some data =>
                    match merged_config data now (default (JObj ∅) config_file) with
                    | Ok (Some c) => (Some c, Ok true)
                    | Ok None => (config_file, Ok false)
                    | Raise e => (config_file, Raise e)
                    end
                end
       end.

End FetchAndUpdate.

(** The configuration [update_usage] starts from when there is no file. *)
Definition default_config : gmap string json :=
  <["reset_hours" := JInt 5]>
    (<["instructions" :=
         JStr "Update usage_percentage manually or use the update_claude_usage.py script"]>
       {["note" := JStr "Claude Usage Indicator configuration"]}).

(** [update_usage(percentage)] *)
Definition update_usage (percentage : pyfloat) (now : datetime)
  (config_file : option json) : action unit :=
  let config := default (JObj default_config) config_file in
  match (n ← Py.int (JFloat percentage);
         c1 ← Py.setitem config "usage_percentage" (JInt n);
         Py.setitem c1 "last_manual_update" (JStr (isoformat now))) with
  | Ok c => (Some c, Ok tt)
  | Raise e => (config_file, Raise e)
  end.

(** [show_current()], without the text it prints. *)
Definition show_current (config_file : option json) : action unit :=
  match config_file with
  | None => (config_file, Ok tt)
  | Some config =>
      (config_file,
       _ ← Py.get config "usage_percentage" (JInt 0);
       auto ← Py.get config "last_auto_update" JNull;
       _ ← (if Py.truthy auto then Ok auto
            else Py.get config "last_manual_update" (JStr "Never"));
       _ ← Py.get config "reset_at" (JStr "");
       Ok tt)
  end.

(** How the process ends: [sys.exit(code)], falling off the end of
    [main] (status 0), or an exception nobody handles. *)
Inductive ending :=
| Exit (code : Z)
| Crash (e : exn).

(** The test [0 <= percentage <= 100]. *)
Definition in_range (p : pyfloat) : bool :=
  match p with
  | FFinite q => Qle_bool 0 q && Qle_bool q 100
  | _ => false
  end.

Section Main.

Variable json_loads : string -> option json.

(** [float(s)]; [None] when it raises [ValueError]. *)
Variable py_float : string -> option pyfloat.

(** [main()] for [sys.argv = argv]. *)
Definition main (argv : list string) (cookie_exists : bool) (run : run_result)
  (now : datetime) (config_file : option json) : option json * ending :=
  match argv with
  | _ :: arg :: _ =>
      if String.eqb (PyStr.lower arg) "fetch" then
        match fetch_and_update json_loads cookie_exists run now config_file with
        | (c, Ok b) => (c, Exit (if b then 0 else 1))
        | (c, Raise e) => (c, Crash e)
        end
      else if String.eqb (PyStr.lower arg) "show" then
        match show_current config_file with
        | (c, Ok _) => (c, Exit 0)
        | (c, Raise e) => (c, Crash e)
        end
      else
        match py_float arg with
        | None => (config_file, Exit 1)
        | Some percentage =>
            if in_range percentage then
              match update_usage percentage now config_file with
              | (c, Ok _) => (c, Exit 0)
              | (c, Raise ValueError) => (c, Exit 1)
              | (c, Raise e) => (c, Crash e)
              end
            else (config_file, Exit 1)
        end
  | _ => (config_file, Exit 1)
  end.

End Main.

End Updater.

(** ** [get_usage.py]: the interactive login *)

Module Login.
Import GetUsage.

(** [f"{c['name']}={c['value']}"] *)
Definition segment (c : cookie) : string := name c ++ "=" ++ value c.

(** The line [interactive_login] saves:
    ["; ".join([f"{c['name']}={c['value']}" for c in cookies])]. *)
Definition cookie_line (cookies : list cookie) : string :=
  String.concat "; " (map segment cookies).

(** How the headed browser session ends: the user reaches a chat page
    and [context.cookies()] returns [cookies], or an exception is raised
    inside the [try], before the file is written.  The browser is taken
    to start and to load the login page. *)
Inductive login_session :=
| LoggedIn (cookies : list cookie)
| LoginError (message : string).

(** [interactive_login(cookie_file)]: the cookie file it leaves ([None]
    when there is none) and its result, without the text it prints. *)
Definition interactive_login (playwright : bool) (session : login_session)
  (cookie_text : option string) : option string * bool :=
  if negb playwright then (cookie_text, false)
  else match session with
       | LoggedIn cookies => (Some (cookie_line cookies), true)
       | LoginError _ => (cookie_text, false)
       end.

(** [main()] for the argument [--login]: the cookie file it leaves and
    the exit status. *)
Definition main (playwright : bool) (session : login_session)
  (cookie_text : option string) : option string * Z :=
  let '(file, ok) := interactive_login playwright session cookie_text in
  (file, if ok then 0 else 1).

(** *** Notions used in the statements about the login *)

(** A cookie as [parse_cookies] returns it: the name and the value kept,
    the domain and the path replaced. *)
Definition rescoped (c : cookie) : cookie :=
  {| name := name c; value := value c; domain := "claude.ai"; path := "/" |}.

(** A string [str.strip] leaves as it is. *)
Definition trimmed (s : string) : Prop := PyStr.strip s = s.

(** A cookie that can be written on a cookie line: a name that is not
    empty and has no ["="], no white space around the name or the value,
    no ["; "] inside them. *)
Definition plain (c : cookie) : Prop :=
  name c <> "" /\ trimmed (name c) /\ PyStr.find "=" (name c) = None
  /\ PyStr.contains "; " (name c) = false
  /\ trimmed (value c) /\ PyStr.contains "; " (value c) = false.

(** The payload [handle_response] keeps from one event: the JSON body
    of a response that has the URL of the request and status 200. *)
Definition captured (url : string) (r : response_event) : option json :=
  if String.eqb (r_url r) url && (r_status r =? 200) then r_json r else None.

(** What [get_usage.py] finds once [--login] has run. *)
Definition after_login (w : world) (session : login_session) : world :=
  {| playwright := playwright w;
     cookie_path := cookie_path w;
     cookie_text := fst (interactive_login (playwright w) session (cookie_text w));
     browse := browse w |}.

End Login.

(** ** [get_usage.py] with the steps that can end it on a traceback *)

Module Script.
Import GetUsage.

(** The statements of [get_usage] outside its [try]: reading the cookie
    file ([cookie_file.read_text()]), and handling the browser
    ([sync_playwright()], [launch], [new_context], [add_init_script],
    [add_cookies], [new_page], and [browser.close()] in the [finally]
    clause).  Each either goes through or raises. *)
Record hazards := {
  read_text : option exn;
  browser : option exn
}.

(** [get_usage(cookie_file, org_id, headless, quiet)], the hazards
    included: an exception of [page.goto] is handled and becomes an
    error message, one of the statements outside the [try] leaves the
    function. *)
Definition get_usage (hz : hazards) (w : world) (org_id : option string)
  (quiet : bool) : list string * res json :=
  let say (line : string) := if quiet then [] else [line] in
  if negb (playwright w) then
    (say "Error: Playwright required. Run: pip install playwright && playwright install chromium",
     Ok JNull)
  else match cookie_text w with
  | None => (say ("Error: Cookie file not found: " ++ cookie_path w), Ok JNull)
  | Some text =>
      match read_text hz with
      | Some e => ([], Raise e)
      | None =>
          let cookie_str := PyStr.strip text in
          if String.eqb cookie_str "" then (say "Error: Cookie file is empty", Ok JNull)
          else
            ([], org ← resolve_org_id org_id cookie_str;
                 match browser hz with
                 | Some e => Raise e
                 | None =>
                     Ok (browser_fetch w (usage_url org) (parse_cookies cookie_str))
                 end)
      end
  end.

Section Main.

Variable json_dumps : option Z -> json -> string.

(** [main()] without [--login]: the exit status and the text written
    to the standard output and error streams, or the exception that
    ends the script. *)
Definition main (hz : hazards) (w : world) (org_id : option string)
  (quiet raw : bool) : res (Z * string * string) :=
  let say (l : list string) := if quiet then [] else l in
  match cookie_text w with
  | None =>
      Ok (1, "", lines (say ["Error: Cookie file not found: " ++ cookie_path w;
                              "Tip: Run with --login to capture cookies automatically."]))
  | Some _ =>
      let err0 := say ["Fetching usage (this may take a moment)..."] in
      let '(err1, r) := get_usage hz w org_id quiet in
      data ← r;
      match data with
      | JNull =>
          Ok (1, "", lines (err0 ++ err1
                ++ say ["Error: Failed to fetch usage. Cookies may have expired."]))
      | _ =>
          Ok (0, lines [json_dumps (if raw then None else Some 2) data],
              lines (err0 ++ err1))
      end
  end.

End Main.


End Script.

(** ** [datetime]: ordering, subtraction and [timedelta.total_seconds] *)

Module DateArith.
Import DateTime.

(** [_days_before_year(year)]: the days before January 1st of [year]. *)
Definition days_before_year (y : Z) : Z :=
  let y := y - 1 in y * 365 + y / 4 - y / 100 + y / 400.

(** [_days_before_month(year, month)] for [1 <= month <= 12]: the days
    of the year before the first of the month. *)
Definition days_before_month (y m : Z) : Z :=
  nth (Z.to_nat m) [-1; 0; 31; 59; 90; 120; 151; 181; 212; 243; 273; 304; 334] 0
  + (if (2 <? m) && is_leap y then 1 else 0).

(** [d.toordinal()]: January 1st of year 1 is day 1. *)
Definition toordinal (d : datetime) : Z :=
  days_before_year (year d) + days_before_month (year d) (month d) + day d.

(** The days, seconds and microseconds of [d] as microseconds, the UTC
    offset left aside. *)
Definition micros (d : datetime) : Z :=
  (toordinal d * 86400 + (hour d * 3600 + minute d * 60 + second d)) * 1000000
  + microsecond d.

(** [a - b]: the [timedelta], in microseconds.  The fields are
    subtracted and, for two aware values, the offsets taken into
    account; a naive and an aware value cannot be subtracted. *)
Definition sub (a b : datetime) : res Z :=
  match tzinfo a, tzinfo b with
  | None, None => Ok (micros a - micros b)
  | Some myoff, Some otoff => Ok (micros a - micros b + otoff - myoff)
  | _, _ => Raise TypeError
  end.

(** Comparison of two tuples of the same length. *)
Fixpoint cmp_tuple (l : list (Z * Z)) : comparison :=
  match l with
  | [] => Eq
  | (x, y) :: l' =>
      match x ?= y with
      | Eq => cmp_tuple l'
      | c => c
      end
  end.

(** Comparison of the fields, the year first. *)
Definition cmp_fields (a b : datetime) : comparison :=
  cmp_tuple [(year a, year b); (month a, month b); (day a, day b);
             (hour a, hour b); (minute a, minute b); (second a, second b);
             (microsecond a, microsecond b)].

(** [a._cmp(b)] in an ordering comparison: the fields when both values
    are naive or have the same offset, else the sign of [a - b]. *)
Definition cmp (a b : datetime) : res comparison :=
  match tzinfo a, tzinfo b with
  | None, None => Ok (cmp_fields a b)
  | Some myoff, Some otoff =>
      if myoff =? otoff then Ok (cmp_fields a b)
      else diff ← sub a b; Ok (diff ?= 0)
  | _, _ => Raise TypeError
  end.

(** [a > b] *)
Definition gt (a b : datetime) : res bool :=
  c ← cmp a b;
  Ok (match c with
      | Gt => true
      | _ => false
      end).

(** The exponent [e] with [2^e <= n/d < 2^(e+1)], for [0 < n] and
    [0 < d]. *)
Definition binade (n d : Z) : Z :=
  let e := Z.log2 n - Z.log2 d in
  let below := if 0 <=? e then n <? d * 2 ^ e else n * 2 ^ (- e) <? d in
  if below then e - 1 else e.

(** The integer nearest to [n/d], the even one when two are as near,
    for [0 <= n] and [0 < d]. *)
Definition round_half_even (n d : Z) : Z :=
  let q := n / d in
  let r := n mod d in
  if 2 * r <? d then q
  else if d <? 2 * r then q + 1
  else if Z.even q then q else q + 1.

(** [n / d] on two [int]s with [0 < n] and [0 < d]: the [float] nearest
    to the quotient, which has 53 significant bits.  The quotient is
    taken to be in the range of normal [float]s, as a number of seconds
    is. *)
Definition true_divide (n d : Z) : Q :=
  let s := binade n d - 52 in
  if 0 <=? s then inject_Z (round_half_even n (d * 2 ^ s) * 2 ^ s)
  else Qmake (round_half_even (n * 2 ^ (- s)) d) (Z.to_pos (2 ^ (- s))).

(** [td.total_seconds()] for a [timedelta] of [us] microseconds: the
    [float] [us / 10**6]. *)
Definition total_seconds (us : Z) : pyfloat :=
  if us =? 0 then FFinite 0
  else if 0 <? us then FFinite (true_divide us 1000000)
  else FFinite (Qopp (true_divide (- us) 1000000)).

(** *** Notions used in the statements about the reset time *)

(** [d.replace(tzinfo=None)] *)
Definition naive (d : datetime) : datetime :=
  mk (year d) (month d) (day d) (hour d) (minute d) (second d) (microsecond d) None.

(** The instant of an aware value, or of a naive value read in a zone
    without offset: microseconds since the start of day 0 in UTC. *)
Definition instant (d : datetime) : Z := micros d - default 0 (tzinfo d).

End DateArith.

(** ** [claude_usage_indicator.py]: the labels *)

Module Panel.
Import DateTime Indicator DateArith.

(** The texts the indicator shows: the label next to the icon and the
    three status items of the menu.  A label is kept as it is written in
    the source, its symbols as the bytes of their UTF-8 encoding. *)
Record widgets := {
  indicator_label : string;
  five_hour_item : string;
  weekly_item : string;
  reset_item : string
}.

(** The items [create_menu] builds; the indicator has no label yet. *)
Definition create_menu : widgets :=
  {| indicator_label := "";
     five_hour_item := "Loading usage (5h)...";
     weekly_item := "Loading weekly usage...";
     reset_item := "Next reset: calculating..." |}.

Definition set_indicator_label (t : string) (w : widgets) : widgets :=
  {| indicator_label := t; five_hour_item := five_hour_item w;
     weekly_item := weekly_item w; reset_item := reset_item w |}.

Definition set_five_hour_item (t : string) (w : widgets) : widgets :=
  {| indicator_label := indicator_label w; five_hour_item := t;
     weekly_item := weekly_item w; reset_item := reset_item w |}.

Definition set_weekly_item (t : string) (w : widgets) : widgets :=
  {| indicator_label := indicator_label w; five_hour_item := five_hour_item w;
     weekly_item := t; reset_item := reset_item w |}.

Definition set_reset_item (t : string) (w : widgets) : widgets :=
  {| indicator_label := indicator_label w; five_hour_item := five_hour_item w;
     weekly_item := weekly_item w; reset_item := t |}.

(** [v >= n] for an [int] [n]: [bool], [int] and [float] are ordered
    with it, a [nan] is above nothing; the other values raise. *)
Definition ge (v : json) (n : Z) : res bool :=
  match v with
  | JInt z => Ok (n <=? z)
  | JBool b => Ok (n <=? (if b then 1 else 0))
  | JFloat (FFinite q) => Ok (Qle_bool (inject_Z n) q)
  | JFloat (FInf negative) => Ok (negb negative)
  | JFloat FNan => Ok false
  | JNull | JStr _ | JList _ | JObj _ => Raise TypeError
  end.

(** The symbol chosen for a utilization: red from 90, yellow from 70. *)
Definition icon (v : json) : res string :=
  high ← ge v 90;
  if (high : bool) then Ok "🔴"
  else middle ← ge v 70; Ok (if (middle : bool) then "🟡" else "🟢").

(** The two readings of the clock [update_ui] may take:
    [datetime.now(timezone.utc)] and [datetime.now()]. *)
Record clock := {
  utc_now : datetime;
  local_now : datetime
}.

(** The text of the reset item for a reset time and the clock reading
    it is compared with. *)
Definition countdown (reset_time now : datetime) : res string :=
  later ← gt reset_time now;
  if (later : bool) then
    diff ← sub reset_time now;
    seconds ← Py.int (JFloat (total_seconds diff));
    let hours := seconds / 3600 in
    let minutes := (seconds mod 3600) / 60 in
    Ok ("⏰ Reset (5h) in: " ++ Py.str_of_int hours ++ "h "
        ++ Py.str_of_int minutes ++ "m")
  else Ok "⏰ 5h Limit Reset".

Section Labels.

(** [str(v)] for a [float], a [list] or a [dict]. *)
Variable repr : json -> string.

(** [str(e)] for an exception. *)
Variable exn_text : exn -> string.

(** [str(v)], which is what an f-string puts in place of [{v}]. *)
Definition str (v : json) : string :=
  match v with
  | JNull => "None"
  | JBool b => if b then "True" else "False"
  | JInt z => Py.str_of_int z
  | JStr s => s
  | JFloat _ | JList _ | JObj _ => repr v
  end.

(** [update_label()]: the labels it leaves; a comparison that raises
    leaves the labels set before it. *)
Definition update_label (u : usage_data) (w : widgets) : widgets * res unit :=
  let usage_pct := usage (five_hour u) in
  match icon usage_pct with
  | Raise e => (w, Raise e)
  | Ok icon5 =>
      let w1 := set_indicator_label ("Claude: " ++ str usage_pct ++ "%") w in
      let w2 := set_five_hour_item
                  (icon5 ++ " Usage (5h): " ++ str usage_pct ++ "%") w1 in
      let w_usage := usage (weekly u) in
      match icon w_usage with
      | Raise e => (w2, Raise e)
      | Ok w_icon =>
          (set_weekly_item (w_icon ++ " Weekly Usage: " ++ str w_usage ++ "%") w2,
           Ok tt)
      end
  end.

(** [update_ui()]: the labels it leaves and the value it returns. *)
Definition update_ui (clk : clock) (u : usage_data) (w : widgets)
  : widgets * res bool :=
  match update_label u w with
  | (w1, Raise e) => (w1, Raise e)
  | (w1, Ok _) =>
      match reset (five_hour u) with
      | None => (w1, Ok false)
      | Some reset_time =>
          let now := match tzinfo reset_time with
                     | Some _ => utc_now clk
                     | None => local_now clk
                     end in
          match countdown reset_time now with
          | Ok text => (set_reset_item text w1, Ok false)
          | Raise e => (w1, Raise e)
          end
      end
  end.

(** [show_error(message)], the value it returns being [False]. *)
Definition show_error (message : string) (w : widgets) : widgets :=
  set_five_hour_item ("❌ Error: " ++ message) w.

(** [manual_refresh(widget)] up to the start of the thread that runs
    [fetch_usage]. *)
Definition manual_refresh (w : widgets) : widgets :=
  set_five_hour_item "🔄 Updating..." w.

(** [__init__]: the labels once the menu is built and [update_label]
    has run on the initial [usage_data]. *)
Definition init : widgets := fst (update_label initial_usage create_menu).

(** One callback queued by [fetch_usage], run by the main loop when
    [usage_data] is [u]: the labels it leaves.  An exception raised by a
    callback is printed and ends that callback only. *)
Definition run_callback (clk : clock) (u : usage_data) (e : ui_event)
  (w : widgets) : widgets :=
  match e with
  | ShowError message => show_error (str message) w
  | ShowException e => show_error (exn_text e) w
  | MarkOffline =>
      set_five_hour_item
        ("⚠️ Usage (5h): " ++ str (usage (five_hour u)) ++ "% (Offline)") w
  | UpdateUI => fst (update_ui clk u w)
  end.

(** The main loop running the queued callbacks in the order they were
    queued, [fetch_usage] having returned; [clocks i] is the clock when
    the callback of rank [i] runs. *)
Fixpoint drain (clocks : nat -> clock) (i : nat) (u : usage_data)
  (queue : list ui_event) (w : widgets) : widgets :=
  match queue with
  | [] => w
  | e :: queue' => drain clocks (S i) u queue' (run_callback (clocks i) u e w)
  end.

End Labels.

(** *** Notions used in the statements about the labels *)

(** A statement whose normal ends all satisfy [Q]. *)
Definition ensures {A} (Q : state -> A -> Prop) (m : stmt A) : Prop :=
  forall s s' a, m s = (s', Ok a) -> Q s' a.

(** A utilization [update_label] can compare with a threshold. *)
Definition comparable (v : json) : Prop :=
  match v with
  | JInt _ | JBool _ | JFloat _ => True
  | _ => False
  end.

(** A clock whose first reading is aware, in UTC, and whose second is
    naive, both being values the [datetime] constructor accepts. *)
Definition sound (clk : clock) : Prop :=
  tzinfo (utc_now clk) = Some 0 /\ tzinfo (local_now clk) = None
  /\ valid (utc_now clk) = true /\ valid (local_now clk) = true.

End Panel.

(** ** [update_claude_usage.py]: what [show] prints *)

Module Report.

Section Text.

(** [str(v)] for a [float], a [list] or a [dict]. *)
Variable repr : json -> string.

(** The path of the configuration file, as [str] gives it. *)
Variable config_path : string.

(** [show_current()]: the lines it prints. *)
Definition show_current (config_file : option json) : res (list string) :=
  match config_file with
  | None => Ok ["❌ No usage data saved yet"]
  | Some config =>
      percentage ← Py.get config "usage_percentage" (JInt 0);
      auto ← Py.get config "last_auto_update" JNull;
      last_update ← (if Py.truthy auto then Ok auto
                     else Py.get config "last_manual_update" (JStr "Never"));
      reset_at ← Py.get config "reset_at" (JStr "");
      Ok ([("📊 Current usage: " ++ Panel.str repr percentage ++ "%")%string;
           ("🕐 Last update: " ++ Panel.str repr last_update)%string]
          ++ (if Py.truthy reset_at
              then [("⏰ Next reset: " ++ Panel.str repr reset_at)%string] else [])
          ++ [("📁 Configuration file: " ++ config_path)%string])%list
  end.

End Text.

End Report.

(** ** The scripts on one configuration file *)

Module System.
Import DateTime Indicator.

(** What happens to the indicator and its configuration file: a poll of
    the indicator with the outcome of its fetch, or a run of
    [update_claude_usage.py] with its arguments and what the [fetch]
    command would find. *)
Inductive event :=
| Poll (api_data : json) (now : datetime)
| Command (argv : list string) (cookie_exists : bool) (run : run_result)
    (now : datetime).

Section Run.

Variable json_loads : string -> option json.
Variable py_float : string -> option pyfloat.

Definition step (s : state) (e : event) : state :=
  match e with
  | Poll api_data now => fst (fetch_usage api_data now s)
  | Command argv cookie_exists run now =>
      with_config_file
        (fst (Updater.main json_loads py_float argv cookie_exists run now
                (config_file s))) s
  end.

Definition run (events : list event) (s : state) : state :=
  fold_left step events s.

End Run.

(** The reset time the cached case of [fetch_usage] reads under [key],
    if any. *)
Definition saved_reset (c : gmap string json) (key : string) : option datetime :=
  match c !! key with
  | Some (JStr t) => fromisoformat (PyStr.replace "Z" "+00:00" t)
  | _ => None
  end.

(** The keys under which a configuration holds a utilization. *)
Definition usage_keys : list string :=
  ["five_hour_usage"; "usage_percentage"; "weekly_usage"].

(** A configuration whose utilizations are values [update_label] can
    compare. *)
Definition comparable_config (c : option json) : Prop :=
  forall (m : gmap string json) k v,
    c = Some (JObj m) -> k ∈ usage_keys -> m !! k = Some v -> Panel.comparable v.

(** An indicator that holds such utilizations, next to such a
    configuration. *)
Definition presentable (s : state) : Prop :=
  Panel.comparable (usage (five_hour (data s)))
  /\ Panel.comparable (usage (weekly (data s)))
  /\ comparable_config (config_file s).

End System.

(** ** Inputs used to exercise the statements below *)

Module Examples.
Import DateTime Indicator.

(** A clock reading and two reset times, one in UTC, one naive. *)
Definition noon : datetime := mk 2025 6 1 12 0 0 0 None.
Definition later : datetime := mk 2025 6 1 12 5 0 250000 None.
Definition reset_5h : datetime := mk 2025 6 1 17 0 0 0 (Some 0).
Definition reset_7d : datetime := mk 2025 6 8 0 30 0 0 (Some (-18000000000)).

Definition window_fields (utilization : json) (resets_at : string)
  : gmap string json :=
  <["resets_at" := JStr resets_at]> {["utilization" := utilization]}.

Definition window_json (utilization : json) (resets_at : string) : json :=
  JObj (window_fields utilization resets_at).

Definition payload_of (five_hour seven_day : json) : gmap string json :=
  <["seven_day" := seven_day]> {["five_hour" := five_hour]}.

(** A response with a utilization above 100 and one given as the float 12.5. *)
Definition payload : gmap string json :=
  payload_of (window_json (JInt 150) "2025-06-01T17:00:00Z")
             (window_json (JFloat (FFinite (25 # 2))) "2025-06-08T00:30:00-05:00").





(** A failed fetch. *)
Definition failure : gmap string json :=
  {["error" := JStr "Timeout connecting to Claude"]}.

(** A configuration saved by the manual command line after an automatic
    update. *)
Definition saved : gmap string json :=
  <["last_manual_update" := JStr "2025-05-31T09:00:00"]>
    (<["last_auto_update" := JStr "2025-05-30T08:00:00"]>
       (<["weekly_usage" := JInt 7]>
          (<["usage_percentage" := JInt 40]>
             {["five_hour_reset" := JStr "2025-06-01T17:00:00Z"]}))).


(** An indicator that has just started next to that configuration. *)
Definition restarted : state := fresh_state (Some (JObj saved)).

(** An indicator that shows 50 % and 20 % and has no configuration file. *)
Definition showing : state :=
  {| data := {| five_hour := {| usage := JInt 50; reset := Some reset_5h |};
                weekly := {| usage := JInt 20; reset := None |};
                last_update := None |};
     config_file := None;
     idle := [] |}.

(** The double quote. *)
Definition dq : string := String (ascii_of_N 34) EmptyString.

(** The text [get_usage.py --raw] prints for a response with a
    five-hour window at 63 %. *)
Definition response_text : string :=
  "{" ++ dq ++ "five_hour" ++ dq ++ ": {" ++ dq ++ "utilization" ++ dq
  ++ ": 63.0}}" ++ String (ascii_of_N 10) EmptyString.

Definition response_json : gmap string json :=
  {["five_hour" := JObj {["utilization" := JFloat (FFinite (63 # 1))]}]}.

(** [json.loads] and [json.dumps] on the one document of these examples,
    and the first line of a traceback. *)
Definition loads (text : string) : option json :=
  if String.eqb text response_text then Some (JObj response_json) else None.

Definition dumps (indent : option Z) (j : json) : string :=
  "{" ++ dq ++ "five_hour" ++ dq ++ ": {" ++ dq ++ "utilization" ++ dq ++ ": 63.0}}".

Definition traceback (e : exn) : string := "Traceback (most recent call last):".

(** [float] on integer literals. *)
Definition float_of_literal (s : string) : option pyfloat :=
  (fun z => FFinite (inject_Z z)) <$> PyStr.int_of_str s.

(** A browser that gets one answer to its navigation and sees no other
    response. *)
Definition answers (status : Z) (url : string) (cookies : list GetUsage.cookie)
  : GetUsage.session :=
  {| GetUsage.events := []; GetUsage.goto := GetUsage.Response status |}.

(** A browser whose navigation is answered 401 while a response of
    the same URL with status 200 and a payload is seen. *)
Definition answers_401_then_200 (url : string) (cookies : list GetUsage.cookie)
  : GetUsage.session :=
  {| GetUsage.events := [ {| GetUsage.r_url := url; GetUsage.r_status := 200;
                             GetUsage.r_json := Some (JObj payload) |} ];
     GetUsage.goto := GetUsage.Response 401 |}.

(** A browser that answers 200 with the payload at [expected] and 404
    everywhere else. *)
Definition answers_at (expected : string) (url : string)
  (cookies : list GetUsage.cookie) : GetUsage.session :=
  if String.eqb url expected then
    {| GetUsage.events := [ {| GetUsage.r_url := url; GetUsage.r_status := 200;
                               GetUsage.r_json := Some (JObj payload) |} ];
       GetUsage.goto := GetUsage.Response 200 |}
  else {| GetUsage.events := []; GetUsage.goto := GetUsage.Response 404 |}.

Definition world_with (text : string)
  (browse : string -> list GetUsage.cookie -> GetUsage.session) : GetUsage.world :=
  {| GetUsage.playwright := true;
     GetUsage.cookie_path := "/home/user/.config/claude-usage/cookies.txt";
     GetUsage.cookie_text := Some text;
     GetUsage.browse := browse |}.

(** A machine whose cookie file exists and is empty. *)
Definition blank_cookie_host : host :=
  {| script_world := world_with "" (answers 200);
     script_exists := true;
     timed_out := false |}.

End Examples.

(** ** More inputs, for the further properties *)

Module Scenarios.
Import DateTime Indicator.

(** The cookies a browser holds after a login: their domains and paths
    are the browser's. *)
Definition browser_cookies : list GetUsage.cookie :=
  [ {| GetUsage.name := "sessionKey"; GetUsage.value := "sk-ant-sid01";
       GetUsage.domain := ".claude.ai"; GetUsage.path := "/" |};
    {| GetUsage.name := "lastActiveOrg"; GetUsage.value := "1234";
       GetUsage.domain := "claude.ai"; GetUsage.path := "/settings" |} ].

(** A machine without cookie file yet, whose browser gets status 200 and
    sees no other response. *)
Definition before_login : GetUsage.world :=
  {| GetUsage.playwright := true;
     GetUsage.cookie_path := "/home/user/.config/claude-usage/cookies.txt";
     GetUsage.cookie_text := None;
     GetUsage.browse := Examples.answers 200 |}.

(** A browser whose navigation is answered 200 and that sees the
    response of the usage URL, with the example document as its body. *)
Definition answers_with_document (url : string) (cookies : list GetUsage.cookie)
  : GetUsage.session :=
  {| GetUsage.events := [ {| GetUsage.r_url := url; GetUsage.r_status := 200;
                             GetUsage.r_json := Some (JObj Examples.response_json) |} ];
     GetUsage.goto := GetUsage.Response 200 |}.

(** The machine of an indicator whose fetch succeeds. *)
Definition working_host : host :=
  {| script_world := Examples.world_with "sessionKey=abc" answers_with_document;
     script_exists := true;
     timed_out := false |}.

(** The machine of an indicator whose browser gets status 200 and no
    JSON body. *)
Definition challenged_host : host :=
  {| script_world := Examples.world_with "sessionKey=abc" (Examples.answers 200);
     script_exists := true;
     timed_out := false |}.

(** [float] on the literals of these scenarios. *)
Definition float_of_text (s : string) : option pyfloat :=
  if String.eqb s "99.5" then Some (FFinite (199 # 2))
  else Examples.float_of_literal s.

(** A response that has a seven-day window only, and its text. *)
Definition weekly_json : gmap string json :=
  {["seven_day" := JObj {["utilization" := JInt 37]}]}.

Definition weekly_text : string :=
  "{" ++ Examples.dq ++ "seven_day" ++ Examples.dq ++ ": {" ++ Examples.dq
  ++ "utilization" ++ Examples.dq ++ ": 37}}" ++ String (ascii_of_N 10) EmptyString.

Definition loads_weekly (text : string) : option json :=
  if String.eqb text weekly_text then Some (JObj weekly_json) else None.

(** A response without any window. *)
Definition windowless : gmap string json := {["status" := JStr "ok"]}.

(** Half past noon in UTC, which is half past two on the local clock. *)
Definition half_past_noon : Panel.clock :=
  {| Panel.utc_now := mk 2025 6 1 12 29 30 500000 (Some 0);
     Panel.local_now := mk 2025 6 1 14 29 30 500000 None |}.

(** No value of these scenarios is a [float], a [list] or a [dict]
    when its text is asked for. *)
Definition repr (v : json) : string := "?".

Definition exn_text (e : exn) : string :=
  match e with
  | ValueError => "invalid literal for int() with base 10: 'n/a'"
  | _ => "error"
  end.

(** The indicator's configuration saved at noon while it showed 50 %
    and 20 %. *)
Definition live_saved : gmap string json :=
  live_config (data Examples.showing) Examples.noon.

(** A poll that succeeds, a manual update, a poll that fails. *)
Definition busy_day : list System.event :=
  [ System.Poll (JObj Examples.payload) Examples.noon;
    System.Command ["update_claude_usage.py"; "45"] true TimeoutExpired Examples.later;
    System.Poll (JObj Examples.failure) Examples.later ].

End Scenarios.

(** * Properties *)

(** ** Strings *)

Module PyStrProofs.

Lemma append_cons c s t : (String c s ++ t)%string = String c (s ++ t)%string.
Proof. reflexivity. Qed.

Lemma append_nil t : ("" ++ t)%string = t.
Proof. reflexivity. Qed.

Lemma append_nil_r s : (s ++ "")%string = s.
Proof. induction s as [|c s IH]; [done|]. by rewrite append_cons, IH. Qed.

Lemma append_assoc (a b c : string) : ((a ++ b) ++ c)%string = (a ++ b ++ c)%string.
Proof. induction a as [|x a IH]; [done|]. by rewrite !append_cons, IH. Qed.

Lemma length_append (a b : string) :
  String.length (a ++ b) = (String.length a + String.length b)%nat.
Proof. induction a as [|x a IH]; [done|]. rewrite append_cons. simpl. by rewrite IH. Qed.

Lemma all_chars_app P a b :
  PyStr.all_chars P (a ++ b) = PyStr.all_chars P a && PyStr.all_chars P b.
Proof.
  induction a as [|x a IH]; [done|]. rewrite append_cons. simpl.
  by rewrite IH, andb_assoc.
Qed.

Lemma all_chars_weaken (P Q : ascii -> bool) s :
  (forall c, P c = true -> Q c = true) ->
  PyStr.all_chars P s = true -> PyStr.all_chars Q s = true.
Proof.
  intros H. induction s as [|c s IH]; [done|]. simpl.
  intros [Hc Hs]%andb_prop. by rewrite (H _ Hc), IH.
Qed.

Lemma find_absent x s :
  PyStr.all_chars (PyStr.other_than x) s = true -> PyStr.find x s = None.
Proof.
  induction s as [|c s IH]; [done|]. simpl. unfold PyStr.other_than at 1.
  intros [Hc Hs]%andb_prop. apply negb_true_iff in Hc. by rewrite Hc, IH.
Qed.

Lemma find_after x a b :
  PyStr.all_chars (PyStr.other_than x) a = true ->
  PyStr.find x (a ++ String x b) = Some (String.length a).
Proof.
  induction a as [|c a IH].
  - intros _. rewrite append_nil. simpl. by rewrite Ascii.eqb_refl.
  - rewrite append_cons. simpl. unfold PyStr.other_than at 1.
    intros [Hc Hs]%andb_prop. apply negb_true_iff in Hc. by rewrite Hc, IH.
Qed.

Lemma take_app a b : PyStr.take (String.length a) (a ++ b) = a.
Proof.
  induction a as [|c a IH]; [by destruct b|].
  rewrite append_cons. simpl. by rewrite IH.
Qed.

Lemma drop_app a b : PyStr.drop (String.length a) (a ++ b) = b.
Proof. induction a as [|c a IH]; [done|]. by rewrite append_cons. Qed.

Lemma replace_absent x by_ s :
  PyStr.all_chars (PyStr.other_than x) s = true -> PyStr.replace x by_ s = s.
Proof.
  induction s as [|c s IH]; [done|]. simpl. unfold PyStr.other_than at 1.
  intros [Hc Hs]%andb_prop. apply negb_true_iff in Hc. by rewrite Hc, IH.
Qed.

Lemma drop_S_app a x b : PyStr.drop (S (String.length a)) (a ++ String x b) = b.
Proof. induction a as [|c a IH]; [done|]. by rewrite append_cons. Qed.

Lemma find_lstrip c s : is_Some (PyStr.find c (PyStr.lstrip s)) -> is_Some (PyStr.find c s).
Proof.
  induction s as [|a s IH]; [done|]. simpl.
  destruct (PyStr.isspace a); [|done].
  intros H. destruct (Ascii.eqb a c); [by eexists|].
  destruct (IH H) as [i ->]. by eexists.
Qed.

Lemma find_rstrip c s : is_Some (PyStr.find c (PyStr.rstrip s)) -> is_Some (PyStr.find c s).
Proof.
  induction s as [|a s IH]; [done|]. simpl.
  destruct (Ascii.eqb a c) eqn:E; [by eexists|].
  destruct (PyStr.rstrip s) as [|b t] eqn:R.
  - destruct (PyStr.isspace a); simpl; [by intros [? ?]|].
    rewrite E. by intros [? ?].
  - simpl. rewrite E. intros H.
    destruct (IH) as [i ->]; [|by eexists].
    destruct (if Ascii.eqb b c then Some 0%nat else S <$> PyStr.find c t) eqn:F;
      [by eexists|]. simpl in H. by destruct H.
Qed.

Lemma find_strip c s : is_Some (PyStr.find c (PyStr.strip s)) -> is_Some (PyStr.find c s).
Proof. intros H. by apply find_lstrip, find_rstrip. Qed.

Lemma find_none_strip c s : PyStr.find c s = None -> PyStr.find c (PyStr.strip s) = None.
Proof.
  intros H. destruct (PyStr.find c (PyStr.strip s)) eqn:E; [|done].
  destruct (find_strip c s) as [i Hi]; [by eexists|]. congruence.
Qed.

Ltac string_cons := rewrite ?append_cons, ?append_nil.

End PyStrProofs.

(** ** The reconciliation policy of [fetch_usage] *)

Module IndicatorProofs.
Import Indicator DateTime.

(** Unfolds the sequencing of statements, not the statements. *)
Ltac step_stmt :=
  unfold mbind, stmt_bind, bind, lift, modify, read, pure, mret, stmt_ret;
  cbn beta iota.

(** *** Outcomes *)

Lemma truthy_lookup (fm : gmap string json) k v :
  fm !! k = Some v -> Py.truthy (JObj fm) = true.
Proof.
  intros H. simpl. rewrite bool_decide_eq_false_2; [done|].
  intros Hs. apply map_size_empty_iff in Hs. subst fm. by rewrite lookup_empty in H.
Qed.

Lemma is_success_error_dict (m : gmap string json) (msg : json) :
  m !! "error" = Some msg -> is_success (JObj m) = Ok false.
Proof.
  intros H. unfold is_success. rewrite (truthy_lookup _ _ _ H). simpl.
  rewrite bool_decide_eq_true_2; [done|]. by rewrite H.
Qed.

Lemma is_success_payload (m : gmap string json) :
  Py.truthy (JObj m) = true -> m !! "error" = None -> is_success (JObj m) = Ok true.
Proof.
  intros T H. unfold is_success. rewrite T. simpl.
  rewrite bool_decide_eq_false_2; [done|]. rewrite H. by intros [? ?].
Qed.

Lemma no_live_data_is_failure api :
  no_live_data api -> is_success api = Ok false.
Proof.
  intros [-> | (m & msg & -> & H)]; [done|]. eapply is_success_error_dict, H.
Qed.

Lemma error_dict_no_live_data (m : gmap string json) msg :
  m !! "error" = Some msg -> no_live_data (JObj m).
Proof. intros H. right. by exists m, msg. Qed.

(** *** The cached case *)

(** The first statement of case 2 queues the error of a failed fetch for
    display and changes nothing else. *)
Lemma report_error_step api s :
  no_live_data api ->
  exists s0,
    (forall (k : unit -> stmt source),
       ((if Py.truthy api
         then has ← lift (Py.contains "error" api);
              if (has : bool)
              then msg ← lift (Py.getitem api "error");
                   modify (idle_add (ShowError msg))
              else pure tt
         else pure tt) ≫= k) s = k tt s0)
    /\ config_file s0 = config_file s /\ data s0 = data s.
Proof.
  intros [-> | (m & msg & -> & Hm)].
  - exists s. split; [|done]. intros k. by step_stmt.
  - exists (idle_add (ShowError msg) s). split; [|done]. intros k.
    rewrite (truthy_lookup _ _ _ Hm). step_stmt. simpl.
    rewrite bool_decide_eq_true_2 by (by rewrite Hm). by rewrite Hm.
Qed.

(** Reading a saved reset time touches neither the configuration file,
    nor the callbacks, nor a utilization; it fails only on a value that
    is neither a [str] nor skipped. *)
Lemma load_reset_frame (c : gmap string json) key upd s :
  window_setter upd ->
  exists s' r, load_reset (JObj c) key upd s = (s', r)
    /\ config_file s' = config_file s /\ idle s' = idle s
    /\ usage (five_hour (data s')) = usage (five_hour (data s))
    /\ usage (weekly (data s')) = usage (weekly (data s))
    /\ (r = Ok tt \/ r = Raise AttributeError)
    /\ (reset_readable c key -> r = Ok tt).
Proof.
  intros Hupd. unfold load_reset, reset_readable. step_stmt. simpl.
  destruct (c !! key) as [v|]; simpl; [|by eauto 10].
  destruct (Py.truthy v) eqn:T; [|by eauto 10].
  destruct v; simpl; try (do 2 eexists; split; [reflexivity|];
    repeat split; auto; congruence).
  destruct (fromisoformat _); [|by eauto 10].
  do 2 eexists; split; [reflexivity|].
  destruct Hupd as [-> | ->]; simpl; auto 10.
Qed.

(** Case 2 for an outcome without live data and a saved [dict]. *)
Lemma cached_branch (api : json) (c : gmap string json) now s :
  no_live_data api ->
  config_file s = Some (JObj c) ->
  exists s' r, fetch_usage api now s = (s', r)
    /\ config_file s' = Some (JObj c)
    /\ usage (five_hour (data s'))
       = default (default (JInt 0) (c !! "usage_percentage")) (c !! "five_hour_usage")
    /\ usage (weekly (data s')) = default (JInt 0) (c !! "weekly_usage")
    /\ (r = Ok Cached \/ r = Raise AttributeError)
    /\ (reset_readable c "five_hour_reset" -> reset_readable c "weekly_reset"
        -> r = Ok Cached).
Proof.
  intros Hapi Hc.
  unfold fetch_usage, fetch_usage_body.
  unfold mbind at 1, stmt_bind at 1, bind at 1, lift at 1.
  rewrite (no_live_data_is_failure _ Hapi).
  unfold mbind at 1, stmt_bind at 1, bind at 1, read at 1. rewrite Hc.
  destruct (report_error_step api s Hapi) as (s0 & E0 & Hc0 & Hd0).
  rewrite E0. clear E0.
  unfold Py.get. step_stmt.
  match goal with |- context [load_reset _ "five_hour_reset" _ ?s1] =>
    destruct (load_reset_frame c "five_hour_reset" with_five_hour s1)
      as (s2 & r2 & E2 & Hc2 & Hi2 & Hf2 & Hw2 & Hr2 & Hok2); [by left|]
  end.
  rewrite E2.
  destruct (load_reset_frame c "weekly_reset" with_weekly s2)
      as (s3 & r3 & E3 & Hc3 & Hi3 & Hf3 & Hw3 & Hr3 & Hok3); [by right|].
  simpl in Hc2, Hf2, Hw2. rewrite Hc0, Hc in Hc2.
  destruct r2 as [[]|e2].
  - rewrite E3. destruct r3 as [[]|e3].
    + do 2 eexists; split; [reflexivity|]. simpl.
      rewrite Hc3, Hc2, Hf3, Hf2, Hw3, Hw2. auto 10.
    + do 2 eexists; split; [reflexivity|]. simpl.
      rewrite Hc3, Hc2, Hf3, Hf2, Hw3, Hw2.
      repeat split; auto.
      * destruct Hr3 as [?|?]; [discriminate|]. right; congruence.
      * intros _ H3. specialize (Hok3 H3). discriminate.
  - do 2 eexists; split; [reflexivity|]. simpl.
    rewrite Hc2, Hf2, Hw2. repeat split; auto.
    + destruct Hr2 as [?|?]; [discriminate|]. right; congruence.
    + intros H2 _. specialize (Hok2 H2). discriminate.
Qed.

(** *** Statements that leave the configuration file alone *)

Lemma keeps_bind {A B X} (f : state -> X) (m : stmt A) (k : A -> stmt B) :
  keeps f m -> (forall a, keeps f (k a)) -> keeps f (m ≫= k).
Proof.
  intros Hm Hk s s' r. unfold mbind, stmt_bind, bind.
  destruct (m s) as [s1 [a|e]] eqn:E.
  - intros H. rewrite (Hk a _ _ _ H). eapply Hm, E.
  - intros [= <- <-]. eapply Hm, E.
Qed.

Lemma keeps_lift {A X} (f : state -> X) (r : res A) : keeps f (lift r).
Proof. by intros s s' r' [= <- _]. Qed.

Lemma keeps_pure {A X} (f : state -> X) (a : A) : keeps f (pure a).
Proof. by intros s s' r' [= <- _]. Qed.

Lemma keeps_read {A X} (f : state -> X) (g : state -> A) : keeps f (read g).
Proof. by intros s s' r' [= <- _]. Qed.

Lemma keeps_config_set_data g : keeps config_file (modify (set_data g)).
Proof. by intros s s' r' [= <- _]. Qed.

Lemma keeps_config_idle_add e : keeps config_file (modify (idle_add e)).
Proof. by intros s s' r' [= <- _]. Qed.

Ltac keeps_config :=
  repeat first
    [ apply keeps_lift | apply keeps_pure | apply keeps_read
    | apply keeps_config_set_data | apply keeps_config_idle_add
    | apply keeps_bind; [|intros]
    | match goal with
      | |- keeps _ (if ?b then _ else _) => destruct b
      | |- keeps _ (match ?x with _ => _ end) => destruct x
      end ].

Lemma keeps_config_parse_window w upd : keeps config_file (parse_window w upd).
Proof. unfold parse_window. keeps_config. Qed.

Lemma keeps_config_parse_api_usage api : keeps config_file (_parse_api_usage api).
Proof.
  unfold _parse_api_usage.
  keeps_config; apply keeps_config_parse_window.
Qed.

Lemma keeps_config_load_reset config key upd :
  keeps config_file (load_reset config key upd).
Proof. unfold load_reset. keeps_config. Qed.

(** The configuration file after [fetch_usage]: untouched, or the one of
    case 1, or the one of case 3 when there was none. *)
Lemma fetch_usage_config api now s :
  config_file (fst (fetch_usage api now s)) = config_file s
  \/ (exists u, config_file (fst (fetch_usage api now s)) = Some (JObj (live_config u now)))
  \/ (config_file s = None
      /\ config_file (fst (fetch_usage api now s)) = Some (JObj example_config)).
Proof.
  unfold fetch_usage, fetch_usage_body.
  unfold mbind at 1, stmt_bind at 1, bind at 1, lift at 1.
  destruct (is_success api) as [[|]|e]; [| |by left].
  - step_stmt.
    destruct (_parse_api_usage api s) as [s1 [[]|e]] eqn:E.
    + right; left. simpl. eauto.
    + left. simpl. eapply keeps_config_parse_api_usage, E.
  - unfold mbind at 1, stmt_bind at 1, bind at 1, read at 1.
    destruct (config_file s) as [config|] eqn:Hc.
    + left.
      match goal with |- context [let (_, _) := ?m s in _] =>
        assert (keeps config_file m) as K; [|destruct (m s) as [s1 r] eqn:E]
      end.
      { keeps_config; apply keeps_config_load_reset. }
      rewrite <- Hc, <- (K _ _ _ E). destruct r; reflexivity.
    + right; right. step_stmt. rewrite Hc. by simpl.
Qed.

Lemma live_config_readable u now key :
  key = "five_hour_reset" \/ key = "weekly_reset" ->
  reset_readable (live_config u now) key.
Proof.
  unfold reset_readable, live_config.
  intros [-> | ->];
    destruct (reset (five_hour u)), (reset (weekly u)); by simplify_map_eq.
Qed.

(** Once readable, the configuration file stays readable whatever the
    polls bring. *)
Lemma readable_config_fetch_usage api now s :
  readable_config s -> readable_config (fst (fetch_usage api now s)).
Proof.
  intros (c & Hc & H5 & H7).
  destruct (fetch_usage_config api now s) as [E | [(u & E) | (E0 & _)]].
  - exists c. by rewrite E.
  - exists (live_config u now). rewrite E.
    split; [done|]. split; apply live_config_readable; auto.
  - congruence.
Qed.

Lemma readable_config_polls history s :
  readable_config s -> readable_config (polls history s).
Proof.
  revert s. induction history as [|[api now] h IH]; intros s Hs; [done|].
  apply IH, readable_config_fetch_usage, Hs.
Qed.


(** C2. Without live data and without a configuration file,
    [fetch_usage] runs the default case: both utilizations are 0 and the
    placeholder configuration is written.  From then on, whatever polls
    come in between, a poll whose fetch failed takes the cached case. *)
Theorem first_run_writes_placeholder (api : json) (now : datetime) (s : state) :
  no_live_data api ->
  config_file s = None ->
  exists s', fetch_usage api now s = (s', Ok Default)
    /\ usage (five_hour (data s')) = JInt 0
    /\ usage (weekly (data s')) = JInt 0
    /\ config_file s' = Some (JObj example_config)
    /\ forall history (m : gmap string json) msg now',
         m !! "error" = Some msg ->
         snd (fetch_usage (JObj m) now' (polls history s')) = Ok Cached.
Proof.
  intros Hapi Hc.
  exists (idle_add UpdateUI
            (set_data (with_weekly (set_usage (JInt 0)))
               (set_data (with_five_hour (set_usage (JInt 0)))
                  (write_config (JObj example_config) s)))).
  split.
  { unfold fetch_usage, fetch_usage_body.
    unfold mbind at 1, stmt_bind at 1, bind at 1, lift at 1.
    rewrite (no_live_data_is_failure _ Hapi).
    step_stmt. by rewrite Hc. }
  do 3 (split; [reflexivity|]).
  intros history m msg now' Hm.
  match goal with |- context [polls history ?s1] =>
    assert (readable_config (polls history s1)) as (c & Hc' & H5 & H7)
  end.
  { apply readable_config_polls. exists example_config. by split. }
  destruct (cached_branch (JObj m) c now' _ (error_dict_no_live_data _ _ Hm) Hc')
    as (s2 & r & E & _ & _ & _ & _ & Hr).
  rewrite E. simpl. auto.
Qed.

(** *** Parsing the windows of a payload *)

(** What the block for one window does with a non-empty object. *)
Lemma parse_window_dict (fm : gmap string json) upd s :
  Py.truthy (JObj fm) = true ->
  parse_window (JObj fm) upd s =
    match Py.int (default (JInt 0) (fm !! "utilization")) with
    | Raise e => (s, Raise e)
    | Ok n =>
        let s1 := set_data (upd (set_usage (JInt n))) s in
        let resets_at := default JNull (fm !! "resets_at") in
        if Py.truthy resets_at then
          match try_parse_reset resets_at with
          | Ok (Some d) => (set_data (upd (set_reset d)) s1, Ok tt)
          | Ok None => (s1, Ok tt)
          | Raise e => (s1, Raise e)
          end
        else (s1, Ok tt)
    end.
Proof.
  intros T. unfold parse_window. rewrite T. unfold Py.get. step_stmt.
  destruct (Py.int _) as [n|e]; [|done]. cbn zeta.
  destruct (Py.truthy (default JNull (fm !! "resets_at"))); [|done].
  by destruct (try_parse_reset _) as [[d|]|e].
Qed.

(** Case 1 once the payload is parsed. *)
Lemma live_branch (api : json) now s s1 :
  is_success api = Ok true ->
  _parse_api_usage api s = (s1, Ok tt) ->
  fetch_usage api now s
  = (idle_add UpdateUI (write_config (JObj (live_config (data s1) now)) s1), Ok Live).
Proof.
  intros Hs Hp. unfold fetch_usage, fetch_usage_body.
  unfold mbind at 1, stmt_bind at 1, bind at 1, lift at 1. rewrite Hs.
  step_stmt. by rewrite Hp.
Qed.











(** *** Statements that do not look at the configuration file *)

Lemma blind_bind {A B} (m : stmt A) (k : A -> stmt B) :
  config_blind m -> (forall a, config_blind (k a)) -> config_blind (m ≫= k).
Proof.
  intros Hm Hk c s. unfold mbind, stmt_bind, bind. rewrite Hm.
  destruct (m s) as [s1 [a|e]]; simpl; [|done].
  rewrite Hk. by destruct (k a s1).
Qed.

Lemma blind_lift {A} (r : res A) : config_blind (lift r).
Proof. by intros c s. Qed.

Lemma blind_pure {A} (a : A) : config_blind (pure a).
Proof. by intros c s. Qed.

Lemma blind_set_data g : config_blind (modify (set_data g)).
Proof. by intros c s. Qed.

Lemma blind_idle_add e : config_blind (modify (idle_add e)).
Proof. by intros c s. Qed.

Ltac blind :=
  repeat first
    [ apply blind_lift | apply blind_pure
    | apply blind_set_data | apply blind_idle_add
    | apply blind_bind; [|intros]
    | match goal with
      | |- config_blind (if ?b then _ else _) => destruct b
      | |- config_blind (match ?x with _ => _ end) => destruct x
      end ].

Lemma blind_parse_api_usage api : config_blind (_parse_api_usage api).
Proof. unfold _parse_api_usage, parse_window. blind. Qed.

Lemma returns_bind {A B} (P : B -> Prop) (m : stmt A) (k : A -> stmt B) :
  (forall a, returns P (k a)) -> returns P (m ≫= k).
Proof.
  intros Hk s s' b. unfold mbind, stmt_bind, bind.
  destruct (m s) as [s1 [a|e]]; [apply Hk|done].
Qed.

Lemma returns_pure {A} (P : A -> Prop) (a : A) : P a -> returns P (pure a).
Proof. by intros H s s' b [= _ <-]. Qed.

(** The live case is the one that ran exactly when the outcome was a
    success and its payload was parsed to the end. *)
Lemma live_inversion api now s s' :
  fetch_usage api now s = (s', Ok Live) ->
  is_success api = Ok true
  /\ exists s1, _parse_api_usage api s = (s1, Ok tt)
       /\ s' = idle_add UpdateUI (write_config (JObj (live_config (data s1) now)) s1).
Proof.
  unfold fetch_usage, fetch_usage_body.
  unfold mbind at 1, stmt_bind at 1, bind at 1, lift at 1.
  destruct (is_success api) as [[|]|e]; [| |done].
  - step_stmt. destruct (_parse_api_usage api s) as [s1 [[]|e]]; [|done].
    intros [= <-]. eauto.
  - match goal with |- (let (_, _) := ?m s in _) = _ -> _ =>
      assert (returns (fun src => src <> Live) m) as R;
        [|destruct (m s) as [s1 [src|e]] eqn:E; [|done]]
    end.
    { apply returns_bind; intros [config|];
        repeat (apply returns_bind; intros); by apply returns_pure. }
    intros [= _ ->]. by destruct (R _ _ _ E).
Qed.

(** Case 1 gives the same state whatever configuration file it finds. *)
Lemma live_case_ignores_old_config api now s s' c :
  fetch_usage api now s = (s', Ok Live) ->
  fetch_usage api now (with_config_file c s) = (s', Ok Live).
Proof.
  intros H. destruct (live_inversion _ _ _ _ H) as (Hs & s1 & Hp & ->).
  pose proof (blind_parse_api_usage api c s) as B. rewrite Hp in B. simpl in B.
  by rewrite (live_branch _ _ _ _ Hs B).
Qed.

Lemma live_config_keys u now k :
  k ∉ live_keys -> live_config u now !! k = None.
Proof.
  unfold live_keys, live_config. intros Hk.
  repeat (apply not_elem_of_cons in Hk as [? Hk]).
  destruct (reset (five_hour u)), (reset (weekly u)); by simplify_map_eq.
Qed.

(** *** The statements above on the example inputs *)


(** C2 when nothing was attempted, for an indicator without a file;
    a success comes in between, and the next timeout is served from the
    file. *)
Lemma first_run_witness :
  no_live_data JNull
  /\ config_file Examples.showing = None
  /\ exists s', fetch_usage JNull Examples.noon Examples.showing = (s', Ok Default)
       /\ usage (five_hour (data s')) = JInt 0
       /\ usage (weekly (data s')) = JInt 0
       /\ config_file s' = Some (JObj example_config)
       /\ snd (fetch_usage (JObj Examples.failure) Examples.later
                 (polls [(JObj Examples.payload, Examples.later)] s')) = Ok Cached.
Proof.
  split; [by left|]. split; [reflexivity|].
  destruct (first_run_writes_placeholder JNull Examples.noon Examples.showing
              (or_introl eq_refl) eq_refl)
    as (s' & E & H5 & H7 & Hc & Hnext).
  exists s'. do 4 (split; [assumption|]).
  exact (Hnext [(JObj Examples.payload, Examples.later)] Examples.failure _
           Examples.later eq_refl).
Defined.






End IndicatorProofs.

(** ** [update_claude_usage.py] and what survives a write *)

Module UpdaterProofs.
Import Indicator Updater DateTime.

(** [fetch_and_update] on a response whose five-hour window can be
    read: the saved configuration with three keys assigned. *)
Lemma fetch_and_update_five_hour
  (json_loads : string -> option json) (out err : string)
  (d f c : gmap string json) (n : Z) (now : datetime) :
  PyStr.strip out <> "" ->
  json_loads out = Some (JObj d) ->
  d !! "five_hour" = Some (JObj f) ->
  Py.truthy (JObj f) = true ->
  Py.int (default (JInt 0) (f !! "utilization")) = Ok n ->
  fetch_and_update json_loads true (Completed 0 out err) now (Some (JObj c))
  = (Some (JObj
       (let c2 := <["last_auto_update" := JStr (isoformat now)]>
                    (<["usage_percentage" := JInt n]> c) in
        let resets_at := default JNull (f !! "resets_at") in
        if Py.truthy resets_at then <["reset_at" := resets_at]> c2 else c2)),
     Ok true).
Proof.
  intros Hout Hl Hd Ht Hn. unfold fetch_and_update. cbn [negb].
  rewrite Z.eqb_refl. cbn [negb orb].
  destruct (String.eqb_spec (PyStr.strip out) "") as [E|_]; [done|].
  rewrite Hl. unfold merged_config, Py.get.
  rewrite Hd. cbn [default from_option id].
  unfold mbind, res_bind. cbn beta iota. rewrite Ht. cbn beta iota.
  rewrite Ht, Hn. cbn [Py.setitem].
  by destruct (Py.truthy (default JNull (f !! "resets_at"))).
Qed.

(** C4 (amended). The live case of the indicator's [fetch_usage]
    replaces the configuration file by the five keys it computes: a key
    it does not compute is absent afterwards, and the state reached does
    not depend on the file that was there.  The [fetch] command of
    [update_claude_usage.py] does not: [fetch_and_update] assigns
    [usage_percentage], [last_auto_update] and, when the response has
    one, [reset_at] in the saved configuration, and every other saved
    key is written back unchanged. *)
Theorem live_case_overwrites_and_cli_merges
  (api : json) (now : datetime) (s s' : state)
  (json_loads : string -> option json) (out err : string)
  (d f c : gmap string json) (n : Z) (now' : datetime) :
  fetch_usage api now s = (s', Ok Live) ->
  PyStr.strip out <> "" ->
  json_loads out = Some (JObj d) ->
  d !! "five_hour" = Some (JObj f) ->
  Py.truthy (JObj f) = true ->
  Py.int (default (JInt 0) (f !! "utilization")) = Ok n ->
  (config_file s' = Some (JObj (live_config (data s') now))
   /\ (forall k, k ∉ live_keys -> live_config (data s') now !! k = None)
   /\ live_config (data s') now !! "last_manual_update" = None
   /\ (forall c0, fetch_usage api now (with_config_file c0 s) = (s', Ok Live)))
  /\ exists c' : gmap string json,
       fetch_and_update json_loads true (Completed 0 out err) now' (Some (JObj c))
       = (Some (JObj c'), Ok true)
       /\ c' !! "usage_percentage" = Some (JInt n)
       /\ c' !! "last_auto_update" = Some (JStr (isoformat now'))
       /\ (forall k, k ∉ ["usage_percentage"; "last_auto_update"; "reset_at"] ->
           c' !! k = c !! k)
       /\ c' !! "last_manual_update" = c !! "last_manual_update".
Proof.
  intros Hlive Hout Hl Hd Ht Hn. split.
  - destruct (IndicatorProofs.live_inversion _ _ _ _ Hlive) as (_ & s1 & _ & ->).
    split; [done|]. split; [apply IndicatorProofs.live_config_keys|].
    split.
    + apply IndicatorProofs.live_config_keys. unfold live_keys.
      rewrite !not_elem_of_cons. repeat split; try done. apply not_elem_of_nil.
    + intros c0. by apply IndicatorProofs.live_case_ignores_old_config.
  - eexists. split; [by apply (fetch_and_update_five_hour _ _ _ d)|].
    cbn zeta.
    assert (forall k (c' : gmap string json),
      c' = (if Py.truthy (default JNull (f !! "resets_at"))
            then <["reset_at" := default JNull (f !! "resets_at")]>
                   (<["last_auto_update" := JStr (isoformat now')]>
                      (<["usage_percentage" := JInt n]> c))
            else <["last_auto_update" := JStr (isoformat now')]>
                   (<["usage_percentage" := JInt n]> c)) ->
      k <> "reset_at" ->
      c' !! k = (<["last_auto_update" := JStr (isoformat now')]>
                   (<["usage_percentage" := JInt n]> c)) !! k) as Hk.
    { intros k c' -> Hne.
      destruct (Py.truthy (default JNull (f !! "resets_at"))); [|done].
      rewrite lookup_insert_ne; [done|congruence]. }
    split; [rewrite (Hk _ _ eq_refl) by done; by simplify_map_eq|].
    split; [rewrite (Hk _ _ eq_refl) by done; by simplify_map_eq|].
    split.
    + intros k Hnot. repeat (apply not_elem_of_cons in Hnot as [? Hnot]).
      rewrite (Hk _ _ eq_refl) by done. by simplify_map_eq.
    + rewrite (Hk _ _ eq_refl) by done. by simplify_map_eq.
Qed.

(** [update_usage] on a percentage in range: two keys assigned in the
    configuration it starts from. *)
Lemma update_usage_writes (q : Q) (now : datetime) (config_file : option json)
  (c0 : gmap string json) :
  default (JObj default_config) config_file = JObj c0 ->
  update_usage (FFinite q) now config_file
  = (Some (JObj (<["last_manual_update" := JStr (isoformat now)]>
                   (<["usage_percentage" := JInt (Z.quot (Qnum q) (Zpos (Qden q)))]> c0))),
     Ok tt).
Proof. intros H. unfold update_usage. by rewrite H. Qed.

(** C9. Run with the argument [45], the command line writes
    [usage_percentage = 45] and [last_manual_update], the clock reading
    in ISO format, into the saved configuration (the built-in one when
    no file exists); every other key, [last_auto_update] among them,
    keeps the value it had. *)
Theorem manual_update_45
  (json_loads : string -> option json) (py_float : string -> option pyfloat)
  (prog : string) (rest : list string) (cookie_exists : bool) (run : run_result)
  (now : datetime) (config_file : option json) (c0 : gmap string json) :
  py_float "45" = Some (FFinite (inject_Z 45)) ->
  default (JObj default_config) config_file = JObj c0 ->
  exists c' : gmap string json,
    main json_loads py_float (prog :: "45" :: rest) cookie_exists run now config_file
    = (Some (JObj c'), Exit 0)
    /\ c' !! "usage_percentage" = Some (JInt 45)
    /\ c' !! "last_manual_update" = Some (JStr (isoformat now))
    /\ (forall k, k <> "usage_percentage" -> k <> "last_manual_update" ->
        c' !! k = c0 !! k)
    /\ c' !! "last_auto_update" = c0 !! "last_auto_update".
Proof.
  intros Hf Hc. eexists. split.
  - unfold main. cbn [PyStr.lower]. simpl String.eqb. cbn iota.
    rewrite Hf. simpl in_range. cbn iota.
    by rewrite (update_usage_writes _ _ _ _ Hc).
  - simpl Z.quot. split; [by simplify_map_eq|]. split; [by simplify_map_eq|].
    split; [intros k ? ?|]; by simplify_map_eq.
Qed.

(** *** The statements above on the example inputs *)

(** C4 (amended) on the example configuration, which holds a
    [last_manual_update]: the indicator's live case drops the key, the
    [fetch] command keeps it. *)
Lemma overwrite_and_merge_witness :
  fetch_usage (JObj Examples.payload) Examples.noon Examples.restarted
  = (fst (fetch_usage (JObj Examples.payload) Examples.noon Examples.restarted), Ok Live)
  /\ PyStr.strip Examples.response_text <> ""
  /\ Examples.loads Examples.response_text = Some (JObj Examples.response_json)
  /\ (exists c1 : gmap string json,
        config_file (fst (fetch_usage (JObj Examples.payload) Examples.noon
                            Examples.restarted)) = Some (JObj c1)
        /\ c1 !! "last_manual_update" = None)
  /\ exists c' : gmap string json,
       fetch_and_update Examples.loads true (Completed 0 Examples.response_text "")
         Examples.later (Some (JObj Examples.saved))
       = (Some (JObj c'), Ok true)
       /\ c' !! "usage_percentage" = Some (JInt 63)
       /\ c' !! "last_manual_update" = Some (JStr "2025-05-31T09:00:00").
Proof.
  assert (PyStr.strip Examples.response_text <> "") as Hout by (by vm_compute).
  split; [reflexivity|]. split; [exact Hout|]. split; [reflexivity|].
  destruct (live_case_overwrites_and_cli_merges
              (JObj Examples.payload) Examples.noon Examples.restarted _
              Examples.loads Examples.response_text ""
              Examples.response_json
              {["utilization" := JFloat (FFinite (63 # 1))]}
              Examples.saved 63 Examples.later
              eq_refl Hout eq_refl eq_refl eq_refl eq_refl)
    as ((Hc & _ & Hgone & _) & c' & E & Hp & _ & _ & Hkept).
  split.
  - eexists. split; [exact Hc|exact Hgone].
  - exists c'. split; [exact E|]. split; [exact Hp|]. rewrite Hkept. reflexivity.
Defined.

(** C4 as stated fails on the [fetch] command: the [last_manual_update]
    saved before is still in the file after a successful update. *)
Lemma fetch_command_keeps_manual_stamp :
  exists c' : gmap string json,
    fetch_and_update Examples.loads true (Completed 0 Examples.response_text "")
      Examples.later (Some (JObj Examples.saved))
    = (Some (JObj c'), Ok true)
    /\ c' !! "last_manual_update" = Some (JStr "2025-05-31T09:00:00")
    /\ c' !! "weekly_usage" = Some (JInt 7).
Proof. eexists. repeat split; vm_compute; reflexivity. Qed.

(** C9 on the example configuration: 45 is written, the automatic
    stamp of the day before is still there. *)
Lemma manual_update_witness :
  Examples.float_of_literal "45" = Some (FFinite (inject_Z 45))
  /\ exists c' : gmap string json,
       main Examples.loads Examples.float_of_literal ["update_claude_usage.py"; "45"]
         true TimeoutExpired Examples.noon (Some (JObj Examples.saved))
       = (Some (JObj c'), Exit 0)
       /\ c' !! "usage_percentage" = Some (JInt 45)
       /\ c' !! "last_manual_update" = Some (JStr "2025-06-01T12:00:00")
       /\ c' !! "last_auto_update" = Some (JStr "2025-05-30T08:00:00").
Proof.
  split; [reflexivity|].
  destruct (manual_update_45 Examples.loads Examples.float_of_literal
              "update_claude_usage.py" [] true TimeoutExpired Examples.noon
              (Some (JObj Examples.saved)) Examples.saved eq_refl eq_refl)
    as (c' & E & Hp & Hm & _ & Ha).
  exists c'. split; [exact E|]. split; [exact Hp|]. split; [exact Hm|].
  rewrite Ha. reflexivity.
Defined.

End UpdaterProofs.

(** ** [get_usage.py]: cookies, organisation and classification *)

Module GetUsageProofs.
Import GetUsage PyStrProofs.

Lemma prefix_app p t : String.prefix p t = true -> exists r, t = (p ++ r)%string.
Proof.
  revert t. induction p as [|a p IH]; intros t; [by exists t|].
  destruct t as [|b t]; [done|]. simpl.
  destruct (ascii_dec a b) as [->|]; [|done].
  intros H. destruct (IH _ H) as [r ->]. by exists r.
Qed.

Lemma prefix_app_intro p r : String.prefix p (p ++ r) = true.
Proof.
  induction p as [|a p IH]; [by destruct r|].
  rewrite append_cons. simpl. by destruct (ascii_dec a a).
Qed.

Lemma isspace_not_eq c : PyStr.isspace c = true -> Ascii.eqb c "=" = false.
Proof.
  intros H. destruct (Ascii.eqb_spec c "=") as [->|]; [|done]. by vm_compute in H.
Qed.

Lemma split1_snd_cons c s :
  Ascii.eqb c "=" = false -> PyStr.split1_snd "=" (String c s) = PyStr.split1_snd "=" s.
Proof.
  intros H. unfold PyStr.split1_snd. simpl. rewrite H.
  by destruct (PyStr.find "=" s).
Qed.

(** A segment that is [lastActiveOrg=v] after some white space: what
    follows its first ["="] is [v]. *)
Lemma split1_snd_org ws v :
  PyStr.all_space ws = true ->
  PyStr.split1_snd "=" (ws ++ "lastActiveOrg=" ++ v)%string = Ok v.
Proof.
  induction ws as [|c ws IH]; [done|]. rewrite append_cons. cbn [PyStr.all_space].
  intros [Hc Hws]%andb_prop.
  rewrite split1_snd_cons by by apply isspace_not_eq. by apply IH.
Qed.

Lemma lstrip_org ws v :
  PyStr.all_space ws = true ->
  PyStr.lstrip (ws ++ "lastActiveOrg=" ++ v)%string = ("lastActiveOrg=" ++ v)%string.
Proof.
  induction ws as [|c ws IH]; [done|]. rewrite append_cons. cbn [PyStr.all_space].
  intros [Hc Hws]%andb_prop. cbn [PyStr.lstrip]. rewrite Hc. by apply IH.
Qed.

Lemma rstrip_cons c s :
  PyStr.isspace c = false -> PyStr.rstrip (String c s) = String c (PyStr.rstrip s).
Proof. intros H. simpl. rewrite H. by destruct (PyStr.rstrip s). Qed.

Lemma names_org_intro ws v :
  PyStr.all_space ws = true -> names_org (ws ++ "lastActiveOrg=" ++ v)%string = true.
Proof.
  intros H. unfold names_org, PyStr.strip. rewrite (lstrip_org _ _ H).
  assert (PyStr.rstrip ("lastActiveOrg=" ++ v)
          = ("lastActiveOrg=" ++ PyStr.rstrip v)%string) as ->
    by (rewrite !append_cons, append_nil, !rstrip_cons by reflexivity; reflexivity).
  apply prefix_app_intro.
Qed.

(** The segment [names_org] accepts has a ["="]: [split("=", 1)[1]]
    exists. *)
Lemma names_org_split part :
  names_org part = true -> exists v, PyStr.split1_snd "=" part = Ok v.
Proof.
  unfold names_org, PyStr.startswith. intros [r Hr]%prefix_app.
  destruct (find_strip "=" part) as [i Hi].
  - rewrite Hr. by eexists.
  - unfold PyStr.split1_snd. rewrite Hi. by eexists.
Qed.

Lemma last_active_org_total parts : exists o, last_active_org parts = Ok o.
Proof.
  induction parts as [|part rest IH]; [by eexists|]. simpl.
  destruct (names_org part) eqn:E; [|done].
  destruct (names_org_split _ E) as [v ->]. by eexists.
Qed.

(** [resolve_org_id] never raises. *)
Lemma resolve_org_id_total org_id cookie_str :
  exists org, resolve_org_id org_id cookie_str = Ok org.
Proof.
  unfold resolve_org_id. destruct (is_empty org_id); [|by eexists].
  destruct (last_active_org_total (PyStr.split "; " cookie_str)) as [o ->].
  by eexists.
Qed.

Lemma last_active_org_none parts :
  Forall (fun part => names_org part = false) parts -> last_active_org parts = Ok None.
Proof.
  induction 1 as [|part rest H _ IH]; [done|]. simpl. by rewrite H.
Qed.

Lemma last_active_org_first pre ws v post :
  Forall (fun part => names_org part = false) pre ->
  PyStr.all_space ws = true ->
  last_active_org (pre ++ (ws ++ "lastActiveOrg=" ++ v)%string :: post)
  = Ok (Some (PyStr.strip v)).
Proof.
  intros Hpre Hws. induction Hpre as [|part rest H _ IH]; simpl.
  - by rewrite (names_org_intro _ _ Hws), (split1_snd_org _ _ Hws).
  - by rewrite H.
Qed.

(** [get_usage] once the cookie file has been read and is not blank. *)
Lemma get_usage_fetches (w : world) org_id quiet text org :
  playwright w = true ->
  cookie_text w = Some text ->
  PyStr.strip text <> "" ->
  resolve_org_id org_id (PyStr.strip text) = Ok org ->
  get_usage w org_id quiet
  = ([], Ok (browser_fetch w (usage_url org) (parse_cookies (PyStr.strip text)))).
Proof.
  intros Hp Hc Ht Ho. unfold get_usage. rewrite Hp, Hc. cbn [negb].
  destruct (String.eqb_spec (PyStr.strip text) "") as [E|_]; [done|].
  by rewrite Ho.
Qed.

(** Two organisations have different request URLs. *)
Lemma append_cancel_r (a b t : string) : (a ++ t = b ++ t)%string -> a = b.
Proof.
  revert b. induction a as [|c a IH]; intros [|d b] H.
  - done.
  - apply (f_equal String.length) in H.
    rewrite append_cons, append_nil in H. simpl in H.
    rewrite length_append in H. lia.
  - apply (f_equal String.length) in H.
    rewrite append_cons, append_nil in H. simpl in H.
    rewrite length_append in H. lia.
  - rewrite !append_cons in H. injection H as -> H. f_equal. by apply IH.
Qed.

Lemma usage_url_inj (a b : string) : usage_url a = usage_url b -> a = b.
Proof.
  unfold usage_url. intros H.
  repeat (rewrite !append_cons in H; injection H as H).
  rewrite !append_nil in H. eapply append_cancel_r, H.
Qed.

(** C10. With no organisation given, [get_usage] takes it from the first
    [lastActiveOrg=] segment of the cookie line and requests the usage
    of that organisation: the browser session is run for the URL
    [https://claude.ai/api/organizations/<organisation>/usage], which
    names no other organisation.  When no segment names the organisation
    (or the one that does has an empty value), the session is run for
    the URL of the built-in organisation
    [32321586-22bf-4e89-9007-8b6469448821]. *)
Theorem org_id_from_cookie_or_default (w : world) (quiet : bool) (text : string) :
  playwright w = true ->
  cookie_text w = Some text ->
  PyStr.strip text <> "" ->
  (Forall (fun part => names_org part = false) (PyStr.split "; " (PyStr.strip text)) ->
   get_usage w None quiet
   = ([], Ok (browser_fetch w
        "https://claude.ai/api/organizations/32321586-22bf-4e89-9007-8b6469448821/usage"
        (parse_cookies (PyStr.strip text)))))
  /\ (forall pre ws v post,
        PyStr.split "; " (PyStr.strip text)
        = (pre ++ (ws ++ "lastActiveOrg=" ++ v)%string :: post)%list ->
        Forall (fun part => names_org part = false) pre ->
        PyStr.all_space ws = true ->
        get_usage w None quiet
        = ([], Ok (browser_fetch w
             ("https://claude.ai/api/organizations/"
              ++ (if String.eqb (PyStr.strip v) ""
                  then "32321586-22bf-4e89-9007-8b6469448821"
                  else PyStr.strip v)
              ++ "/usage")
             (parse_cookies (PyStr.strip text)))))
  /\ (forall a b : string,
        ("https://claude.ai/api/organizations/" ++ a ++ "/usage"
         = "https://claude.ai/api/organizations/" ++ b ++ "/usage")%string -> a = b).
Proof.
  intros Hp Hc Ht. split; [|split].
  - intros Hnone.
    change "https://claude.ai/api/organizations/32321586-22bf-4e89-9007-8b6469448821/usage"
      with (usage_url default_org_id).
    apply get_usage_fetches; try done.
    unfold resolve_org_id. cbn [is_empty].
    by rewrite (last_active_org_none _ Hnone).
  - intros pre ws v post Hsplit Hpre Hws.
    change ("https://claude.ai/api/organizations/"
            ++ (if String.eqb (PyStr.strip v) ""
                then "32321586-22bf-4e89-9007-8b6469448821"
                else PyStr.strip v)
            ++ "/usage")%string
      with (usage_url (if String.eqb (PyStr.strip v) "" then default_org_id
                       else PyStr.strip v)).
    apply get_usage_fetches; try done.
    unfold resolve_org_id. cbn [is_empty].
    rewrite Hsplit, (last_active_org_first _ _ _ _ Hpre Hws).
    cbn [mbind res_bind is_empty default from_option id].
    reflexivity.
  - intros a b. apply usage_url_inj.
Qed.

(** C8 (amended). When [page.goto] returns a response with status 401,
    [get_usage] returns [{"error": "Cookie expired (401 Unauthorized)"}],
    a message that contains [expired], provided no usable payload was
    captured from a 200 response of the same URL; a payload that was
    captured is returned instead of the error. *)
Theorem status_401_reports_expired (w : world) org_id quiet text :
  playwright w = true ->
  cookie_text w = Some text ->
  PyStr.strip text <> "" ->
  exists org, resolve_org_id org_id (PyStr.strip text) = Ok org
    /\ let url := usage_url org in
       let session := browse w url (parse_cookies (PyStr.strip text)) in
       let response_data := fold_left (handle_response url) (events session) JNull in
       goto session = Response 401 ->
       get_usage w org_id quiet
       = ([], Ok (if Py.truthy response_data then response_data
                  else Py.error_dict "Cookie expired (401 Unauthorized)"))
       /\ PyStr.contains "expired" "Cookie expired (401 Unauthorized)" = true.
Proof.
  intros Hp Hc Ht.
  destruct (resolve_org_id_total org_id (PyStr.strip text)) as [org Ho].
  exists org. split; [done|]. intros url session response_data Hg.
  split; [|by vm_compute].
  rewrite (get_usage_fetches _ _ _ _ _ Hp Hc Ht Ho).
  unfold browser_fetch. fold url. fold session. fold response_data.
  rewrite Hg. cbn [classify]. simpl Z.eqb. cbn iota.
  cbn [nonempty is_empty negb andb default from_option id].
  by destruct (Py.truthy response_data).
Qed.

(** *** Parsing the cookie line *)

Lemma parse_part_unusable dom part : usable part = false -> parse_part dom part = None.
Proof.
  unfold usable, parse_part.
  destruct (String.eqb (PyStr.strip part) ""); [done|]. cbn [negb andb].
  intros H%bool_decide_eq_false.
  rewrite find_none_strip; [done|].
  destruct (PyStr.find "=" part); [|done]. destruct H. by eexists.
Qed.

Lemma omap_skip {A B} (f : A -> option B) (keep : A -> bool) (l : list A) :
  (forall x, keep x = false -> f x = None) ->
  omap f l = omap f (filter (fun x => keep x = true) l).
Proof.
  intros H. induction l as [|x l IH]; [done|].
  rewrite filter_cons. destruct (keep x) eqn:E.
  - rewrite decide_True by done. csimpl. by rewrite IH.
  - rewrite decide_False by done. csimpl. by rewrite (H _ E).
Qed.

(** *** The statements above on the example inputs *)

(** C10 on a cookie line without [lastActiveOrg] and on one that names
    the organisation 1234 in its second segment, with a browser that
    answers the request for one organisation only: the payload comes
    back when that organisation is the built-in one, respectively 1234,
    and a request for another organisation would have failed. *)
Lemma org_id_witness :
  Forall (fun part => names_org part = false) (PyStr.split "; " "sessionKey=abc; x=y")
  /\ PyStr.split "; " "sessionKey=abc;  lastActiveOrg=1234 ; x=y"
     = ["sessionKey=abc"; (" " ++ "lastActiveOrg=" ++ "1234 ")%string; "x=y"]
  /\ get_usage (Examples.world_with "sessionKey=abc; x=y"
                  (Examples.answers_at
                     "https://claude.ai/api/organizations/32321586-22bf-4e89-9007-8b6469448821/usage"))
       None true
     = ([], Ok (JObj Examples.payload))
  /\ get_usage (Examples.world_with "sessionKey=abc;  lastActiveOrg=1234 ; x=y"
                  (Examples.answers_at "https://claude.ai/api/organizations/1234/usage"))
       None true
     = ([], Ok (JObj Examples.payload))
  /\ browser_fetch (Examples.world_with "sessionKey=abc;  lastActiveOrg=1234 ; x=y"
                      (Examples.answers_at "https://claude.ai/api/organizations/1234/usage"))
       "https://claude.ai/api/organizations/32321586-22bf-4e89-9007-8b6469448821/usage"
       (parse_cookies "sessionKey=abc;  lastActiveOrg=1234 ; x=y")
     = Py.error_dict "API Error: 404".
Proof.
  assert (Forall (fun part => names_org part = false)
            (PyStr.split "; " "sessionKey=abc; x=y")) as Hnone
    by (repeat constructor).
  split; [exact Hnone|]. split; [reflexivity|]. split; [|split].
  - rewrite (proj1 (org_id_from_cookie_or_default
                      (Examples.world_with "sessionKey=abc; x=y"
                         (Examples.answers_at
                            "https://claude.ai/api/organizations/32321586-22bf-4e89-9007-8b6469448821/usage"))
                      true "sessionKey=abc; x=y" eq_refl eq_refl
                      ltac:(by vm_compute)) Hnone).
    reflexivity.
  - rewrite (proj1 (proj2 (org_id_from_cookie_or_default
                      (Examples.world_with "sessionKey=abc;  lastActiveOrg=1234 ; x=y"
                         (Examples.answers_at "https://claude.ai/api/organizations/1234/usage"))
                      true "sessionKey=abc;  lastActiveOrg=1234 ; x=y" eq_refl eq_refl
                      ltac:(by vm_compute)))
               ["sessionKey=abc"] " " "1234 " ["x=y"] eq_refl
               ltac:(repeat constructor) eq_refl).
    reflexivity.
  - reflexivity.
Defined.

(** C8 (amended) for a navigation answered 401 with no other response
    seen: the error of expired cookies is returned. *)
Lemma status_401_witness :
  GetUsage.playwright (Examples.world_with "sessionKey=abc" (Examples.answers 401)) = true
  /\ PyStr.strip "sessionKey=abc" <> ""
  /\ get_usage (Examples.world_with "sessionKey=abc" (Examples.answers 401)) None true
     = ([], Ok (Py.error_dict "Cookie expired (401 Unauthorized)")).
Proof.
  assert (PyStr.strip "sessionKey=abc" <> "") as Ht by (by vm_compute).
  split; [reflexivity|]. split; [exact Ht|].
  destruct (status_401_reports_expired
              (Examples.world_with "sessionKey=abc" (Examples.answers 401))
              None true "sessionKey=abc" eq_refl eq_refl Ht)
    as (org & _ & H).
  exact (proj1 (H eq_refl)).
Defined.

(** C8 as stated fails: the navigation is answered 401, a response of
    the same URL with status 200 carries a payload, and [get_usage]
    returns that payload, which has no [error] key. *)
Lemma status_401_with_payload_is_success :
  get_usage (Examples.world_with "sessionKey=abc; lastActiveOrg=1234"
               Examples.answers_401_then_200) None true
  = ([], Ok (JObj Examples.payload))
  /\ GetUsage.goto (Examples.answers_401_then_200
                      "https://claude.ai/api/organizations/1234/usage" [])
     = Response 401
  /\ Examples.payload !! "error" = None.
Proof. repeat split; vm_compute; reflexivity. Qed.

End GetUsageProofs.

(** ** The orchestrator as the indicator runs it *)

Module OrchestratorProofs.
Import GetUsage Indicator.

(** [get_usage] returns [None] for a cookie file that is blank, without
    opening a browser session. *)
Lemma get_usage_blank_file (w : world) org_id quiet text :
  cookie_text w = Some text ->
  PyStr.strip text = "" ->
  snd (get_usage w org_id quiet) = Ok JNull
  /\ (quiet = true -> get_usage w org_id quiet = ([], Ok JNull)).
Proof.
  intros Hc Ht. unfold get_usage. rewrite Hc, Ht.
  destruct (playwright w); cbn [negb String.eqb]; split; try done; by intros ->.
Qed.

(** The child process for a blank cookie file: status 1 and nothing on
    either stream. *)
Lemma run_get_usage_blank_file json_dumps traceback (h : host) text :
  cookie_text (script_world h) = Some text ->
  PyStr.strip text = "" ->
  timed_out h = false ->
  run_get_usage json_dumps traceback h = Completed 1 "" "".
Proof.
  intros Hc Ht Hto. unfold run_get_usage, main. rewrite Hto, Hc.
  destruct (get_usage_blank_file _ None true _ Hc Ht) as [_ ->]; done.
Qed.

(** C7 (amended). [parse_cookies] never raises, and the segments of the
    cookie line that are empty or have no ["="] contribute nothing: the
    result is that of the remaining segments.  For a cookie file that
    exists and is blank, [get_usage] returns [None] whatever the browser
    would do, so no request is made; the indicator, which only tests
    that the file exists, runs the script all the same and reports that
    [None] as the failure
    [{"error": "System error: Unknown error..."}], not as an outcome
    without attempt. *)
Theorem blank_cookie_file_outcome
  (cookie_str : string)
  (json_loads : string -> option json) (json_dumps : option Z -> json -> string)
  (traceback : exn -> string)
  (h : host) (org_id : option string) (quiet : bool) (text : string) :
  cookie_text (script_world h) = Some text ->
  PyStr.strip text = "" ->
  script_exists h = true ->
  timed_out h = false ->
  parse_cookies cookie_str
  = omap (parse_part "claude.ai")
         (filter (fun part => usable part = true) (PyStr.split "; " cookie_str))
  /\ snd (get_usage (script_world h) org_id quiet) = Ok JNull
  /\ fetch_outcome json_loads json_dumps traceback h
     = Py.error_dict "System error: Unknown error...".
Proof.
  intros Hc Ht Hs Hto. split; [|split].
  - apply GetUsageProofs.omap_skip, GetUsageProofs.parse_part_unusable.
  - by destruct (get_usage_blank_file (script_world h) org_id quiet _ Hc Ht).
  - unfold fetch_outcome.
    rewrite (run_get_usage_blank_file _ _ _ _ Hc Ht Hto), Hc, Hs.
    rewrite bool_decide_eq_true_2 by by eexists.
    reflexivity.
Qed.

(** *** The statements above on the example inputs *)

(** C7 (amended) on a cookie line with an empty segment and a segment
    without ["="], and on the machine whose cookie file is empty. *)
Lemma blank_cookie_file_witness :
  cookie_text (script_world Examples.blank_cookie_host) = Some ""
  /\ PyStr.strip "" = ""
  /\ parse_cookies "a=1; ; novalue; b = 2"
     = [ {| name := "a"; value := "1"; domain := "claude.ai"; path := "/" |};
         {| name := "b"; value := "2"; domain := "claude.ai"; path := "/" |} ]
  /\ snd (get_usage (script_world Examples.blank_cookie_host) None true) = Ok JNull
  /\ fetch_outcome Examples.loads Examples.dumps Examples.traceback
       Examples.blank_cookie_host
     = Py.error_dict "System error: Unknown error...".
Proof.
  split; [reflexivity|]. split; [reflexivity|].
  destruct (blank_cookie_file_outcome "a=1; ; novalue; b = 2"
              Examples.loads Examples.dumps Examples.traceback
              Examples.blank_cookie_host None true ""
              eq_refl eq_refl eq_refl eq_refl)
    as (Hparse & Hnone & Hout).
  split; [rewrite Hparse; reflexivity|]. split; [exact Hnone|exact Hout].
Defined.

(** C7 as stated fails: with a cookie file that exists and is empty,
    what the indicator's orchestrator hands to [fetch_usage] is a failure
    with a message, not [None]. *)
Lemma blank_cookie_file_is_a_failure :
  fetch_outcome Examples.loads Examples.dumps Examples.traceback
    Examples.blank_cookie_host
  = Py.error_dict "System error: Unknown error..."
  /\ fetch_outcome Examples.loads Examples.dumps Examples.traceback
       Examples.blank_cookie_host <> JNull
  /\ is_success (fetch_outcome Examples.loads Examples.dumps Examples.traceback
                   Examples.blank_cookie_host) = Ok false.
Proof. repeat split; by vm_compute. Qed.

End OrchestratorProofs.

(** ** [isoformat] and [fromisoformat] *)

Module DateTimeProofs.
Import DateTime PyStrProofs.

Lemma digit_val_char v : 0 <= v <= 9 -> PyStr.digit_val (digit_char v) = Some v.
Proof.
  intros H.
  assert (v = 0 \/ v = 1 \/ v = 2 \/ v = 3 \/ v = 4 \/ v = 5 \/ v = 6 \/ v = 7
          \/ v = 8 \/ v = 9) as Hv by lia.
  repeat destruct Hv as [-> | Hv]; try reflexivity. by subst.
Qed.

Lemma is_digit_char v : 0 <= v <= 9 -> PyStr.is_digit (digit_char v) = true.
Proof.
  intros H.
  assert (v = 0 \/ v = 1 \/ v = 2 \/ v = 3 \/ v = 4 \/ v = 5 \/ v = 6 \/ v = 7
          \/ v = 8 \/ v = 9) as Hv by lia.
  repeat destruct Hv as [-> | Hv]; try reflexivity. by subst.
Qed.

Lemma pow10_succ k : 10 ^ Z.of_nat (S k) = 10 * 10 ^ Z.of_nat k.
Proof. rewrite Nat2Z.inj_succ, Z.pow_succ_r; lia. Qed.

Lemma pow10_pos k : 0 < 10 ^ Z.of_nat k.
Proof. apply Z.pow_pos_nonneg; lia. Qed.

Lemma leading_digit k n :
  0 <= n < 10 ^ Z.of_nat (S k) -> 0 <= n / 10 ^ Z.of_nat k <= 9.
Proof.
  intros [H0 H1]. rewrite pow10_succ in H1. pose proof (pow10_pos k) as Hp.
  split; [by apply Z.div_pos|].
  assert (n / 10 ^ Z.of_nat k < 10); [|lia].
  apply Z.div_lt_upper_bound; lia.
Qed.

Lemma fixed_length w n : String.length (fixed w n) = w.
Proof. revert n. induction w as [|k IH]; intros n; [done|]. simpl. by rewrite IH. Qed.

(** Reading back a field of [w] digits. *)
Lemma digits_fixed w n acc rest :
  0 <= n < 10 ^ Z.of_nat w ->
  digits w acc (fixed w n ++ rest) = Some (acc * 10 ^ Z.of_nat w + n, rest).
Proof.
  revert n acc. induction w as [|k IH]; intros n acc H.
  - simpl in *. rewrite append_nil. f_equal. f_equal. lia.
  - cbn [fixed]. rewrite append_cons. cbn [digits].
    rewrite (digit_val_char _ (leading_digit _ _ H)).
    pose proof (pow10_pos k) as Hp.
    rewrite IH by (apply Z.mod_pos_bound; lia).
    f_equal. f_equal. rewrite pow10_succ.
    pose proof (Z.div_mod n (10 ^ Z.of_nat k)). lia.
Qed.

Lemma last_digits_fixed w n :
  0 <= n < 10 ^ Z.of_nat w -> last_digits w (fixed w n) = Some n.
Proof.
  intros H. unfold last_digits.
  by rewrite <- (append_nil_r (fixed w n)), (digits_fixed _ _ _ _ H).
Qed.

Lemma all_digits_fixed w n :
  0 <= n < 10 ^ Z.of_nat w -> PyStr.all_chars PyStr.is_digit (fixed w n) = true.
Proof.
  revert n. induction w as [|k IH]; intros n H; [done|].
  cbn [fixed PyStr.all_chars].
  rewrite (is_digit_char _ (leading_digit _ _ H)).
  pose proof (pow10_pos k). apply IH, Z.mod_pos_bound. lia.
Qed.

Lemma digits_fixed0 w n rest :
  0 <= n < 10 ^ Z.of_nat w -> digits w 0 (fixed w n ++ rest) = Some (n, rest).
Proof. intros H. by rewrite (digits_fixed _ _ _ _ H). Qed.

(** Reading back a clock string. *)
Lemma parse_clock hh mm tail :
  clock_ok hh mm tail ->
  parse_hh_mm_ss_ff (clock hh mm tail) = Some (clock_fields hh mm tail).
Proof.
  intros (Hh & Hm & Ht). unfold clock, parse_hh_mm_ss_ff.
  rewrite (digits_fixed0 2 hh) by done. cbn [mbind option_bind]. string_cons.
  destruct tail as [[ss [us|]]|].
  - destruct Ht as [Hs Hu]. string_cons.
    rewrite (digits_fixed0 2 mm) by done. cbn [mbind option_bind]. string_cons.
    rewrite (digits_fixed0 2 ss) by done. cbn [mbind option_bind].
    rewrite fixed_length. by rewrite (last_digits_fixed 6 us) by done.
  - string_cons.
    rewrite (digits_fixed0 2 mm) by done. cbn [mbind option_bind]. string_cons.
    rewrite <- (append_nil_r (fixed 2 ss)).
    by rewrite (digits_fixed0 2 ss) by done.
  - rewrite <- (append_nil_r (fixed 2 mm)).
    by rewrite (digits_fixed0 2 mm) by done.
Qed.

Lemma clock_length hh mm tail :
  String.length (clock hh mm tail)
  = match tail with
    | None => 5%nat
    | Some (_, None) => 8%nat
    | Some (_, Some _) => 15%nat
    end.
Proof.
  unfold clock. destruct tail as [[ss [us|]]|];
    rewrite ?length_append, ?fixed_length; reflexivity.
Qed.

Lemma clock_chars hh mm tail :
  clock_ok hh mm tail -> PyStr.all_chars time_char (clock hh mm tail) = true.
Proof.
  intros (Hh & Hm & Ht).
  assert (forall w n, 0 <= n < 10 ^ Z.of_nat w ->
            PyStr.all_chars time_char (fixed w n) = true) as Hd.
  { intros w n H. eapply all_chars_weaken, all_digits_fixed, H.
    intros c Hc. unfold time_char. by rewrite Hc. }
  unfold clock. rewrite !all_chars_app, (Hd 2%nat hh), (Hd 2%nat mm) by done.
  destruct tail as [[ss [us|]]|]; [destruct Ht| |]; [| |done].
  - by rewrite !all_chars_app, (Hd 2%nat ss), (Hd 6%nat us) by done.
  - by rewrite !all_chars_app, (Hd 2%nat ss) by done.
Qed.

Lemma time_char_other x s :
  time_char x = false ->
  PyStr.all_chars time_char s = true -> PyStr.all_chars (PyStr.other_than x) s = true.
Proof.
  intros Hx. apply all_chars_weaken. intros c Hc. unfold PyStr.other_than.
  destruct (Ascii.eqb_spec c x) as [->|]; [congruence|done].
Qed.

Lemma digit_other x s :
  PyStr.is_digit x = false ->
  PyStr.all_chars PyStr.is_digit s = true -> PyStr.all_chars (PyStr.other_than x) s = true.
Proof.
  intros Hx. apply all_chars_weaken. intros c Hc. unfold PyStr.other_than.
  destruct (Ascii.eqb_spec c x) as [->|]; [congruence|done].
Qed.

(** *** The two halves of [isoformat] as clock strings *)

Lemma format_time_clock d :
  format_time d
  = clock (hour d) (minute d)
      (Some (second d, if microsecond d =? 0 then None else Some (microsecond d))).
Proof.
  unfold format_time, clock.
  destruct (microsecond d =? 0); [|done]. by rewrite append_nil_r.
Qed.

Lemma format_offset_clock off :
  format_offset (Some off)
  = String (if off <? 0 then "-"%char else "+"%char)
      (clock (Z.abs off / 3600000000) (Z.abs off mod 3600000000 / 60000000)
         (offset_tail ((Z.abs off mod 3600000000) mod 60000000))).
Proof.
  unfold format_offset, clock, offset_tail. cbn zeta.
  destruct (off <? 0); string_cons;
    destruct (_ =? 0); rewrite ?append_nil_r; try done;
    destruct (_ =? 0); by rewrite ?append_nil_r.
Qed.

Lemma offset_clock_ok a :
  0 <= a < 86400000000 ->
  clock_ok (a / 3600000000) (a mod 3600000000 / 60000000)
    (offset_tail ((a mod 3600000000) mod 60000000)).
Proof.
  intros Ha.
  pose proof (Z.mod_pos_bound a 3600000000 ltac:(lia)) as Hr.
  pose proof (Z.mod_pos_bound (a mod 3600000000) 60000000 ltac:(lia)) as Hs.
  pose proof (Z.mod_pos_bound ((a mod 3600000000) mod 60000000) 1000000 ltac:(lia)) as Hu.
  repeat split.
  - apply Z.div_pos; lia.
  - apply Z.div_lt_upper_bound; lia.
  - apply Z.div_pos; lia.
  - apply Z.div_lt_upper_bound; lia.
  - unfold offset_tail. destruct (_ =? 0); [done|].
    assert (0 <= (a mod 3600000000) mod 60000000 / 1000000 < 100).
    { split; [apply Z.div_pos; lia|apply Z.div_lt_upper_bound; lia]. }
    destruct (_ =? 0); [done|]. split; [done|lia].
Qed.

(** The fields of an offset's clock string add up to the offset. *)
Lemma offset_clock_fields a :
  0 <= a ->
  let '(hh, mm, ss, us) :=
    clock_fields (a / 3600000000) (a mod 3600000000 / 60000000)
      (offset_tail ((a mod 3600000000) mod 60000000)) in
  (hh * 3600 + mm * 60 + ss) * 1000000 + us = a.
Proof.
  intros Ha.
  pose proof (Z.div_mod a 3600000000 ltac:(lia)) as E1.
  pose proof (Z.div_mod (a mod 3600000000) 60000000 ltac:(lia)) as E2.
  pose proof (Z.div_mod ((a mod 3600000000) mod 60000000) 1000000 ltac:(lia)) as E3.
  unfold offset_tail, clock_fields.
  destruct (Z.eqb_spec ((a mod 3600000000) mod 60000000) 0) as [Z1|N1]; [lia|].
  destruct (Z.eqb_spec (((a mod 3600000000) mod 60000000) mod 1000000) 0); lia.
Qed.

Lemma between_spec lo x hi : between lo x hi = true <-> lo <= x <= hi.
Proof. unfold between. rewrite andb_true_iff, !Z.leb_le. tauto. Qed.

(** What [valid] says of the fields. *)
Lemma valid_ranges d :
  valid d = true ->
  1 <= year d <= 9999 /\ 1 <= month d <= 12
  /\ 1 <= day d <= days_in_month (year d) (month d)
  /\ 0 <= hour d <= 23 /\ 0 <= minute d <= 59 /\ 0 <= second d <= 59
  /\ 0 <= microsecond d <= 999999
  /\ match tzinfo d with
     | Some off => -86400000000 < off < 86400000000
     | None => True
     end.
Proof.
  unfold valid. rewrite !andb_true_iff, !between_spec.
  intros [[[[[[[? ?] ?] ?] ?] ?] ?] Htz]. repeat split; try tauto.
  destruct (tzinfo d); [|done]. unfold valid_offset in Htz.
  apply andb_true_iff in Htz as [?%Z.ltb_lt ?%Z.ltb_lt]. lia.
Qed.

Lemma days_in_month_le y m : days_in_month y m <= 31.
Proof.
  unfold days_in_month.
  destruct (m =? 2); [destruct (is_leap y); lia|]. destruct (_ || _); lia.
Qed.

(** Reading back the time and the offset that [isoformat] prints. *)
Lemma parse_time_offset d :
  valid d = true ->
  parse_isoformat_time (format_time d ++ format_offset (tzinfo d))
  = Some (hour d, minute d, second d, microsecond d, tzinfo d).
Proof.
  intros Hv. destruct (valid_ranges d Hv) as (_ & _ & _ & Hh & Hm & Hs & Hu & Htz).
  rewrite format_time_clock.
  set (tail := Some (second d, if microsecond d =? 0 then None else Some (microsecond d))).
  assert (clock_ok (hour d) (minute d) tail) as Hok.
  { unfold tail. repeat split; try lia. destruct (_ =? 0); lia. }
  assert (clock_fields (hour d) (minute d) tail
          = (hour d, minute d, second d, microsecond d)) as Hf.
  { unfold tail, clock_fields.
    destruct (Z.eqb_spec (microsecond d) 0) as [->|]; done. }
  pose proof (clock_chars _ _ _ Hok) as Hc.
  pose proof (parse_clock _ _ _ Hok) as Hp. rewrite Hf in Hp.
  set (tc := clock (hour d) (minute d) tail) in *.
  unfold parse_isoformat_time, tz_pos.
  destruct (tzinfo d) as [off|].
  - rewrite format_offset_clock.
    set (a := Z.abs off).
    assert (a = Z.abs off) as Ea by reflexivity. clearbody a.
    assert (0 <= a < 86400000000) as Ha by lia.
    pose proof (offset_clock_ok a Ha) as Hoko.
    pose proof (clock_chars _ _ _ Hoko) as Hco.
    pose proof (parse_clock _ _ _ Hoko) as Hpo.
    pose proof (offset_clock_fields a ltac:(lia)) as Hsum.
    pose proof (clock_length (a / 3600000000) (a mod 3600000000 / 60000000)
                  (offset_tail ((a mod 3600000000) mod 60000000))) as Hlen.
    set (co := clock _ _ (offset_tail _)) in *.
    assert (bool_decide (String.length co = 5 \/ String.length co = 8
                         \/ String.length co = 15)%nat = true) as Hl.
    { apply bool_decide_eq_true. rewrite Hlen.
      destruct (offset_tail _) as [[? [?|]]|]; auto. }
    assert (valid_offset off = true) as Hvo.
    { unfold valid_offset. apply andb_true_iff. rewrite !Z.ltb_lt. lia. }
    destruct (clock_fields (a / 3600000000) _ _) as [[[hh mm] ss] us].
    destruct (Z.ltb_spec off 0) as [Hneg|Hpos].
    + rewrite (find_after "-" tc co) by by apply time_char_other.
      rewrite take_app, Hp. cbn [mbind option_bind].
      rewrite drop_app, drop_S_app. cbn [PyStr.take].
      rewrite bool_decide_eq_true_2 by done.
      unfold parse_tz. rewrite Hl, Hpo. cbn [mbind option_bind].
      replace (- ((hh * 3600 + mm * 60 + ss) * 1000000 + us)) with off by lia.
      by rewrite Hvo.
    + rewrite find_absent.
      2: { rewrite all_chars_app. cbn [PyStr.all_chars].
           by rewrite !(time_char_other "-") by done. }
      rewrite (find_after "+" tc co) by by apply time_char_other.
      rewrite take_app, Hp. cbn [mbind option_bind].
      rewrite drop_app, drop_S_app. cbn [PyStr.take].
      rewrite bool_decide_eq_false_2 by done.
      unfold parse_tz. rewrite Hl, Hpo. cbn [mbind option_bind].
      replace ((hh * 3600 + mm * 60 + ss) * 1000000 + us) with off by lia.
      by rewrite Hvo.
  - cbn [format_offset]. rewrite append_nil_r.
    rewrite !find_absent by by apply time_char_other.
    by rewrite Hp.
Qed.

(** [fromisoformat] is the inverse of [isoformat] on the values the
    constructor accepts. *)
Lemma fromisoformat_isoformat d : valid d = true -> fromisoformat (isoformat d) = Some d.
Proof.
  intros Hv. destruct (valid_ranges d Hv) as (Hy & Hm & Hd & _).
  pose proof (days_in_month_le (year d) (month d)) as Hdim.
  assert (0 <= year d < 10 ^ Z.of_nat 4) as Hy' by (change (10 ^ Z.of_nat 4) with 10000; lia).
  assert (0 <= month d < 10 ^ Z.of_nat 2) as Hm' by (change (10 ^ Z.of_nat 2) with 100; lia).
  assert (0 <= day d < 10 ^ Z.of_nat 2) as Hd' by (change (10 ^ Z.of_nat 2) with 100; lia).
  unfold fromisoformat, isoformat, parse_isoformat_date.
  rewrite (digits_fixed0 4 (year d)) by done. cbn [mbind option_bind]. string_cons.
  rewrite (digits_fixed0 2 (month d)) by done. cbn [mbind option_bind]. string_cons.
  rewrite (digits_fixed0 2 (day d)) by done. cbn [mbind option_bind]. string_cons.
  cbn [PyStr.drop].
  destruct (format_time d ++ format_offset (tzinfo d))%string as [|c s] eqn:E.
  - apply (f_equal String.length) in E.
    rewrite length_append, format_time_clock, clock_length in E.
    destruct (microsecond d =? 0); discriminate.
  - rewrite <- E, (parse_time_offset d Hv). cbn [mbind option_bind].
    destruct d. cbn [year month day hour minute second microsecond tzinfo] in *.
    by rewrite Hv.
Qed.

Lemma isoformat_no_Z d :
  valid d = true -> PyStr.replace "Z" "+00:00" (isoformat d) = isoformat d.
Proof.
  intros Hv. destruct (valid_ranges d Hv) as (Hy & Hm & Hd & Hh & Hmi & Hs & Hu & Htz).
  pose proof (days_in_month_le (year d) (month d)) as Hdim.
  apply replace_absent.
  assert (forall w n, 0 <= n < 10 ^ Z.of_nat w ->
            PyStr.all_chars (PyStr.other_than "Z") (fixed w n) = true) as Hfix
    by (intros w n H; by apply digit_other, all_digits_fixed).
  assert (forall hh mm tail, clock_ok hh mm tail ->
            PyStr.all_chars (PyStr.other_than "Z") (clock hh mm tail) = true) as Hclock
    by (intros hh mm tail H; by apply time_char_other, clock_chars).
  unfold isoformat. rewrite !all_chars_app.
  rewrite (Hfix 4%nat) by (change (10 ^ Z.of_nat 4) with 10000; lia).
  rewrite (Hfix 2%nat (month d)) by (change (10 ^ Z.of_nat 2) with 100; lia).
  rewrite (Hfix 2%nat (day d)) by (change (10 ^ Z.of_nat 2) with 100; lia).
  rewrite format_time_clock, Hclock.
  2: { repeat split; try lia. destruct (_ =? 0); lia. }
  destruct (tzinfo d) as [off|]; [|done].
  rewrite format_offset_clock. cbn [PyStr.all_chars].
  rewrite Hclock by (apply offset_clock_ok; lia).
  by destruct (off <? 0).
Qed.

(** What [fromisoformat] returns is a value the constructor accepts. *)
Lemma fromisoformat_valid s d : fromisoformat s = Some d -> valid d = true.
Proof.
  unfold fromisoformat.
  destruct (parse_isoformat_date s) as [[[[y m] dd] rest]|]; [|done].
  cbn [mbind option_bind].
  destruct (match PyStr.drop 1 rest with
            | EmptyString => Some (0, 0, 0, 0, None)
            | String _ _ => parse_isoformat_time (PyStr.drop 1 rest)
            end) as [[[[[hh mm] ss] us] tz]|] eqn:E.
  - intros H.
    assert (forall o : option (Z * Z * Z * Z * option Z),
              o = Some (hh, mm, ss, us, tz) ->
              (o ≫= (fun '(hh, mm, ss, us, tz) =>
                 if valid (mk y m dd hh mm ss us tz)
                 then Some (mk y m dd hh mm ss us tz) else None)) = Some d ->
              valid d = true) as K.
    { intros o -> K. cbn [mbind option_bind] in K.
      destruct (valid _) eqn:V; [|done]. by injection K as <-. }
    eapply K; [|exact H]. rewrite <- E. by destruct (PyStr.drop 1 rest).
  - intros H. exfalso.
    assert (forall o : option (Z * Z * Z * Z * option Z),
              o = None ->
              (o ≫= (fun '(hh, mm, ss, us, tz) =>
                 if valid (mk y m dd hh mm ss us tz)
                 then Some (mk y m dd hh mm ss us tz) else None)) = Some d ->
              False) as K by (by intros o ->).
    eapply K; [|exact H]. rewrite <- E. by destruct (PyStr.drop 1 rest).
Qed.

End DateTimeProofs.

(** ** Writing the configuration and reading it back *)

Module RoundTripProofs.
Import Indicator DateTime IndicatorProofs.

Lemma maintains_bind {A B} P (m : stmt A) (k : A -> stmt B) :
  maintains P m -> (forall a, maintains P (k a)) -> maintains P (m ≫= k).
Proof.
  intros Hm Hk s s' r Hs. unfold mbind, stmt_bind, bind.
  destruct (m s) as [s1 [a|e]] eqn:E.
  - apply Hk. eapply Hm; eauto.
  - intros [= <- <-]. eapply Hm; eauto.
Qed.

Lemma maintains_lift {A} P (r : res A) : maintains P (lift r).
Proof. by intros s s' r' Hs [= <- _]. Qed.

Lemma maintains_pure {A} P (a : A) : maintains P (pure a).
Proof. by intros s s' r' Hs [= <- _]. Qed.

Lemma maintains_valid_set_usage upd v :
  window_setter upd ->
  maintains (fun s => valid_usage (data s)) (modify (set_data (upd (set_usage v)))).
Proof. intros [-> | ->] s s' r Hs [= <- _]; exact Hs. Qed.

Lemma maintains_valid_set_reset upd d :
  window_setter upd -> valid d = true ->
  maintains (fun s => valid_usage (data s)) (modify (set_data (upd (set_reset d)))).
Proof.
  intros [-> | ->] Hd s s' r [H5 H7] [= <- _]; split; try done; exact Hd.
Qed.

Lemma try_parse_reset_valid text d :
  try_parse_reset text = Ok (Some d) -> valid d = true.
Proof.
  unfold try_parse_reset. destruct (Py.replace_Z text) as [t|]; [|done].
  cbn [mbind res_bind]. intros [= H]. eapply DateTimeProofs.fromisoformat_valid, H.
Qed.

Lemma maintains_lift_bind {A B} P (r : res A) (k : A -> stmt B) :
  (forall a, r = Ok a -> maintains P (k a)) -> maintains P (lift r ≫= k).
Proof.
  intros Hk s s' r' Hs. unfold mbind, stmt_bind, bind, lift.
  destruct r as [a|e]; [by apply Hk|]. by intros [= <- _].
Qed.

Lemma maintains_valid_parse_window w upd :
  window_setter upd ->
  maintains (fun s => valid_usage (data s)) (parse_window w upd).
Proof.
  intros Hupd. unfold parse_window.
  destruct (Py.truthy w); [|apply maintains_pure].
  apply maintains_lift_bind; intros u _.
  apply maintains_lift_bind; intros n _.
  apply maintains_bind; [by apply maintains_valid_set_usage|intros _].
  apply maintains_lift_bind; intros r _.
  destruct (Py.truthy r); [|apply maintains_pure].
  apply maintains_lift_bind; intros [d|] Hd; [|apply maintains_pure].
  apply maintains_valid_set_reset; [done|]. eapply try_parse_reset_valid, Hd.
Qed.

Lemma maintains_valid_parse_api_usage api :
  maintains (fun s => valid_usage (data s)) (_parse_api_usage api).
Proof.
  unfold _parse_api_usage.
  apply maintains_lift_bind; intros fh _.
  apply maintains_bind; [apply maintains_valid_parse_window; by left|intros _].
  apply maintains_lift_bind; intros wk _.
  apply maintains_valid_parse_window; by right.
Qed.

(** The entries of the configuration written in case 1. *)
Lemma live_config_lookups u now :
  live_config u now !! "five_hour_usage" = Some (usage (five_hour u))
  /\ live_config u now !! "weekly_usage" = Some (usage (weekly u))
  /\ live_config u now !! "five_hour_reset"
     = (fun d => JStr (isoformat d)) <$> reset (five_hour u)
  /\ live_config u now !! "weekly_reset"
     = (fun d => JStr (isoformat d)) <$> reset (weekly u).
Proof.
  unfold live_config.
  destruct (reset (five_hour u)), (reset (weekly u)); by simplify_map_eq.
Qed.

Lemma isoformat_truthy d : Py.truthy (JStr (isoformat d)) = true.
Proof. by destruct d. Qed.

(** Reading a reset time that case 1 saved gives the value back. *)
Lemma load_reset_saved (c : gmap string json) key upd o s :
  c !! key = (fun d => JStr (isoformat d)) <$> o ->
  (forall d, o = Some d -> valid d = true) ->
  load_reset (JObj c) key upd s
  = (match o with
     | Some d => set_data (upd (set_reset d)) s
     | None => s
     end, Ok tt).
Proof.
  intros Hk Hv. unfold load_reset, Py.get, Py.getitem. rewrite Hk.
  destruct o as [d|]; cbn [fmap option_fmap option_map default from_option id];
    step_stmt; [|done].
  rewrite isoformat_truthy. unfold try_parse_reset, Py.replace_Z.
  cbn [mbind res_bind].
  rewrite DateTimeProofs.isoformat_no_Z, DateTimeProofs.fromisoformat_isoformat
    by by apply Hv.
  done.
Qed.

(** The cached case on a configuration that case 1 wrote for [u]. *)
Lemma cached_read api now now' u s :
  no_live_data api ->
  config_file s = Some (JObj (live_config u now)) ->
  valid_usage u ->
  exists s', fetch_usage api now' s = (s', Ok Cached)
    /\ config_file s' = config_file s
    /\ usage (five_hour (data s')) = usage (five_hour u)
    /\ usage (weekly (data s')) = usage (weekly u)
    /\ reset (five_hour (data s'))
       = match reset (five_hour u) with
         | Some d => Some d
         | None => reset (five_hour (data s))
         end
    /\ reset (weekly (data s'))
       = match reset (weekly u) with
         | Some d => Some d
         | None => reset (weekly (data s))
         end
    /\ last_update (data s') = last_update (data s).
Proof.
  intros Hapi Hc [V5 V7].
  destruct (live_config_lookups u now) as (L5 & L7 & R5 & R7).
  unfold fetch_usage, fetch_usage_body.
  unfold mbind at 1, stmt_bind at 1, bind at 1, lift at 1.
  rewrite (no_live_data_is_failure _ Hapi).
  unfold mbind at 1, stmt_bind at 1, bind at 1, read at 1. rewrite Hc.
  destruct (report_error_step api s Hapi) as (s0 & E0 & Hc0 & Hd0).
  rewrite E0. clear E0.
  unfold Py.get. rewrite L5, L7. cbn [default from_option id]. step_stmt.
  rewrite (load_reset_saved _ _ _ _ _ R5) by (intros d Hd; unfold valid_reset in V5; by rewrite Hd in V5).
  rewrite (load_reset_saved _ _ _ _ _ R7) by (intros d Hd; unfold valid_reset in V7; by rewrite Hd in V7).
  eexists. split; [reflexivity|].
  destruct (reset (five_hour u)), (reset (weekly u)); simpl; rewrite ?Hd0, ?Hc0; auto 10.
Qed.

(** C5. A configuration written by the live case of [fetch_usage] is
    read back by the cached case with the same figures: run in the same
    process right after the write, the cached case leaves [usage_data]
    exactly as the live case left it, and leaves the file as it is; run
    in a process that has just started, it gives both windows the
    utilization and the reset time the live case had.  The reset times
    are equal as [datetime] values, to the microsecond and with their
    UTC offset. *)
Theorem saved_state_reads_back
  (api api' : json) (now now' : datetime) (s s1 : state) :
  valid_usage (data s) ->
  fetch_usage api now s = (s1, Ok Live) ->
  no_live_data api' ->
  (exists s2, fetch_usage api' now' s1 = (s2, Ok Cached)
     /\ data s2 = data s1 /\ config_file s2 = config_file s1)
  /\ (exists s3, fetch_usage api' now' (fresh_state (config_file s1)) = (s3, Ok Cached)
       /\ five_hour (data s3) = five_hour (data s1)
       /\ weekly (data s3) = weekly (data s1)
       /\ config_file s3 = config_file s1).
Proof.
  intros Hv Hlive Hapi.
  destruct (live_inversion _ _ _ _ Hlive) as (_ & sp & Hp & ->).
  pose proof (maintains_valid_parse_api_usage api _ _ _ Hv Hp) as Hvp.
  cbn [idle_add write_config data config_file].
  set (u := data sp) in *.
  assert (forall w w' : window, usage w = usage w' -> reset w = reset w' -> w = w') as Hw
    by (intros [] []; simpl; congruence).
  split.
  - match goal with |- context [fetch_usage api' now' ?st] =>
      destruct (cached_read api' now now' u st Hapi eq_refl Hvp)
        as (s2 & E & Hc & U5 & U7 & R5 & R7 & LU)
    end.
    cbn [data idle_add write_config config_file] in Hc, R5, R7, LU.
    fold u in R5, R7, LU.
    exists s2. split; [done|]. split; [|done].
    destruct (data s2) as [f w l], u as [f' w' l']. simpl in *.
    f_equal; [apply Hw|apply Hw|done]; try done.
    + rewrite R5. by destruct (reset f').
    + rewrite R7. by destruct (reset w').
  - destruct (cached_read api' now now' u
                (fresh_state (Some (JObj (live_config u now)))) Hapi eq_refl Hvp)
      as (s3 & E & Hc & U5 & U7 & R5 & R7 & LU).
    exists s3. split; [done|]. cbn [fresh_state data initial_usage five_hour weekly reset] in R5, R7.
    repeat split; [apply Hw|apply Hw|done]; try done.
    + rewrite R5. by destruct (reset (five_hour u)).
    + rewrite R7. by destruct (reset (weekly u)).
Qed.

(** *** The statement above on the example inputs *)

(** C5 for the example response, saved at noon by an indicator that
    held a reset time, and read back after a timeout. *)
Lemma round_trip_witness :
  valid_usage (data Examples.showing)
  /\ fetch_usage (JObj Examples.payload) Examples.noon Examples.showing
     = (fst (fetch_usage (JObj Examples.payload) Examples.noon Examples.showing), Ok Live)
  /\ no_live_data (JObj Examples.failure)
  /\ exists s3,
       fetch_usage (JObj Examples.failure) Examples.later
         (fresh_state (config_file (fst (fetch_usage (JObj Examples.payload)
                                           Examples.noon Examples.showing))))
       = (s3, Ok Cached)
       /\ five_hour (data s3)
          = {| usage := JInt 150; reset := Some Examples.reset_5h |}
       /\ weekly (data s3)
          = {| usage := JInt 12; reset := Some Examples.reset_7d |}.
Proof.
  assert (valid_usage (data Examples.showing)) as Hv by (split; [reflexivity|exact I]).
  assert (no_live_data (JObj Examples.failure)) as Hf
    by (right; exists Examples.failure, (JStr "Timeout connecting to Claude"); by split).
  split; [exact Hv|]. split; [reflexivity|]. split; [exact Hf|].
  destruct (saved_state_reads_back (JObj Examples.payload) (JObj Examples.failure)
              Examples.noon Examples.later Examples.showing _ Hv eq_refl Hf)
    as (_ & s3 & E & H5 & H7 & _).
  exists s3. split; [exact E|]. rewrite H5, H7. split; reflexivity.
Defined.

End RoundTripProofs.

(** * Further properties of the scripts *)

(** ** More on strings *)

Module TextProofs.
Import PyStrProofs.

Lemma lstrip_shorter s :
  PyStr.lstrip s = s \/ (String.length (PyStr.lstrip s) < String.length s)%nat.
Proof.
  induction s as [|c s IH]; [by left|]. simpl.
  destruct (PyStr.isspace c); [|by left].
  right. destruct IH as [-> | H]; lia.
Qed.

Lemma rstrip_length s : (String.length (PyStr.rstrip s) <= String.length s)%nat.
Proof.
  induction s as [|c s IH]; [done|]. simpl.
  destruct (PyStr.rstrip s) as [|b t].
  - destruct (PyStr.isspace c); simpl; lia.
  - simpl in *. lia.
Qed.

(** What [lstrip] returns does not start with white space. *)
Lemma lstrip_head s c t : PyStr.lstrip s = String c t -> PyStr.isspace c = false.
Proof.
  induction s as [|a s IH]; [done|]. simpl.
  destruct (PyStr.isspace a) eqn:E; [done|]. by intros [= <- _].
Qed.

Lemma lstrip_fixed c s : PyStr.isspace c = false -> PyStr.lstrip (String c s) = String c s.
Proof. intros H. simpl. by rewrite H. Qed.

Lemma rstrip_keeps_head c s :
  PyStr.isspace c = false -> PyStr.rstrip (String c s) = String c (PyStr.rstrip s).
Proof. intros H. simpl. rewrite H. by destruct (PyStr.rstrip s). Qed.

Lemma rstrip_rstrip s : PyStr.rstrip (PyStr.rstrip s) = PyStr.rstrip s.
Proof.
  induction s as [|c s IH]; [done|]. simpl.
  destruct (PyStr.rstrip s) as [|b t] eqn:R.
  - destruct (PyStr.isspace c) eqn:E; [done|]. simpl. by rewrite E.
  - change (PyStr.rstrip (String c (String b t))) with
      (match PyStr.rstrip (String b t) with
       | EmptyString => if PyStr.isspace c then EmptyString else String c EmptyString
       | t' => String c t'
       end).
    by rewrite IH.
Qed.

(** [strip] is idempotent. *)
Lemma strip_strip s : PyStr.strip (PyStr.strip s) = PyStr.strip s.
Proof.
  unfold PyStr.strip. destruct (PyStr.lstrip s) as [|c t] eqn:L; [done|].
  pose proof (lstrip_head _ _ _ L) as Hc.
  rewrite (rstrip_keeps_head _ _ Hc), (lstrip_fixed _ _ Hc), (rstrip_keeps_head _ _ Hc).
  by rewrite rstrip_rstrip.
Qed.

(** A string [strip] leaves as it is has no white space at either end. *)
Lemma trimmed_ends s :
  PyStr.strip s = s -> PyStr.lstrip s = s /\ PyStr.rstrip s = s.
Proof.
  unfold PyStr.strip. intros H.
  assert (PyStr.lstrip s = s) as L.
  { destruct (lstrip_shorter s) as [E | Hlt]; [done|].
    pose proof (rstrip_length (PyStr.lstrip s)) as Hr.
    apply (f_equal String.length) in H. lia. }
  split; [done|]. by rewrite L in H.
Qed.

Lemma trimmed_head c s : PyStr.strip (String c s) = String c s -> PyStr.isspace c = false.
Proof. intros [L _]%trimmed_ends. by eapply lstrip_head. Qed.

(** [rstrip] only looks at the end of a string. *)
Lemma rstrip_app a b :
  PyStr.rstrip b <> "" -> PyStr.rstrip (a ++ b) = (a ++ PyStr.rstrip b)%string.
Proof.
  intros Hb. induction a as [|c a IH]; [done|].
  rewrite !append_cons. simpl. rewrite IH.
  destruct (a ++ PyStr.rstrip b)%string eqn:E; [|done].
  destruct a; [|by rewrite append_cons in E]. by rewrite append_nil in E.
Qed.

Lemma find_take c s i : PyStr.find c s = Some i -> PyStr.find c (PyStr.take i s) = None.
Proof.
  revert i. induction s as [|a s IH]; intros i; [done|]. simpl.
  destruct (Ascii.eqb a c) eqn:E; [by intros [= <-]|].
  destruct (PyStr.find c s) as [j|] eqn:F; [|done]. simpl.
  intros [= <-]. simpl. by rewrite E, (IH j).
Qed.

Lemma find_first c a b :
  PyStr.find c a = None -> PyStr.find c (a ++ String c b) = Some (String.length a).
Proof.
  induction a as [|x a IH].
  - intros _. rewrite append_nil. simpl. by rewrite Ascii.eqb_refl.
  - rewrite append_cons. simpl. destruct (Ascii.eqb x c); [discriminate|].
    destruct (PyStr.find c a); [discriminate|]. intros _. by rewrite IH.
Qed.

(** *** Splitting a line at ["; "] *)

Lemma prefix_cons a p c s :
  String.prefix (String a p) (String c s)
  = if ascii_dec a c then String.prefix p s else false.
Proof. reflexivity. Qed.

Lemma prefix_empty s : String.prefix "" s = true.
Proof. by destruct s. Qed.

(** Where ["; "] does not start a string: at a character other than
    [";"], or before a character other than the space. *)
Lemma prefix_sep_false c s :
  String.prefix "; " (String c s) = false ->
  c <> ";"%char \/ match s with
                   | String d _ => d <> " "%char
                   | EmptyString => True
                   end.
Proof.
  rewrite prefix_cons. destruct (ascii_dec ";" c) as [E|N]; [|left; congruence].
  destruct s as [|d s]; [by right|]. rewrite prefix_cons.
  destruct (ascii_dec " " d) as [E'|N']; [by rewrite prefix_empty|].
  right. congruence.
Qed.

Lemma prefix_sep_intro c s :
  c <> ";"%char \/ match s with
                   | String d _ => d <> " "%char
                   | EmptyString => True
                   end ->
  String.prefix "; " (String c s) = false.
Proof.
  intros H. rewrite prefix_cons. destruct (ascii_dec ";" c) as [E|N]; [|done].
  destruct H as [H|H]; [congruence|].
  destruct s as [|d s]; [done|]. rewrite prefix_cons.
  destruct (ascii_dec " " d) as [E'|N']; [congruence|done].
Qed.

(** A segment without ["; "] is not cut, and no separator is found
    across its end. *)
Lemma prefix_sep_app c s rest :
  String.prefix "; " (String c s) = false ->
  String.prefix "; " (String c (s ++ "; " ++ rest)) = false.
Proof.
  intros H. apply prefix_sep_intro.
  destruct (prefix_sep_false _ _ H) as [Hc | Hd]; [by left|right].
  destruct s as [|d s]; [by rewrite append_nil|by rewrite append_cons].
Qed.

Lemma split_go_segment seg rest :
  PyStr.contains "; " seg = false ->
  PyStr.split_go "; " 0 (seg ++ "; " ++ rest)
  = (seg, (PyStr.split_go "; " 0 rest).1 :: (PyStr.split_go "; " 0 rest).2).
Proof.
  induction seg as [|c seg IH].
  - intros _. rewrite append_nil, !append_cons, append_nil.
    cbn [PyStr.split_go]. rewrite !prefix_cons, prefix_empty.
    destruct (ascii_dec ";" ";") as [_|N]; [|done].
    destruct (ascii_dec " " " ") as [_|N]; [|done].
    cbn [String.length Nat.sub].
    by destruct (PyStr.split_go "; " 0 rest).
  - cbn [PyStr.contains]. intros [Hp Hs]%orb_false_elim.
    rewrite append_cons. cbn [PyStr.split_go].
    rewrite (prefix_sep_app _ _ _ Hp), (IH Hs). reflexivity.
Qed.

Lemma split_go_whole seg :
  PyStr.contains "; " seg = false -> PyStr.split_go "; " 0 seg = (seg, []).
Proof.
  induction seg as [|c seg IH]; [done|].
  cbn [PyStr.contains]. intros [Hp Hs]%orb_false_elim.
  cbn [PyStr.split_go]. by rewrite Hp, (IH Hs).
Qed.

(** [split] undoes [join] on segments that do not hold the separator. *)
Lemma split_concat (l : list string) :
  l <> [] ->
  Forall (fun seg => PyStr.contains "; " seg = false) l ->
  PyStr.split "; " (String.concat "; " l) = l.
Proof.
  intros Hne Hl. induction Hl as [|seg l Hseg Hl IH]; [done|]. clear Hne.
  destruct l as [|seg' l].
  - unfold PyStr.split. simpl. by rewrite (split_go_whole _ Hseg).
  - specialize (IH ltac:(done)). unfold PyStr.split in *.
    change (String.concat "; " (seg :: seg' :: l))
      with (seg ++ "; " ++ String.concat "; " (seg' :: l))%string.
    rewrite (split_go_segment _ _ Hseg).
    destruct (PyStr.split_go "; " 0 (String.concat "; " (seg' :: l))) as [a b].
    simpl. by rewrite IH.
Qed.

(** No ["; "] appears where a name, ["="] and a value are put together. *)
Lemma contains_sep_pair a b :
  PyStr.contains "; " a = false -> PyStr.contains "; " b = false ->
  PyStr.contains "; " (a ++ String "=" b) = false.
Proof.
  intros Ha Hb. induction a as [|c a IH].
  - rewrite append_nil. cbn [PyStr.contains]. by rewrite Hb.
  - cbn [PyStr.contains] in Ha. apply orb_false_elim in Ha as [Hp Hs].
    rewrite append_cons. cbn [PyStr.contains]. rewrite (IH Hs), orb_false_r.
    apply prefix_sep_intro.
    destruct (prefix_sep_false _ _ Hp) as [Hc | Hd]; [by left|right].
    destruct a as [|d a]; [by rewrite append_nil|by rewrite append_cons].
Qed.

End TextProofs.

(** ** [get_usage.py]: the cookie line, written and read *)

Module CookieProofs.
Import GetUsage Login PyStrProofs TextProofs.

Lemma omap_Forall {A B} (f : A -> option B) (P : B -> Prop) (l : list A) :
  (forall x y, f x = Some y -> P y) -> Forall P (omap f l).
Proof.
  intros H. induction l as [|x l IH]; [constructor|]. csimpl.
  destruct (f x) as [y|] eqn:E; [|done]. constructor; [by eapply H|done].
Qed.

Lemma omap_shorter {A B} (f : A -> option B) (l : list A) :
  (length (omap f l) <= length l)%nat.
Proof.
  induction l as [|x l IH]; [done|]. csimpl.
  destruct (f x); simpl; lia.
Qed.

(** What one turn of the loop of [parse_cookies] appends. *)
Lemma parse_part_cookie dom part c :
  parse_part dom part = Some c ->
  name c <> "" /\ trimmed (name c) /\ PyStr.find "=" (name c) = None
  /\ trimmed (value c) /\ domain c = dom /\ path c = "/".
Proof.
  unfold parse_part.
  destruct (String.eqb (PyStr.strip part) ""); [done|].
  destruct (PyStr.find "=" (PyStr.strip part)) as [idx|] eqn:F; [|done].
  destruct (String.eqb_spec (PyStr.strip (PyStr.take idx (PyStr.strip part))) "")
    as [E|N]; [done|].
  intros [= <-]. cbn [name value domain path].
  split; [done|]. split; [apply strip_strip|].
  split; [by apply find_none_strip, find_take|].
  split; [apply strip_strip|done].
Qed.

(** X1. Whatever the cookie line holds, every cookie [parse_cookies]
    returns has a name that is not empty and holds no ["="], a name and
    a value without white space around them, the domain [claude.ai] and
    the path [/]; and there are no more cookies than segments between
    the ["; "] of the line. *)
Theorem parse_cookies_well_formed (cookie_str : string) :
  Forall (fun c => name c <> "" /\ trimmed (name c)
                   /\ PyStr.find "=" (name c) = None
                   /\ trimmed (value c)
                   /\ domain c = "claude.ai" /\ path c = "/")
         (parse_cookies cookie_str)
  /\ (length (parse_cookies cookie_str)
      <= length (PyStr.split "; " cookie_str))%nat.
Proof.
  split.
  - apply omap_Forall. intros part c. apply parse_part_cookie.
  - apply omap_shorter.
Qed.

(** *** The line saved by the login *)

Lemma plain_head c : plain c -> exists x s, name c = String x s /\ PyStr.isspace x = false.
Proof.
  intros (Hne & Ht & _). destruct (name c) as [|x s]; [done|].
  exists x, s. split; [done|]. by eapply trimmed_head.
Qed.

Lemma segment_trimmed c : plain c -> trimmed (segment c) /\ segment c <> "".
Proof.
  intros Hc. destruct (plain_head c Hc) as (x & s & En & Hx).
  destruct Hc as (_ & _ & _ & _ & [_ Hv]%trimmed_ends & _).
  unfold trimmed, segment, PyStr.strip. rewrite En, !append_cons.
  split; [|done]. rewrite (lstrip_fixed _ _ Hx), (rstrip_keeps_head _ _ Hx).
  f_equal. rewrite rstrip_app.
  - by rewrite append_nil, (rstrip_keeps_head "=") , Hv.
  - by rewrite append_nil, (rstrip_keeps_head "=").
Qed.

Lemma segment_no_sep c : plain c -> PyStr.contains "; " (segment c) = false.
Proof.
  intros (_ & _ & _ & Hn & _ & Hv). unfold segment. rewrite append_cons, append_nil.
  by apply contains_sep_pair.
Qed.

(** A segment written by the login is read back as its cookie. *)
Lemma parse_part_segment c : plain c -> parse_part "claude.ai" (segment c) = Some (rescoped c).
Proof.
  intros Hc. destruct (segment_trimmed c Hc) as [Ht Hne].
  destruct Hc as (Hn & Htn & Hf & _ & Htv & _).
  unfold parse_part. rewrite Ht.
  destruct (String.eqb_spec (segment c) "") as [E|_]; [done|].
  unfold segment. rewrite append_cons, append_nil.
  rewrite (find_first _ _ _ Hf), take_app, drop_S_app, Htn, Htv.
  by destruct (String.eqb_spec (name c) "") as [E|_].
Qed.

Lemma concat_cons2 sep (x y : string) l :
  String.concat sep (x :: y :: l) = (x ++ sep ++ String.concat sep (y :: l))%string.
Proof. reflexivity. Qed.

(** The saved line has no white space at its ends. *)
Lemma cookie_line_trimmed cookies :
  Forall plain cookies ->
  trimmed (cookie_line cookies) /\ (cookies <> [] -> cookie_line cookies <> "").
Proof.
  unfold cookie_line.
  induction 1 as [|c l Hc Hl [IHt IHn]]; [done|].
  destruct (segment_trimmed c Hc) as [Ht Hne].
  destruct l as [|c' l]; [done|].
  cbn [map] in *. rewrite concat_cons2.
  specialize (IHn ltac:(done)).
  destruct (plain_head c Hc) as (x & s & En & Hx).
  assert (exists t, segment c = String x t) as [t Et]
    by (unfold segment; rewrite En, append_cons; by eexists).
  split; [|by rewrite Et, append_cons].
  unfold trimmed, PyStr.strip in *. rewrite Et, !append_cons in *.
  rewrite (lstrip_fixed _ _ Hx), (rstrip_keeps_head _ _ Hx). f_equal.
  destruct (trimmed_ends _ IHt) as [_ Hr]. rewrite append_nil.
  set (R := String.concat "; " (segment c' :: map segment l)) in *.
  change (String ";" (String " " R)) with ("; " ++ R)%string.
  rewrite <- append_assoc, rstrip_app by (by rewrite Hr).
  by rewrite Hr.
Qed.

Lemma cookie_line_parsed cookies :
  Forall plain cookies -> parse_cookies (cookie_line cookies) = map rescoped cookies.
Proof.
  intros Hl. destruct cookies as [|c l]; [done|].
  unfold parse_cookies, parse_cookies_in, cookie_line.
  rewrite split_concat.
  - induction Hl as [|c0 l0 Hc _ IH]; [done|]. csimpl.
    by rewrite (parse_part_segment _ Hc), IH.
  - done.
  - induction Hl as [|c0 l0 Hc _ IH]; [done|]. constructor; [|done].
    by apply segment_no_sep.
Qed.

(** X2. The cookies a login captured are the ones the next fetch sends.
    When the cookies the browser held are plain (names without ["="],
    no white space around names and values, no ["; "] inside them),
    [--login] exits with status 0 and saves a line from which
    [parse_cookies] reads the same names and values back, in the same
    order, every cookie being given the domain [claude.ai] and the path
    [/] whatever its own were; [get_usage] then runs its browser session
    with these cookies.  When the browser held no cookie, the saved file
    is empty and [get_usage] gives up on it. *)
Theorem login_cookies_are_sent
  (w : world) (cookies : list cookie) (org_id : option string) (quiet : bool) :
  playwright w = true ->
  Forall plain cookies ->
  Login.main true (LoggedIn cookies) (cookie_text w) = (Some (cookie_line cookies), 0)
  /\ parse_cookies (cookie_line cookies) = map rescoped cookies
  /\ (cookies = [] ->
      get_usage (after_login w (LoggedIn cookies)) org_id quiet
      = (if quiet then [] else ["Error: Cookie file is empty"], Ok JNull))
  /\ (cookies <> [] ->
      exists org,
        get_usage (after_login w (LoggedIn cookies)) org_id quiet
        = ([], Ok (browser_fetch (after_login w (LoggedIn cookies))
                     (usage_url org) (map rescoped cookies)))).
Proof.
  intros Hp Hl. split; [done|]. split; [by apply cookie_line_parsed|].
  destruct (cookie_line_trimmed cookies Hl) as [Ht Hne].
  assert (cookie_text (after_login w (LoggedIn cookies)) = Some (cookie_line cookies))
    as Hfile by (unfold after_login, interactive_login; by rewrite Hp).
  split.
  - intros ->. unfold get_usage. rewrite Hfile. cbn [playwright after_login].
    rewrite Hp. by destruct quiet.
  - intros Hc. specialize (Hne Hc).
    destruct (GetUsageProofs.resolve_org_id_total org_id (cookie_line cookies))
      as [org Ho].
    exists org. rewrite <- (cookie_line_parsed _ Hl).
    unfold trimmed in Ht.
    pose proof (GetUsageProofs.get_usage_fetches
                  (after_login w (LoggedIn cookies)) org_id quiet
                  (cookie_line cookies) org) as H.
    rewrite Ht in H. by apply H.
Qed.

End CookieProofs.

(** ** [get_usage.py]: the browser session and the exit status *)

Module SessionProofs.
Import GetUsage Login Indicator.

Lemma handle_response_captured url response_data r :
  handle_response url response_data r = default response_data (captured url r).
Proof.
  unfold handle_response, captured.
  destruct (String.eqb (r_url r) url && (r_status r =? 200)); [|done].
  by destruct (r_json r).
Qed.

(** The payload held after a series of events is the one of the last
    event that had any. *)
Lemma fold_handle_response url (evs : list response_event) (init : json) :
  fold_left (handle_response url) evs init
  = default init (list.last (omap (captured url) evs)).
Proof.
  induction evs as [|r evs IH] using rev_ind; [done|].
  rewrite fold_left_app, omap_app. cbn [fold_left]. csimpl.
  rewrite handle_response_captured, IH.
  destruct (captured url r) as [j|]; csimpl.
  - by rewrite last_snoc.
  - by rewrite app_nil_r.
Qed.

Lemma captured_event url r j :
  captured url r = Some j -> r_url r = url /\ r_status r = 200 /\ r_json r = Some j.
Proof.
  unfold captured.
  destruct (String.eqb_spec (r_url r) url) as [E|]; [|done].
  destruct (Z.eqb_spec (r_status r) 200) as [E'|]; [|done]. done.
Qed.

Lemma last_omap_source {A B} (f : A -> option B) (l : list A) y :
  list.last (omap f l) = Some y -> exists x, x ∈ l /\ f x = Some y.
Proof.
  intros H. apply last_Some_elem_of in H.
  apply list_elem_of_omap in H as (x & Hx & Hf). eauto.
Qed.

(** X3. While [page.goto] runs, [handle_response] keeps the JSON body
    of the last response that has the URL requested and status 200 and
    whose body could be decoded; the responses of other URLs, of other
    statuses, or without a JSON body change nothing, and with no such
    response the payload stays [None]. *)
Theorem last_capture_wins (url : string) (evs : list response_event) :
  fold_left (handle_response url) evs JNull
  = default JNull (list.last (omap (captured url) evs))
  /\ (forall r, captured url r = None ->
        fold_left (handle_response url) (evs ++ [r]) JNull
        = fold_left (handle_response url) evs JNull)
  /\ (forall r j, r_url r = url -> r_status r = 200 -> r_json r = Some j ->
        fold_left (handle_response url) (evs ++ [r]) JNull = j).
Proof.
  split; [apply fold_handle_response|]. split.
  - intros r Hr. rewrite fold_left_app. cbn [fold_left].
    by rewrite handle_response_captured, Hr.
  - intros r j Hu Hs Hj. rewrite fold_left_app. cbn [fold_left].
    rewrite handle_response_captured. unfold captured.
    rewrite Hu, Hs, Hj, String.eqb_refl. done.
Qed.

Lemma error_dict_is_failure msg : is_success (Py.error_dict msg) = Ok false.
Proof.
  unfold Py.error_dict.
  apply (IndicatorProofs.is_success_error_dict _ (JStr msg)). by simplify_map_eq.
Qed.

Lemma is_success_truthy api : is_success api = Ok true -> Py.truthy api = true.
Proof. unfold is_success. by destruct (Py.truthy api). Qed.

(** X4. Whatever the browser session did, a result of [browser_fetch]
    that the indicator takes for live data is the JSON body of a
    response seen during the session, with the URL of the request and
    status 200: an error message is never taken for live data, and
    live data never come from another URL or another status. *)
Theorem live_data_comes_from_a_capture
  (w : world) (url : string) (cookies : list cookie) :
  is_success (browser_fetch w url cookies) = Ok true ->
  exists r, r ∈ events (browse w url cookies)
    /\ r_url r = url /\ r_status r = 200
    /\ r_json r = Some (browser_fetch w url cookies).
Proof.
  unfold browser_fetch.
  set (evs := events (browse w url cookies)).
  set (rd := fold_left (handle_response url) evs JNull).
  destruct (nonempty _ && negb (Py.truthy rd)).
  - by rewrite error_dict_is_failure.
  - intros Ht%is_success_truthy.
    unfold rd in *. rewrite fold_handle_response in *.
    destruct (list.last (omap (captured url) evs)) as [j|] eqn:L; [|done].
    destruct (last_omap_source _ _ _ L) as (r & Hr & Hc).
    exists r. split; [done|]. by apply captured_event.
Qed.

(** [get_usage] never raises: the segment that names the organisation
    always has the ["="] its value is read after. *)
Lemma get_usage_total (w : world) org_id quiet :
  exists err data, get_usage w org_id quiet = (err, Ok data)
    /\ (quiet = true -> err = []).
Proof.
  unfold get_usage.
  destruct (playwright w); cbn [negb];
    [|do 2 eexists; split; [done|by intros ->]].
  destruct (cookie_text w) as [text|];
    [|do 2 eexists; split; [done|by intros ->]].
  destruct (String.eqb (PyStr.strip text) "");
    [do 2 eexists; split; [done|by intros ->]|].
  destruct (GetUsageProofs.resolve_org_id_total org_id (PyStr.strip text)) as [org ->].
  by do 2 eexists.
Qed.




End SessionProofs.

(** ** The orchestrator: what reaches the indicator *)

Module PipeProofs.
Import GetUsage Indicator PyStrProofs.

(** The child process when [get_usage] returned a value other than
    [None]: status 0, one line on the standard output, nothing on the
    standard error stream. *)
Lemma run_get_usage_prints json_dumps traceback (h : host) data :
  timed_out h = false ->
  is_Some (cookie_text (script_world h)) ->
  snd (get_usage (script_world h) None true) = Ok data ->
  data <> JNull ->
  run_get_usage json_dumps traceback h
  = Completed 0 (lines [json_dumps None data]) "".
Proof.
  intros Hto [text Hc] Hd Hn. unfold run_get_usage, GetUsage.main.
  rewrite Hto, Hc.
  destruct (SessionProofs.get_usage_total (script_world h) None true)
    as (err1 & data' & E & Hq).
  rewrite E in *. cbn [snd] in Hd. injection Hd as ->.
  rewrite (Hq eq_refl). cbn [mbind res_bind].
  by destruct data.
Qed.

(** X6. What the indicator's orchestrator hands to [fetch_usage] is
    what [get_usage] returned in the child process, a payload or an
    error message alike, whenever that value is not [None], its JSON
    text is not blank and [json.loads] reads it back: the script prints
    an error message on its standard output and exits with status 0, so
    the message reaches the indicator unchanged. *)
Theorem outcome_is_the_script_result
  (json_loads : string -> option json) (json_dumps : option Z -> json -> string)
  (traceback : exn -> string) (h : host) (data : json) :
  script_exists h = true ->
  timed_out h = false ->
  is_Some (cookie_text (script_world h)) ->
  snd (get_usage (script_world h) None true) = Ok data ->
  data <> JNull ->
  PyStr.strip (lines [json_dumps None data]) <> "" ->
  json_loads (lines [json_dumps None data]) = Some data ->
  fetch_outcome json_loads json_dumps traceback h = data.
Proof.
  intros Hs Hto Hc Hd Hn Hb Hl. unfold fetch_outcome.
  rewrite (run_get_usage_prints _ _ _ _ Hto Hc Hd Hn), Hs.
  rewrite bool_decide_eq_true_2 by done.
  unfold _fetch_usage_from_api. cbn [negb orb]. rewrite Z.eqb_refl.
  destruct (String.eqb_spec (PyStr.strip (lines [json_dumps None data])) "")
    as [E|_]; [done|].
  cbn [negb andb]. by rewrite Hl.
Qed.

Lemma take_length n s : (String.length (PyStr.take n s) <= n)%nat.
Proof.
  revert s. induction n as [|n IH]; intros s; [by destruct s|].
  destruct s as [|c s]; simpl; [lia|]. specialize (IH s). lia.
Qed.

(** The message of a failed child that did not write JSON on its
    standard error stream. *)
Lemma report_failure_message json_loads stderr :
  PyStr.startswith "{" (PyStr.strip stderr) = false ->
  exists detail,
    report_failure json_loads stderr
    = Py.error_dict ("System error: " ++ detail ++ "...")
    /\ (String.length detail <= 50)%nat.
Proof.
  intros H. unfold report_failure.
  destruct (String.eqb_spec stderr "") as [->|_].
  - change (PyStr.startswith "{" "Unknown error") with false. cbn [andb].
    eexists. split; [done|]. apply take_length.
  - rewrite H. cbn [andb]. eexists. split; [done|]. apply take_length.
Qed.

Lemma length_error_message detail :
  (String.length detail <= 50)%nat ->
  (String.length ("System error: " ++ detail ++ "...") <= 67)%nat.
Proof.
  intros H. rewrite !PyStrProofs.length_append. cbn [String.length]. lia.
Qed.

(** X7. A fetch that was attempted and did not succeed is always
    reported as [{"error": message}], a value that is not [None] and
    that [fetch_usage] never takes for live data.  So it is when the
    child ran out of time, when [subprocess.run] raised, when the child
    exited with status 0 and an output that is not JSON, and when it
    failed (or printed nothing) without JSON on its standard error
    stream; in this last case the message is [System error: ], at most
    50 characters of that stream and [...], 67 characters at most. *)
Theorem failed_fetch_is_an_error
  (json_loads : string -> option json) (run : run_result) :
  (forall returncode stdout stderr,
     run = Completed returncode stdout stderr ->
     if (returncode =? 0) && negb (String.eqb (PyStr.strip stdout) "")
     then json_loads stdout = None
     else PyStr.startswith "{" (PyStr.strip stderr) = false) ->
  exists message,
    _fetch_usage_from_api json_loads true true run = Py.error_dict message
    /\ is_success (_fetch_usage_from_api json_loads true true run) = Ok false
    /\ _fetch_usage_from_api json_loads true true run <> JNull
    /\ (forall returncode stdout stderr,
          run = Completed returncode stdout stderr ->
          (returncode =? 0) && negb (String.eqb (PyStr.strip stdout) "") = false ->
          (String.length message <= 67)%nat).
Proof.
  intros Hrun.
  assert (forall message,
            _fetch_usage_from_api json_loads true true run = Py.error_dict message ->
            (forall returncode stdout stderr,
               run = Completed returncode stdout stderr ->
               (returncode =? 0) && negb (String.eqb (PyStr.strip stdout) "") = false ->
               (String.length message <= 67)%nat) ->
            exists message,
              _fetch_usage_from_api json_loads true true run = Py.error_dict message
              /\ is_success (_fetch_usage_from_api json_loads true true run) = Ok false
              /\ _fetch_usage_from_api json_loads true true run <> JNull
              /\ (forall returncode stdout stderr,
                    run = Completed returncode stdout stderr ->
                    (returncode =? 0) && negb (String.eqb (PyStr.strip stdout) "") = false ->
                    (String.length message <= 67)%nat)) as Hfin.
  { intros message E Hlen. exists message. rewrite E.
    split; [done|]. split; [apply SessionProofs.error_dict_is_failure|]. by split. }
  destruct run as [rc out err| |msg].
  - specialize (Hrun rc out err eq_refl).
    assert (exists message,
              _fetch_usage_from_api json_loads true true (Completed rc out err)
              = Py.error_dict message
              /\ ((rc =? 0) && negb (String.eqb (PyStr.strip out) "") = false ->
                  (String.length message <= 67)%nat)) as (message & E & Hlen).
    { unfold _fetch_usage_from_api. cbn [negb orb].
      destruct ((rc =? 0) && negb (String.eqb (PyStr.strip out) "")).
      - rewrite Hrun. eexists. split; [reflexivity|discriminate].
      - destruct (report_failure_message json_loads err Hrun) as (detail & E & Hd).
        rewrite E. eexists. split; [reflexivity|].
        intros _. by apply length_error_message. }
    eapply Hfin; [exact E|].
    intros rc' out' err' [= <- <- <-] T. exact (Hlen T).
  - eapply Hfin; [reflexivity|]. by intros rc out err.
  - eapply Hfin; [reflexivity|]. by intros rc out err.
Qed.

End PipeProofs.

(** ** [fetch_usage]: what a poll leaves alone *)

Module FrameProofs.
Import Indicator DateTime IndicatorProofs System.

Lemma keeps_modify {X} (f : state -> X) (g : state -> state) :
  (forall s, f (g s) = f s) -> keeps f (modify g).
Proof. intros H s s' r [= <- _]. apply H. Qed.

Ltac keeps_field :=
  repeat first
    [ apply keeps_lift | apply keeps_pure | apply keeps_read
    | apply keeps_modify; intros; reflexivity
    | apply keeps_bind; [|intros]
    | match goal with
      | |- keeps _ (if ?b then _ else _) => destruct b
      | |- keeps _ (match ?x with _ => _ end) => destruct x
      end ].

Lemma keeps_last_update_body api now :
  keeps (fun s => last_update (data s)) (fetch_usage_body api now).
Proof.
  unfold fetch_usage_body, _parse_api_usage, parse_window, load_reset.
  keeps_field.
Qed.

Lemma fetch_usage_last_update api now s :
  last_update (data (fst (fetch_usage api now s))) = last_update (data s).
Proof.
  unfold fetch_usage.
  destruct (fetch_usage_body api now s) as [s' [src|e]] eqn:E;
    apply (keeps_last_update_body api now) in E; exact E.
Qed.

(** X8. No poll assigns [last_update]: [fetch_usage] leaves the entry
    as it finds it whatever the outcome of the fetch, the configuration
    file and the way the poll ends, so that along any series of polls
    of an indicator that has just started the entry is still [None]. *)
Theorem last_update_is_never_set :
  (forall api now s,
     last_update (data (fst (fetch_usage api now s))) = last_update (data s))
  /\ (forall history c, last_update (data (polls history (fresh_state c))) = None).
Proof.
  split; [apply fetch_usage_last_update|].
  intros history c.
  assert (forall s, last_update (data (polls history s)) = last_update (data s)) as H.
  { induction history as [|[api now] h IH]; intros s; [done|].
    cbn [polls fold_left]. fold (polls h (fetch_usage api now s).1).
    by rewrite IH, fetch_usage_last_update. }
  by rewrite H.
Qed.

(** *** A window the payload does not have *)

Lemma parse_window_skipped w upd s :
  Py.truthy w = false -> parse_window w upd s = (s, Ok tt).
Proof. intros H. unfold parse_window. by rewrite H. Qed.

(** [_parse_api_usage] leaves the window its payload lacks as it was. *)
Lemma parse_api_usage_frame (m : gmap string json) s s' r :
  _parse_api_usage (JObj m) s = (s', r) ->
  (Py.truthy (default JNull (m !! "five_hour")) = false ->
   five_hour (data s') = five_hour (data s))
  /\ (Py.truthy (default JNull (m !! "seven_day")) = false ->
      weekly (data s') = weekly (data s)).
Proof.
  unfold _parse_api_usage, Py.get. step_stmt.
  assert (forall w, keeps (fun s => weekly (data s)) (parse_window w with_five_hour))
    as K5 by (intros w; unfold parse_window; keeps_field).
  assert (forall w, keeps (fun s => five_hour (data s)) (parse_window w with_weekly))
    as K7 by (intros w; unfold parse_window; keeps_field).
  destruct (parse_window (default JNull (m !! "five_hour")) with_five_hour s)
    as [s1 [[]|e]] eqn:E5.
  - intros E7. split.
    + intros T. rewrite (parse_window_skipped _ _ _ T) in E5. injection E5 as <-.
      eapply (K7 _ _ _ _ E7).
    + intros T. rewrite (parse_window_skipped _ _ _ T) in E7. injection E7 as <- _.
      eapply (K5 _ _ _ _ E5).
  - intros [= <- <-]. split.
    + intros T. by rewrite (parse_window_skipped _ _ _ T) in E5.
    + intros _. eapply (K5 _ _ _ _ E5).
Qed.

(** X9. A window that the payload lacks (its key is absent, or holds
    [null] or an empty object) keeps the utilization and the reset time
    the indicator held: the live case writes those older figures to the
    configuration file under the fresh [last_auto_update].  A payload
    that has neither window and no [error] key still counts as a
    success: the poll takes the live case, changes no figure and
    replaces the file by the figures already shown. *)
Theorem missing_window_keeps_figures
  (m : gmap string json) (now : datetime) (s : state) :
  (forall s', fetch_usage (JObj m) now s = (s', Ok Live) ->
     (Py.truthy (default JNull (m !! "five_hour")) = false ->
      five_hour (data s') = five_hour (data s)
      /\ live_config (data s') now !! "five_hour_usage"
         = Some (usage (five_hour (data s))))
     /\ (Py.truthy (default JNull (m !! "seven_day")) = false ->
         weekly (data s') = weekly (data s)
         /\ live_config (data s') now !! "weekly_usage"
            = Some (usage (weekly (data s))))
     /\ config_file s' = Some (JObj (live_config (data s') now)))
  /\ (Py.truthy (JObj m) = true -> m !! "error" = None ->
      Py.truthy (default JNull (m !! "five_hour")) = false ->
      Py.truthy (default JNull (m !! "seven_day")) = false ->
      fetch_usage (JObj m) now s
      = (idle_add UpdateUI (write_config (JObj (live_config (data s) now)) s),
         Ok Live)).
Proof.
  split.
  - intros s' Hlive.
    destruct (live_inversion _ _ _ _ Hlive) as (_ & s1 & Hp & ->).
    destruct (parse_api_usage_frame _ _ _ _ Hp) as [H5 H7].
    cbn [data idle_add write_config config_file].
    destruct (RoundTripProofs.live_config_lookups (data s1) now) as (L5 & L7 & _).
    split; [|split; [|done]].
    + intros T. rewrite L5, (H5 T). done.
    + intros T. rewrite L7, (H7 T). done.
  - intros Tm He T5 T7. apply live_branch; [by apply is_success_payload|].
    unfold _parse_api_usage, Py.get. step_stmt.
    by rewrite (parse_window_skipped _ _ _ T5), (parse_window_skipped _ _ _ T7).
Qed.

(** *** Polling while offline *)

(** The reading of one saved reset time, as a function of the file. *)
Lemma load_reset_readable (c : gmap string json) key upd s :
  reset_readable c key ->
  load_reset (JObj c) key upd s
  = (match saved_reset c key with
     | Some d => set_data (upd (set_reset d)) s
     | None => s
     end, Ok tt).
Proof.
  unfold reset_readable, load_reset, saved_reset, Py.get, Py.getitem. step_stmt.
  destruct (c !! key) as [v|]; cbn [default from_option id]; [|done].
  destruct v; intros H; try (by rewrite H).
  destruct (Py.truthy (JStr s0)) eqn:T.
  - unfold try_parse_reset, Py.replace_Z. cbn [mbind res_bind].
    by destruct (fromisoformat _).
  - simpl in T. apply negb_false_iff in T. apply String.eqb_eq in T as ->. done.
Qed.

(** The figures the cached case leaves, as a function of the file and
    of the figures held before. *)
Lemma cached_figures (api : json) (c : gmap string json) now s :
  no_live_data api ->
  config_file s = Some (JObj c) ->
  reset_readable c "five_hour_reset" -> reset_readable c "weekly_reset" ->
  exists s', fetch_usage api now s = (s', Ok Cached)
    /\ config_file s' = Some (JObj c)
    /\ data s'
       = {| five_hour :=
              {| usage := default (default (JInt 0) (c !! "usage_percentage"))
                            (c !! "five_hour_usage");
                 reset := match saved_reset c "five_hour_reset" with
                          | Some d => Some d
                          | None => reset (five_hour (data s))
                          end |};
            weekly :=
              {| usage := default (JInt 0) (c !! "weekly_usage");
                 reset := match saved_reset c "weekly_reset" with
                          | Some d => Some d
                          | None => reset (weekly (data s))
                          end |};
            last_update := last_update (data s) |}.
Proof.
  intros Hapi Hc R5 R7.
  unfold fetch_usage, fetch_usage_body.
  unfold mbind at 1, stmt_bind at 1, bind at 1, lift at 1.
  rewrite (no_live_data_is_failure _ Hapi).
  unfold mbind at 1, stmt_bind at 1, bind at 1, read at 1. rewrite Hc.
  destruct (report_error_step api s Hapi) as (s0 & E0 & Hc0 & Hd0).
  rewrite E0. clear E0.
  unfold Py.get. step_stmt.
  rewrite (load_reset_readable _ _ _ _ R5), (load_reset_readable _ _ _ _ R7).
  eexists. split; [reflexivity|].
  destruct (saved_reset c "five_hour_reset"), (saved_reset c "weekly_reset");
    cbn; rewrite ?Hc0, ?Hd0; done.
Qed.

(** X10. Polling while offline is stable.  Once a poll without live
    data has been served from a configuration file whose reset times
    can be read, any number of further polls without live data leave
    [usage_data] and the file exactly as that first poll left them. *)
Theorem offline_polls_are_stable
  (api : json) (now : datetime) (s : state) (history : list (json * datetime)) :
  no_live_data api ->
  readable_config s ->
  Forall (fun p => no_live_data (fst p)) history ->
  data (polls history (fst (fetch_usage api now s))) = data (fst (fetch_usage api now s))
  /\ config_file (polls history (fst (fetch_usage api now s))) = config_file s.
Proof.
  intros Hapi (c & Hc & R5 & R7) Hh.
  destruct (cached_figures api c now s Hapi Hc R5 R7) as (s1 & E1 & Hc1 & Hd1).
  rewrite E1. cbn [fst]. rewrite Hc, <- Hc1.
  assert (forall s2, config_file s2 = Some (JObj c) -> data s2 = data s1 ->
            data (polls history s2) = data s1
            /\ config_file (polls history s2) = config_file s1) as H.
  { induction Hh as [|[api' now'] h Hp _ IH]; intros s2 Hc2 Hd2.
    - split; [done|]. by rewrite Hc1.
    - change (polls ((api', now') :: h) s2)
        with (polls h (fst (fetch_usage api' now' s2))).
      destruct (cached_figures api' c now' s2 Hp Hc2 R5 R7) as (s3 & E3 & Hc3 & Hd3).
      rewrite E3. cbn [fst].
      apply IH; [done|].
      rewrite Hd3, Hd2, Hd1. cbn.
      by destruct (saved_reset c "five_hour_reset"), (saved_reset c "weekly_reset"). }
  by apply H.
Qed.

End FrameProofs.

(** ** [update_claude_usage.py]: the commands and the file *)

Module CommandProofs.
Import Indicator Updater DateTime IndicatorProofs.

(** What [fetch_and_update] writes when it writes: the saved
    configuration with three keys assigned. *)
Lemma merged_config_written data now config c3 :
  merged_config data now config = Ok (Some c3) ->
  exists (c0 c : gmap string json) (n : Z),
    config = JObj c0 /\ c3 = JObj c
    /\ c !! "usage_percentage" = Some (JInt n)
    /\ c !! "last_auto_update" = Some (JStr (isoformat now))
    /\ forall k, k ∉ ["usage_percentage"; "last_auto_update"; "reset_at"] ->
                 c !! k = c0 !! k.
Proof.
  unfold merged_config.
  destruct (Py.get data "five_hour" JNull) as [fh|]; [|done]. cbn [mbind res_bind].
  destruct (if Py.truthy fh then Ok fh else Py.get data "seven_day" JNull)
    as [usage_info|]; [|done]. cbn [mbind res_bind].
  destruct (Py.truthy usage_info); [|done].
  destruct (Py.get usage_info "utilization" (JInt 0)) as [u|]; [|done].
  cbn [mbind res_bind].
  destruct (Py.get usage_info "resets_at" JNull) as [resets_at|]; [|done].
  cbn [mbind res_bind].
  destruct (Py.int u) as [n|]; [|done]. cbn [mbind res_bind].
  destruct config as [| | | | | |c0]; try done. cbn [Py.setitem mbind res_bind].
  intros H. exists c0.
  destruct (Py.truthy resets_at); cbn [Py.setitem mbind res_bind] in H;
    injection H as <-; eexists _, n; (split; [done|]); (split; [done|]);
    (split; [by simplify_map_eq|]); (split; [by simplify_map_eq|]);
    intros k Hk; repeat (apply not_elem_of_cons in Hk as [? Hk]);
    by simplify_map_eq.
Qed.

(** [fetch_and_update] leaves the file alone unless it returns [True]. *)
Lemma fetch_and_update_cases json_loads cookie_exists run now config_file :
  (snd (fetch_and_update json_loads cookie_exists run now config_file) <> Ok true
   /\ fst (fetch_and_update json_loads cookie_exists run now config_file) = config_file)
  \/ (snd (fetch_and_update json_loads cookie_exists run now config_file) = Ok true
      /\ exists c3 data,
           fst (fetch_and_update json_loads cookie_exists run now config_file) = Some c3
           /\ merged_config data now (default (JObj ∅) config_file) = Ok (Some c3)).
Proof.
  unfold fetch_and_update.
  destruct cookie_exists; cbn [negb]; [|by left].
  destruct run as [rc out err| |msg]; [|by left|by left].
  destruct (negb (rc =? 0) || String.eqb (PyStr.strip out) ""); [by left|].
  destruct (json_loads out) as [data|]; [|by left].
  destruct (merged_config data now (default (JObj ∅) config_file))
    as [[c|]|e] eqn:E; [|by left|by left].
  right. split; [done|]. by exists c, data.
Qed.

(** X11. The [fetch] command of [update_claude_usage.py] changes the
    configuration file only when it succeeds.  When [fetch_and_update]
    returns [False] or ends on an exception (no cookie file, a child
    that failed, ran out of time or printed no JSON, a response without
    usable window, a utilization [int()] rejects, a configuration that
    is not an object), the file is as it was; when it returns [True],
    the file holds the saved configuration with an integer under
    [usage_percentage], the clock reading under [last_auto_update], and
    every key other than these two and [reset_at] unchanged. *)
Theorem command_fetch_writes_only_on_success
  (json_loads : string -> option json) (cookie_exists : bool) (run : run_result)
  (now : datetime) (config_file : option json) :
  let result := fetch_and_update json_loads cookie_exists run now config_file in
  (snd result <> Ok true /\ fst result = config_file)
  \/ (snd result = Ok true
      /\ exists (c0 c : gmap string json) (n : Z),
           default (JObj ∅) config_file = JObj c0
           /\ fst result = Some (JObj c)
           /\ c !! "usage_percentage" = Some (JInt n)
           /\ c !! "last_auto_update" = Some (JStr (isoformat now))
           /\ forall k, k ∉ ["usage_percentage"; "last_auto_update"; "reset_at"] ->
                        c !! k = c0 !! k).
Proof.
  cbn zeta.
  destruct (fetch_and_update_cases json_loads cookie_exists run now config_file)
    as [H | (Hr & c3 & data & Hc & Hm)]; [by left|].
  right. split; [done|].
  destruct (merged_config_written _ _ _ _ Hm) as (c0 & c & n & E0 & -> & H).
  exists c0, c, n. by rewrite Hc.
Qed.

(** *** The command line *)

Lemma update_usage_result percentage now config_file :
  fst (update_usage percentage now config_file) = config_file
  \/ snd (update_usage percentage now config_file) = Ok tt.
Proof.
  unfold update_usage.
  destruct (Py.int (JFloat percentage)) as [n|]; [|by left]. cbn [mbind res_bind].
  destruct (default (JObj default_config) config_file); cbn; auto.
Qed.

Lemma show_current_keeps config_file : fst (show_current config_file) = config_file.
Proof. unfold show_current. by destruct config_file. Qed.

(** X12. Whatever its arguments, [update_claude_usage.py] changes the
    configuration file only in a run that ends with status 0; a run
    that prints the usage text, rejects its argument, fails to fetch or
    ends on an exception leaves the file as it was.  The [show] command
    never changes it. *)
Theorem command_line_writes_only_on_success
  (json_loads : string -> option json) (py_float : string -> option pyfloat)
  (argv : list string) (cookie_exists : bool) (run : run_result)
  (now : datetime) (config_file : option json) :
  let result := main json_loads py_float argv cookie_exists run now config_file in
  (fst result = config_file \/ snd result = Exit 0)
  /\ (forall prog arg rest,
        argv = prog :: arg :: rest -> PyStr.lower arg = "show" ->
        fst result = config_file).
Proof.
  cbn zeta. split.
  - unfold main. destruct argv as [|prog [|arg rest]]; [by left|by left|].
    destruct (String.eqb (PyStr.lower arg) "fetch").
    { destruct (fetch_and_update_cases json_loads cookie_exists run now config_file)
        as [[Hr Hc] | [Hr _]];
        destruct (fetch_and_update json_loads cookie_exists run now config_file)
          as [c [[|]|e]]; cbn in *; auto; congruence. }
    destruct (String.eqb (PyStr.lower arg) "show").
    { pose proof (show_current_keeps config_file) as H.
      destruct (show_current config_file) as [c [[]|e]]; by left. }
    destruct (py_float arg) as [p|]; [|by left].
    destruct (in_range p); [|by left].
    destruct (update_usage_result p now config_file) as [H | H];
      destruct (update_usage p now config_file) as [c [[]|e]]; cbn in *;
      auto; try congruence.
    destruct e; auto.
  - intros prog arg rest -> Hs. unfold main. rewrite Hs.
    change (String.eqb "show" "fetch") with false. cbn iota.
    rewrite String.eqb_refl.
    pose proof (show_current_keeps config_file) as H.
    by destruct (show_current config_file) as [c [[]|e]].
Qed.

(** [int()] of a finite [float] that is not negative is its integer
    part. *)
Lemma int_of_float_floor (q : Q) :
  Qle_bool 0 q = true ->
  exists n, Py.int (JFloat (FFinite q)) = Ok n
    /\ 0 <= n /\ (inject_Z n <= q)%Q /\ (q < inject_Z (n + 1))%Q.
Proof.
  intros H%Qle_bool_iff. destruct q as [a b]. unfold Qle in H. simpl in H.
  eexists. split; [reflexivity|]. cbn [Qnum Qden].
  assert (0 <= a) as Ha by lia.
  rewrite Z.quot_div_nonneg by lia.
  pose proof (Z.div_mod a (Z.pos b) ltac:(lia)) as E.
  pose proof (Z.mod_pos_bound a (Z.pos b) ltac:(lia)) as Hm.
  split; [apply Z.div_pos; lia|].
  unfold Qle, Qlt. cbn [Qnum Qden inject_Z]. split; nia.
Qed.

(** X13. The percentage given on the command line is stored as its
    integer part, and what is stored lies between 0 and 100.  For an
    argument that is neither [fetch] nor [show] and that [float] reads
    as a finite [q] with [0 <= q <= 100], the run ends with status 0
    and [usage_percentage] holds the integer [n] with [n <= q < n + 1]:
    99.9 is stored as 99.  An argument [float] rejects, a number out of
    range, an infinity or a [nan] end the run with status 1 and leave
    the file as it was. *)
Theorem manual_percentage_is_truncated
  (json_loads : string -> option json) (py_float : string -> option pyfloat)
  (prog arg : string) (rest : list string) (cookie_exists : bool) (run : run_result)
  (now : datetime) (config_file : option json) :
  PyStr.lower arg <> "fetch" ->
  PyStr.lower arg <> "show" ->
  match py_float arg with
  | Some (FFinite q) =>
      if in_range (FFinite q) then
        forall c0 : gmap string json,
          default (JObj default_config) config_file = JObj c0 ->
          exists (c' : gmap string json) (n : Z),
            main json_loads py_float (prog :: arg :: rest) cookie_exists run now
              config_file = (Some (JObj c'), Exit 0)
            /\ c' !! "usage_percentage" = Some (JInt n)
            /\ 0 <= n <= 100
            /\ (inject_Z n <= q)%Q /\ (q < inject_Z (n + 1))%Q
      else main json_loads py_float (prog :: arg :: rest) cookie_exists run now
             config_file = (config_file, Exit 1)
  | _ => main json_loads py_float (prog :: arg :: rest) cookie_exists run now
           config_file = (config_file, Exit 1)
  end.
Proof.
  intros Hf Hs. unfold main.
  destruct (String.eqb_spec (PyStr.lower arg) "fetch") as [E|_]; [done|].
  destruct (String.eqb_spec (PyStr.lower arg) "show") as [E|_]; [done|].
  destruct (py_float arg) as [[q| |]|]; try done.
  destruct (in_range (FFinite q)) eqn:R; [|done].
  intros c0 Hc. cbn [in_range] in R. apply andb_prop in R as [R0 R100].
  destruct (int_of_float_floor q R0) as (n & Hn & H0 & Hle & Hlt).
  unfold update_usage. rewrite Hn, Hc. cbn [mbind res_bind Py.setitem].
  eexists _, n. split; [reflexivity|]. split; [by simplify_map_eq|].
  split; [|done]. split; [done|].
  apply Qle_bool_iff in R100.
  assert (inject_Z n <= inject_Z 100)%Q as H by (by apply (Qle_trans _ q)).
  by rewrite <- Zle_Qle in H.
Qed.

(** *** The indicator after a manual update *)

(** X14. A manual update reaches the indicator only while no live
    figure is saved.  After [update_usage] has written the integer part
    [n] of the percentage, a poll without live data shows, as the
    five-hour utilization, the value saved under [five_hour_usage] when
    there is one and [n] only otherwise: in a file written by the live
    case of [fetch_usage] the manual percentage is stored but never
    shown. *)
Theorem manual_update_is_shadowed
  (q : Q) (now : datetime) (saved : option json) (c0 : gmap string json)
  (api : json) (now' : datetime) (s : state) :
  default (JObj default_config) saved = JObj c0 ->
  no_live_data api ->
  config_file s = fst (update_usage (FFinite q) now saved) ->
  exists (c' : gmap string json),
    config_file s = Some (JObj c')
    /\ c' !! "usage_percentage" = Some (JInt (Z.quot (Qnum q) (Zpos (Qden q))))
    /\ usage (five_hour (data (fst (fetch_usage api now' s))))
       = default (JInt (Z.quot (Qnum q) (Zpos (Qden q)))) (c0 !! "five_hour_usage")
    /\ (forall u now0, c0 = live_config u now0 ->
          usage (five_hour (data (fst (fetch_usage api now' s))))
          = usage (five_hour u)).
Proof.
  intros Hc Hapi Hs.
  rewrite (UpdaterProofs.update_usage_writes q now saved c0 Hc) in Hs. cbn [fst] in Hs.
  eexists. split; [exact Hs|]. split; [by simplify_map_eq|].
  destruct (cached_branch api _ now' s Hapi Hs) as (s' & r & E & _ & H5 & _).
  rewrite E. cbn [fst]. rewrite H5.
  assert (forall v, default (default (JInt 0) (Some (JInt v))) (c0 !! "five_hour_usage")
                    = default (JInt v) (c0 !! "five_hour_usage")) as Hd by done.
  split.
  - by simplify_map_eq.
  - intros u now0 ->. simplify_map_eq.
    by destruct (RoundTripProofs.live_config_lookups u now0) as (-> & _).
Qed.

(** *** The [fetch] command without a five-hour window *)

Lemma fetch_and_update_seven_day
  (json_loads : string -> option json) (out err : string)
  (d f c : gmap string json) (n : Z) (now : datetime) :
  PyStr.strip out <> "" ->
  json_loads out = Some (JObj d) ->
  Py.truthy (default JNull (d !! "five_hour")) = false ->
  d !! "seven_day" = Some (JObj f) ->
  Py.truthy (JObj f) = true ->
  Py.int (default (JInt 0) (f !! "utilization")) = Ok n ->
  fetch_and_update json_loads true (Completed 0 out err) now (Some (JObj c))
  = (Some (JObj
       (let c2 := <["last_auto_update" := JStr (isoformat now)]>
                    (<["usage_percentage" := JInt n]> c) in
        let resets_at := default JNull (f !! "resets_at") in
        if Py.truthy resets_at then <["reset_at" := resets_at]> c2 else c2)),
     Ok true).
Proof.
  intros Hout Hl H5 H7 Ht Hn. unfold fetch_and_update. cbn [negb].
  rewrite Z.eqb_refl. cbn [negb orb].
  destruct (String.eqb_spec (PyStr.strip out) "") as [E|_]; [done|].
  rewrite Hl. unfold merged_config, Py.get.
  unfold mbind, res_bind. cbn beta iota. rewrite H5, H7.
  cbn [default from_option id]. rewrite Ht. cbn beta iota.
  rewrite Hn. cbn [Py.setitem].
  by destruct (Py.truthy (default JNull (f !! "resets_at"))).
Qed.

(** X15. When the response has no five-hour window (the key is absent,
    [null] or an empty object), the [fetch] command stores the
    utilization of the seven-day window under [usage_percentage].  The
    indicator reads that key as the five-hour utilization: in a file
    without [five_hour_usage], its next poll without live data shows
    the weekly figure as the five-hour one. *)
Theorem command_fetch_falls_back_to_seven_day
  (json_loads : string -> option json) (out err : string)
  (d f c : gmap string json) (n : Z) (now : datetime) :
  PyStr.strip out <> "" ->
  json_loads out = Some (JObj d) ->
  Py.truthy (default JNull (d !! "five_hour")) = false ->
  d !! "seven_day" = Some (JObj f) ->
  Py.truthy (JObj f) = true ->
  Py.int (default (JInt 0) (f !! "utilization")) = Ok n ->
  exists c' : gmap string json,
    fetch_and_update json_loads true (Completed 0 out err) now (Some (JObj c))
    = (Some (JObj c'), Ok true)
    /\ c' !! "usage_percentage" = Some (JInt n)
    /\ (c !! "five_hour_usage" = None ->
        forall api now' s,
          no_live_data api -> config_file s = Some (JObj c') ->
          usage (five_hour (data (fst (fetch_usage api now' s)))) = JInt n).
Proof.
  intros Hout Hl H5 H7 Ht Hn.
  eexists. split; [by apply (fetch_and_update_seven_day _ _ _ d f)|].
  cbn zeta.
  assert (forall k (c' : gmap string json),
    c' = (if Py.truthy (default JNull (f !! "resets_at"))
          then <["reset_at" := default JNull (f !! "resets_at")]>
                 (<["last_auto_update" := JStr (isoformat now)]>
                    (<["usage_percentage" := JInt n]> c))
          else <["last_auto_update" := JStr (isoformat now)]>
                 (<["usage_percentage" := JInt n]> c)) ->
    k <> "reset_at" -> k <> "last_auto_update" ->
    c' !! k = (<["usage_percentage" := JInt n]> c) !! k) as Hk.
  { intros k c' -> Hne Hne'.
    destruct (Py.truthy (default JNull (f !! "resets_at")));
      by rewrite !lookup_insert_ne by congruence. }
  split; [rewrite (Hk _ _ eq_refl) by done; by simplify_map_eq|].
  intros Hnone api now' s Hapi Hs.
  destruct (cached_branch api _ now' s Hapi Hs) as (s' & r & E & _ & H & _).
  rewrite E. cbn [fst]. rewrite H.
  rewrite !(Hk _ _ eq_refl) by done. by simplify_map_eq.
Qed.

End CommandProofs.

(** ** [datetime]: ordering and subtraction *)

Module DateArithProofs.
Import DateTime DateArith DateTimeProofs.

Lemma month_cases m :
  1 <= m <= 12 ->
  m = 1 \/ m = 2 \/ m = 3 \/ m = 4 \/ m = 5 \/ m = 6 \/ m = 7 \/ m = 8 \/ m = 9
  \/ m = 10 \/ m = 11 \/ m = 12.
Proof. lia. Qed.

Ltac each_month H :=
  apply month_cases in H;
  destruct H as [->|[->|[->|[->|[->|[->|[->|[->|[->|[->|[->| ->]]]]]]]]]]].

Lemma days_before_month_nonneg y m : 1 <= m <= 12 -> 0 <= days_before_month y m.
Proof.
  intros H. unfold days_before_month. each_month H;
    destruct (is_leap y); simpl; lia.
Qed.

(** The last day of a month is before the first day of the next one. *)
Lemma days_before_month_next y m m' d :
  1 <= m <= 12 -> 1 <= m' <= 12 -> m < m' ->
  1 <= d <= days_in_month y m ->
  days_before_month y m + d <= days_before_month y m'.
Proof.
  intros H H'. unfold days_before_month, days_in_month.
  each_month H; each_month H'; intros Hlt; try lia;
    destruct (is_leap y); simpl; lia.
Qed.

(** The last day of a year is day 365 of it, or 366. *)
Lemma day_of_year_bound y m d :
  1 <= m <= 12 -> 1 <= d <= days_in_month y m ->
  days_before_month y m + d <= 365 + (if is_leap y then 1 else 0).
Proof.
  intros H. unfold days_before_month, days_in_month.
  each_month H; destruct (is_leap y); simpl; lia.
Qed.

Lemma days_before_year_succ y :
  days_before_year (y + 1) = days_before_year y + 365 + (if is_leap y then 1 else 0).
Proof.
  unfold days_before_year, is_leap. cbn zeta.
  replace (y + 1 - 1) with y by lia.
  destruct (Z.eqb_spec (y mod 4) 0) as [H4|H4];
    destruct (Z.eqb_spec (y mod 100) 0) as [H100|H100];
    destruct (Z.eqb_spec (y mod 400) 0) as [H400|H400];
    cbn [negb andb orb]; Z.div_mod_to_equations; lia.
Qed.

Lemma days_before_year_mono y y' : y <= y' -> days_before_year y <= days_before_year y'.
Proof.
  intros H. unfold days_before_year. cbn zeta. Z.div_mod_to_equations. lia.
Qed.

(** An earlier date has a smaller ordinal. *)
Lemma toordinal_year a b :
  valid a = true -> valid b = true -> year a < year b -> toordinal a < toordinal b.
Proof.
  intros (_ & Hm & Hd & _)%valid_ranges (_ & Hm' & Hd' & _)%valid_ranges Hy.
  unfold toordinal.
  pose proof (day_of_year_bound (year a) _ _ Hm Hd).
  pose proof (days_before_year_succ (year a)).
  pose proof (days_before_year_mono (year a + 1) (year b) ltac:(lia)).
  pose proof (days_before_month_nonneg (year b) _ Hm'). lia.
Qed.

Lemma toordinal_month a b :
  valid a = true -> valid b = true ->
  year a = year b -> month a < month b -> toordinal a < toordinal b.
Proof.
  intros (_ & Hm & Hd & _)%valid_ranges (_ & Hm' & Hd' & _)%valid_ranges Hy Hlt.
  unfold toordinal. rewrite <- Hy.
  pose proof (days_before_month_next (year a) _ _ _ Hm Hm' Hlt Hd). lia.
Qed.

(** The fields of a later value make a larger number of microseconds. *)
Lemma cmp_fields_lt a b :
  valid a = true -> valid b = true -> cmp_fields a b = Lt -> micros a < micros b.
Proof.
  intros Va Vb.
  pose proof (toordinal_year a b Va Vb) as Hy.
  pose proof (toordinal_month a b Va Vb) as Hm.
  destruct (valid_ranges a Va) as (_ & _ & _ & Hh & Hmi & Hs & Hu & _).
  destruct (valid_ranges b Vb) as (_ & _ & _ & Hh' & Hmi' & Hs' & Hu' & _).
  unfold cmp_fields, cmp_tuple, micros.
  destruct (Z.compare_spec (year a) (year b)) as [Ey|Ly|Gy]; [|lia|done].
  destruct (Z.compare_spec (month a) (month b)) as [Em|Lm|Gm]; [|lia|done].
  assert (toordinal a - day a = toordinal b - day b) as Eo
    by (unfold toordinal; rewrite Ey, Em; lia).
  destruct (Z.compare_spec (day a) (day b)) as [Ed|Ld|Gd]; [|lia|done].
  destruct (Z.compare_spec (hour a) (hour b)) as [Eh|Lh|Gh]; [|lia|done].
  destruct (Z.compare_spec (minute a) (minute b)) as [Emi|Lmi|Gmi]; [|lia|done].
  destruct (Z.compare_spec (second a) (second b)) as [Es|Ls|Gs]; [|lia|done].
  destruct (Z.compare_spec (microsecond a) (microsecond b)) as [Eu|Lu|Gu];
    [done|lia|done].
Qed.

Lemma cmp_fields_eq a b : cmp_fields a b = Eq -> micros a = micros b.
Proof.
  unfold cmp_fields, cmp_tuple, micros, toordinal.
  destruct (Z.compare_spec (year a) (year b)) as [Ey|Ly|Gy]; [|done|done].
  destruct (Z.compare_spec (month a) (month b)) as [Em|Lm|Gm]; [|done|done].
  destruct (Z.compare_spec (day a) (day b)) as [Ed|Ld|Gd]; [|done|done].
  destruct (Z.compare_spec (hour a) (hour b)) as [Eh|Lh|Gh]; [|done|done].
  destruct (Z.compare_spec (minute a) (minute b)) as [Emi|Lmi|Gmi]; [|done|done].
  destruct (Z.compare_spec (second a) (second b)) as [Es|Ls|Gs]; [|done|done].
  destruct (Z.compare_spec (microsecond a) (microsecond b)) as [Eu|Lu|Gu];
    [|done|done].
  intros _. by rewrite Ey, Em, Ed, Eh, Emi, Es, Eu.
Qed.

Lemma cmp_tuple_swap (l : list (Z * Z)) :
  cmp_tuple (map (fun p => (snd p, fst p)) l) = CompOpp (cmp_tuple l).
Proof.
  induction l as [|[x y] l IH]; [done|]. cbn [map cmp_tuple fst snd].
  rewrite (Z.compare_antisym x y). by destruct (x ?= y).
Qed.

Lemma cmp_fields_swap a b : cmp_fields b a = CompOpp (cmp_fields a b).
Proof. unfold cmp_fields. by rewrite <- cmp_tuple_swap. Qed.

(** On values the constructor accepts, the order of the fields is the
    order of the microseconds. *)
Lemma cmp_fields_micros a b :
  valid a = true -> valid b = true -> cmp_fields a b = (micros a ?= micros b).
Proof.
  intros Va Vb. symmetry. destruct (cmp_fields a b) eqn:E.
  - apply Z.compare_eq_iff. by apply cmp_fields_eq.
  - apply Z.compare_lt_iff. by apply cmp_fields_lt.
  - apply Z.compare_gt_iff. apply cmp_fields_lt; [done|done|].
    by rewrite cmp_fields_swap, E.
Qed.

(** Two values of the same kind: both naive, or both aware. *)
Lemma sub_instants a b :
  (tzinfo a = None <-> tzinfo b = None) -> sub a b = Ok (instant a - instant b).
Proof.
  unfold sub, instant. intros [H1 H2].
  destruct (tzinfo a) as [oa|], (tzinfo b) as [ob|]; cbn [default from_option id].
  - f_equal. lia.
  - by specialize (H2 eq_refl).
  - by specialize (H1 eq_refl).
  - f_equal. lia.
Qed.

Lemma gt_instants a b :
  valid a = true -> valid b = true ->
  (tzinfo a = None <-> tzinfo b = None) ->
  gt a b = Ok (instant b <? instant a).
Proof.
  intros Va Vb [H1 H2]. unfold gt, cmp, sub, instant.
  pose proof (cmp_fields_micros a b Va Vb) as Hc.
  destruct (tzinfo a) as [oa|], (tzinfo b) as [ob|]; cbn [default from_option id].
  - destruct (Z.eqb_spec oa ob) as [->|Hne]; cbn [mbind res_bind].
    + rewrite Hc. f_equal.
      destruct (Z.compare_spec (micros a) (micros b)),
               (Z.ltb_spec (micros b - ob) (micros a - ob));
        first [done | exfalso; lia].
    + f_equal.
      destruct (Z.compare_spec (micros a - micros b + ob - oa) 0),
               (Z.ltb_spec (micros b - ob) (micros a - oa));
        first [done | exfalso; lia].
  - by specialize (H2 eq_refl).
  - by specialize (H1 eq_refl).
  - cbn [mbind res_bind]. rewrite Hc. f_equal.
    destruct (Z.compare_spec (micros a) (micros b)),
             (Z.ltb_spec (micros b - 0) (micros a - 0));
      first [done | exfalso; lia].
Qed.

(** *** [total_seconds] and its integer part *)

Lemma binade_upper n d : binade n d <= Z.log2 n - Z.log2 d.
Proof.
  unfold binade. cbn zeta.
  match goal with |- (if ?b then _ else _) <= _ => destruct b end; lia.
Qed.

(** Rounding to the nearest integer moves a quotient by less than one. *)
Lemma round_half_even_cases n d :
  0 < d ->
  round_half_even n d = n / d
  \/ (round_half_even n d = n / d + 1 /\ d <= 2 * (n mod d)).
Proof.
  intros Hd. unfold round_half_even. cbn zeta.
  destruct (Z.ltb_spec (2 * (n mod d)) d); [by left|].
  destruct (Z.ltb_spec d (2 * (n mod d))); [right; lia|].
  destruct (Z.even (n / d)); [by left|right; lia].
Qed.

(** Below [2^53] microseconds (some 285 years), the integer part of
    [total_seconds()] is the number of whole seconds. *)
Lemma int_total_seconds us :
  0 < us < 2 ^ 53 -> Py.int (JFloat (total_seconds us)) = Ok (us / 1000000).
Proof.
  intros [H0 H53]. unfold total_seconds.
  destruct (Z.eqb_spec us 0) as [->|_]; [lia|].
  destruct (Z.ltb_spec 0 us) as [_|]; [|lia].
  unfold true_divide. cbn zeta.
  pose proof (binade_upper us 1000000) as Hb.
  assert (Z.log2 us < 53) as Hl by (by apply Z.log2_lt_pow2).
  change (Z.log2 1000000) with 19 in Hb.
  set (s := binade us 1000000 - 52) in *.
  assert (s <= -19) as Hs by lia.
  destruct (Z.leb_spec 0 s) as [|_]; [lia|].
  set (P := 2 ^ (- s)).
  assert (2 ^ 19 <= P) as HP by (apply Z.pow_le_mono_r; lia).
  change (2 ^ 19) with 524288 in HP.
  cbn [Py.int Qnum Qden]. rewrite Z2Pos.id by lia. f_equal.
  set (k := us / 1000000).
  pose proof (Z.div_mod us 1000000 ltac:(lia)) as Eus. fold k in Eus.
  pose proof (Z.mod_pos_bound us 1000000 ltac:(lia)) as Hr0.
  set (r0 := us mod 1000000) in *.
  assert (0 <= k) as Hk by (apply Z.div_pos; lia).
  assert (us * P = 1000000 * (k * P) + r0 * P) as EN by lia.
  assert (0 <= r0 * P <= 999999 * P) as Hc by nia.
  assert (0 <= k * P) as Ha by nia.
  set (a := k * P) in *. set (c := r0 * P) in *.
  pose proof (Z.div_mod (us * P) 1000000 ltac:(lia)) as EQ.
  pose proof (Z.mod_pos_bound (us * P) 1000000 ltac:(lia)) as HR.
  assert (a <= round_half_even (us * P) 1000000 < a + P) as Hm.
  { destruct (round_half_even_cases (us * P) 1000000 ltac:(lia)) as [-> | [-> Hhalf]];
      lia. }
  set (m := round_half_even (us * P) 1000000) in *.
  rewrite Z.quot_div_nonneg by lia.
  symmetry. apply (Z.div_unique m P k (m - a)); [lia|]. unfold a. lia.
Qed.

(** The hours and minutes shown for a number of whole seconds. *)
Lemma hours_minutes us :
  0 <= us ->
  let seconds := us / 1000000 in
  let hours := seconds / 3600 in
  let minutes := seconds mod 3600 / 60 in
  0 <= hours /\ 0 <= minutes < 60
  /\ (hours * 60 + minutes) * 60000000 <= us
     < (hours * 60 + minutes + 1) * 60000000.
Proof. intros H. cbn zeta. Z.div_mod_to_equations. lia. Qed.

End DateArithProofs.

(** ** The labels of the indicator *)

Module PanelProofs.
Import DateTime DateArith Indicator Panel IndicatorProofs DateArithProofs.

Lemma ge_comparable v n : comparable v -> exists b, ge v n = Ok b.
Proof. destruct v as [| | |[| |]| | |]; try done; by eexists. Qed.

Lemma icon_comparable v : comparable v -> exists text, icon v = Ok text.
Proof.
  intros H. unfold icon.
  destruct (ge_comparable v 90 H) as [[|] ->]; cbn [mbind res_bind]; [by eexists|].
  destruct (ge_comparable v 70 H) as [b ->]. by eexists.
Qed.

(** [update_label] with a five-hour utilization it can compare: the
    label of the indicator and the five-hour item are set, whatever the
    weekly utilization is. *)
Lemma update_label_five_hour repr u w text :
  icon (usage (five_hour u)) = Ok text ->
  indicator_label (fst (update_label repr u w))
  = ("Claude: " ++ str repr (usage (five_hour u)) ++ "%")%string
  /\ five_hour_item (fst (update_label repr u w))
     = (text ++ " Usage (5h): " ++ str repr (usage (five_hour u)) ++ "%")%string
  /\ reset_item (fst (update_label repr u w)) = reset_item w.
Proof.
  intros H. unfold update_label. cbn zeta. rewrite H.
  by destruct (icon (usage (weekly u))).
Qed.

Lemma update_label_ok repr u w :
  comparable (usage (five_hour u)) -> comparable (usage (weekly u)) ->
  snd (update_label repr u w) = Ok tt.
Proof.
  intros [t5 H5]%icon_comparable [t7 H7]%icon_comparable.
  unfold update_label. cbn zeta. by rewrite H5, H7.
Qed.

(** The text of the reset item, by the time that is left. *)
Lemma countdown_text reset_time now :
  valid reset_time = true -> valid now = true ->
  (tzinfo reset_time = None <-> tzinfo now = None) ->
  (instant reset_time - instant now <= 0 ->
   countdown reset_time now = Ok "⏰ 5h Limit Reset")
  /\ (0 < instant reset_time - instant now < 2 ^ 53 ->
      countdown reset_time now
      = Ok ("⏰ Reset (5h) in: "
            ++ Py.str_of_int ((instant reset_time - instant now) / 1000000 / 3600)
            ++ "h "
            ++ Py.str_of_int ((instant reset_time - instant now) / 1000000 mod 3600 / 60)
            ++ "m")%string).
Proof.
  intros Vr Vn Hk. unfold countdown.
  rewrite (gt_instants _ _ Vr Vn Hk), (sub_instants _ _ Hk). cbn [mbind res_bind].
  split; intros H.
  - by destruct (Z.ltb_spec (instant now) (instant reset_time)) as [|_]; [lia|].
  - destruct (Z.ltb_spec (instant now) (instant reset_time)) as [_|]; [|lia].
    cbn [mbind res_bind]. by rewrite (int_total_seconds _ H).
Qed.

(** X16. The reset item counts whole minutes down to the five-hour
    reset.  [update_ui] compares an aware reset time with the clock in
    UTC and a naive one with the local clock, so that the comparison
    never raises.  When the reset time is not after the clock reading,
    the item reads [5h Limit Reset]; when it is, by less than [2^53]
    microseconds (some 285 years), the item shows [hours] and [minutes]
    with [0 <= minutes < 60] and
    [hours h minutes min <= time left < hours h (minutes + 1) min]:
    the time left is rounded down to the minute, never up. *)
Theorem reset_item_counts_whole_minutes
  (repr : json -> string) (clk : clock) (u : usage_data) (w : widgets)
  (reset_time : datetime) :
  sound clk ->
  valid reset_time = true ->
  reset (five_hour u) = Some reset_time ->
  comparable (usage (five_hour u)) -> comparable (usage (weekly u)) ->
  let now := match tzinfo reset_time with
             | Some _ => utc_now clk
             | None => local_now clk
             end in
  let left := instant reset_time - instant now in
  exists w',
    update_ui repr clk u w = (w', Ok false)
    /\ (left <= 0 -> reset_item w' = "⏰ 5h Limit Reset")
    /\ (0 < left < 2 ^ 53 ->
        exists hours minutes,
          reset_item w'
          = ("⏰ Reset (5h) in: " ++ Py.str_of_int hours ++ "h "
             ++ Py.str_of_int minutes ++ "m")%string
          /\ 0 <= hours /\ 0 <= minutes < 60
          /\ (hours * 60 + minutes) * 60000000 <= left
             < (hours * 60 + minutes + 1) * 60000000).
Proof.
  intros (Hu & Hl & Vu & Vl) Vr Hr C5 C7. cbn zeta.
  set (now := match tzinfo reset_time with
              | Some _ => utc_now clk
              | None => local_now clk
              end).
  assert (valid now = true /\ (tzinfo reset_time = None <-> tzinfo now = None))
    as [Vn Hk].
  { unfold now. destruct (tzinfo reset_time); (split; [done|]);
      rewrite ?Hu, ?Hl; split; done. }
  destruct (countdown_text reset_time now Vr Vn Hk) as [Hpast Hfuture].
  pose proof (update_label_ok repr u w C5 C7) as Hok.
  unfold update_ui. destruct (update_label repr u w) as [w1 r]. cbn [snd] in Hok.
  subst r. rewrite Hr. fold now.
  destruct (Z_le_gt_dec (instant reset_time - instant now) 0) as [Hle|Hgt].
  - rewrite (Hpast Hle). eexists. split; [reflexivity|]. split; [done|lia].
  - destruct (Z_lt_le_dec (instant reset_time - instant now) (2 ^ 53)) as [Hlt|Hge].
    + rewrite (Hfuture ltac:(lia)). eexists. split; [reflexivity|].
      split; [lia|]. intros _. do 2 eexists. split; [reflexivity|].
      apply (hours_minutes (instant reset_time - instant now)). lia.
    + destruct (countdown reset_time now) as [text|e] eqn:E.
      * eexists. split; [reflexivity|]. split; lia.
      * exfalso. unfold countdown in E.
        rewrite (gt_instants _ _ Vr Vn Hk), (sub_instants _ _ Hk) in E.
        cbn [mbind res_bind] in E.
        destruct (instant now <? instant reset_time); [|done].
        cbn [mbind res_bind] in E. unfold total_seconds in E.
        destruct (_ =? 0); [done|]. by destruct (0 <? _).
Qed.

(** *** The callbacks of a poll *)

Lemma drain_snoc repr exn_text clocks i u queue e w :
  drain repr exn_text clocks i u (queue ++ [e])%list w
  = run_callback repr exn_text (clocks (i + length queue)%nat) u e
      (drain repr exn_text clocks i u queue w).
Proof.
  revert i w. induction queue as [|x queue IH]; intros i w.
  - cbn. by rewrite Nat.add_0_r.
  - cbn [app drain length]. rewrite IH. by rewrite Nat.add_succ_r.
Qed.

Lemma ensures_bind {A B} (Q : state -> B -> Prop) (m : stmt A) (k : A -> stmt B) :
  (forall a, ensures Q (k a)) -> ensures Q (m ≫= k).
Proof.
  intros Hk s s' b. unfold mbind, stmt_bind, bind.
  destruct (m s) as [s1 [a|e]]; [apply Hk|done].
Qed.

Lemma ensures_update_last {A} (a : A) :
  ensures (fun s' _ => exists l, idle s' = (l ++ [UpdateUI])%list)
    (modify (idle_add UpdateUI) ≫= fun _ => pure a).
Proof. intros s s' b [= <- _]. by eexists. Qed.

(** A poll that ends normally has queued [update_ui] last. *)
Lemma normal_end_queues_update api now :
  ensures (fun s' _ => exists l, idle s' = (l ++ [UpdateUI])%list) (fetch_usage_body api now).
Proof.
  unfold fetch_usage_body.
  apply ensures_bind; intros [|].
  - do 3 (apply ensures_bind; intros). apply ensures_update_last.
  - apply ensures_bind; intros [config|].
    + do 9 (apply ensures_bind; intros). apply ensures_update_last.
    + do 3 (apply ensures_bind; intros). apply ensures_update_last.
Qed.

(** The callbacks queued by a failed fetch that is served from the
    file: the error, the offline mark, the update. *)
Lemma cached_queue (m c : gmap string json) (msg : json) now s :
  m !! "error" = Some msg ->
  config_file s = Some (JObj c) ->
  reset_readable c "five_hour_reset" -> reset_readable c "weekly_reset" ->
  exists s', fetch_usage (JObj m) now s = (s', Ok Cached)
    /\ idle s' = (idle s ++ [ShowError msg; MarkOffline; UpdateUI])%list.
Proof.
  intros Hm Hc R5 R7.
  unfold fetch_usage, fetch_usage_body.
  unfold mbind at 1, stmt_bind at 1, bind at 1, lift at 1.
  rewrite (is_success_error_dict _ _ Hm).
  unfold mbind at 1, stmt_bind at 1, bind at 1, read at 1. rewrite Hc.
  rewrite (truthy_lookup _ _ _ Hm). unfold Py.contains, Py.getitem.
  rewrite bool_decide_eq_true_2 by (by rewrite Hm). rewrite Hm.
  unfold Py.get. step_stmt.
  rewrite (FrameProofs.load_reset_readable _ _ _ _ R5),
          (FrameProofs.load_reset_readable _ _ _ _ R7).
  eexists. split; [reflexivity|].
  destruct (System.saved_reset c "five_hour_reset"),
           (System.saved_reset c "weekly_reset"); cbn; by rewrite <- !app_assoc.
Qed.

(** X17. Once the callbacks of a poll have run, the five-hour item
    shows the error only if the poll ended on an exception.  A poll
    that ends normally queues [update_ui] last: when the five-hour
    utilization can be compared, the five-hour item ends as the symbol
    and [Usage (5h): n%], and the label of the indicator as
    [Claude: n%], whatever was shown before.  So it is for a failed
    fetch served from the file: the callbacks that show the error and
    the offline mark run first and [update_ui] replaces their text.  A
    poll that ends on an exception [e] queues [show_error] last, and
    the item ends as the error text. *)
Theorem labels_after_a_poll
  (repr : json -> string) (exn_text : exn -> string) (clocks : nat -> clock)
  (api : json) (now : datetime) (s : state) (w : widgets) :
  let s' := fst (fetch_usage api now s) in
  let w' := drain repr exn_text clocks 0 (data s') (idle s') w in
  match snd (fetch_usage api now s) with
  | Ok _ =>
      forall text, icon (usage (five_hour (data s'))) = Ok text ->
        five_hour_item w'
        = (text ++ " Usage (5h): " ++ str repr (usage (five_hour (data s'))) ++ "%")%string
        /\ indicator_label w'
           = ("Claude: " ++ str repr (usage (five_hour (data s'))) ++ "%")%string
  | Raise e => five_hour_item w' = ("❌ Error: " ++ exn_text e)%string
  end
  /\ (forall (m c : gmap string json) msg,
        api = JObj m -> m !! "error" = Some msg ->
        config_file s = Some (JObj c) ->
        reset_readable c "five_hour_reset" -> reset_readable c "weekly_reset" ->
        snd (fetch_usage api now s) = Ok Cached
        /\ idle s' = (idle s ++ [ShowError msg; MarkOffline; UpdateUI])%list).
Proof.
  cbn zeta. split.
  - unfold fetch_usage.
    destruct (fetch_usage_body api now s) as [s1 [src|e]] eqn:E; cbn [fst snd].
    + destruct (normal_end_queues_update api now _ _ _ E) as [l ->].
      intros text Ht. rewrite drain_snoc. cbn [run_callback].
      unfold update_ui.
      destruct (update_label_five_hour repr (data s1)
                  (drain repr exn_text clocks 0 (data s1) l w) text Ht)
        as (Hl & H5 & _).
      destruct (update_label repr (data s1) _) as [w1 [[]|e]]; cbn [fst] in *;
        [|done].
      destruct (reset (five_hour (data s1))) as [reset_time|]; [|done].
      by destruct (countdown reset_time _).
    + cbn [idle idle_add]. by rewrite drain_snoc.
  - intros m c msg -> Hm Hc R5 R7.
    destruct (cached_queue m c msg now s Hm Hc R5 R7) as (s1 & -> & Hq). done.
Qed.

End PanelProofs.

(** ** The utilizations stay values that can be shown *)

Module SystemProofs.
Import DateTime Indicator Panel System IndicatorProofs RoundTripProofs.

Lemma maintains_modify (P : state -> Prop) (g : state -> state) :
  (forall s, P s -> P (g s)) -> maintains P (modify g).
Proof. intros H s s' r Hs [= <- _]. by apply H. Qed.

Ltac in_list := rewrite !elem_of_cons; auto 10.

Ltac not_in_list :=
  rewrite !not_elem_of_cons; repeat split; try done; apply not_elem_of_nil.

Lemma usage_key_cases k :
  k ∈ usage_keys ->
  k = "five_hour_usage" \/ k = "usage_percentage" \/ k = "weekly_usage".
Proof.
  unfold usage_keys. rewrite !elem_of_cons, elem_of_nil. tauto.
Qed.

(** A utilization read from a configuration that holds comparable ones. *)
Lemma get_comparable config k d v :
  comparable_config (Some config) ->
  k ∈ usage_keys -> comparable d ->
  Py.get config k d = Ok v -> comparable v.
Proof.
  intros Hc Hk Hd. destruct config as [| | | | | |c]; try done.
  cbn [Py.get]. intros [= <-].
  destruct (c !! k) as [x|] eqn:E; [|done]. by eapply Hc.
Qed.

(** The invariant, with the configuration file named. *)
Lemma cached_statements_keep_presentable config api :
  maintains (fun s => presentable s /\ config_file s = Some config)
    ((if Py.truthy api then
        has ← lift (Py.contains "error" api);
        if (has : bool) then
          msg ← lift (Py.getitem api "error");
          modify (idle_add (ShowError msg))
        else pure tt
      else pure tt);;
     pct ← lift (Py.get config "usage_percentage" (JInt 0));
     fh ← lift (Py.get config "five_hour_usage" pct);
     modify (set_data (with_five_hour (set_usage fh)));;
     wk ← lift (Py.get config "weekly_usage" (JInt 0));
     modify (set_data (with_weekly (set_usage wk)));;
     load_reset config "five_hour_reset" with_five_hour;;
     load_reset config "weekly_reset" with_weekly;;
     modify (idle_add MarkOffline);;
     modify (idle_add UpdateUI);;
     pure Cached).
Proof.
  assert (forall e, maintains (fun s => presentable s /\ config_file s = Some config)
                      (modify (idle_add e))) as Hidle
    by (intros e; apply maintains_modify; by intros s [? ?]).
  assert (forall key upd, window_setter upd ->
            maintains (fun s => presentable s /\ config_file s = Some config)
              (load_reset config key upd)) as Hload.
  { intros key upd Hupd. unfold load_reset.
    apply maintains_lift_bind; intros saved _.
    destruct (Py.truthy saved); [|apply maintains_pure].
    apply maintains_lift_bind; intros text _.
    apply maintains_lift_bind; intros [d|] _; [|apply maintains_pure].
    apply maintains_modify. intros s [(H5 & H7 & Hc) E].
    destruct Hupd as [-> | ->]; by repeat split. }
  apply maintains_bind.
  { destruct (Py.truthy api); [|apply maintains_pure].
    apply maintains_lift_bind; intros [|] _; [|apply maintains_pure].
    apply maintains_lift_bind; intros msg _. apply Hidle. }
  intros _.
  apply maintains_lift_bind; intros pct Hpct.
  apply maintains_lift_bind; intros fh Hfh.
  apply maintains_bind.
  { apply maintains_modify. intros s [(H5 & H7 & Hc) E].
    split; [|exact E]. split; [|split; [exact H7|exact Hc]].
    cbn. rewrite E in Hc.
    eapply (get_comparable config "five_hour_usage" pct); [exact Hc| | |exact Hfh].
    - unfold usage_keys. in_list.
    - eapply (get_comparable config "usage_percentage" (JInt 0));
        [exact Hc| |exact I|exact Hpct].
      unfold usage_keys. in_list. }
  intros _.
  apply maintains_lift_bind; intros wk Hwk.
  apply maintains_bind.
  { apply maintains_modify. intros s [(H5 & H7 & Hc) E].
    split; [|exact E]. split; [exact H5|]. split; [|exact Hc].
    cbn. rewrite E in Hc.
    eapply (get_comparable config "weekly_usage" (JInt 0));
      [exact Hc| |exact I|exact Hwk].
    unfold usage_keys. in_list. }
  intros _.
  apply maintains_bind; [apply Hload; by left|intros _].
  apply maintains_bind; [apply Hload; by right|intros _].
  apply maintains_bind; [apply Hidle|intros _].
  apply maintains_bind; [apply Hidle|intros _].
  apply maintains_pure.
Qed.

Lemma parse_api_usage_keeps_comparable api :
  maintains (fun s => comparable (usage (five_hour (data s)))
                      /\ comparable (usage (weekly (data s))))
    (_parse_api_usage api).
Proof.
  assert (forall w upd, window_setter upd ->
            maintains (fun s => comparable (usage (five_hour (data s)))
                                /\ comparable (usage (weekly (data s))))
              (parse_window w upd)) as Hw.
  { intros w upd Hupd. unfold parse_window.
    destruct (Py.truthy w); [|apply maintains_pure].
    apply maintains_lift_bind; intros u _.
    apply maintains_lift_bind; intros n _.
    apply maintains_bind.
    { apply maintains_modify. intros s [H5 H7]. by destruct Hupd as [-> | ->]. }
    intros _. apply maintains_lift_bind; intros r _.
    destruct (Py.truthy r); [|apply maintains_pure].
    apply maintains_lift_bind; intros [d|] _; [|apply maintains_pure].
    apply maintains_modify. intros s [H5 H7]. by destruct Hupd as [-> | ->]. }
  unfold _parse_api_usage.
  apply maintains_lift_bind; intros fh _.
  apply maintains_bind; [apply Hw; by left|intros _].
  apply maintains_lift_bind; intros wk _.
  apply Hw; by right.
Qed.

Lemma live_config_comparable u now :
  comparable (usage (five_hour u)) -> comparable (usage (weekly u)) ->
  comparable_config (Some (JObj (live_config u now))).
Proof.
  intros H5 H7 m k v [= <-] Hk Hv.
  destruct (live_config_lookups u now) as (L5 & L7 & _).
  destruct (usage_key_cases k Hk) as [-> | [-> | ->]].
  - rewrite L5 in Hv. by injection Hv as <-.
  - rewrite live_config_keys in Hv; [done|]. unfold live_keys. not_in_list.
  - rewrite L7 in Hv. by injection Hv as <-.
Qed.

(** A poll keeps the invariant, whatever its outcome. *)
Lemma presentable_fetch_usage api now s :
  presentable s -> presentable (fst (fetch_usage api now s)).
Proof.
  intros Hs. pose proof Hs as (H5 & H7 & Hc).
  unfold fetch_usage, fetch_usage_body.
  unfold mbind at 1, stmt_bind at 1, bind at 1, lift at 1.
  destruct (is_success api) as [[|]|e]; [| |done].
  - step_stmt.
    destruct (_parse_api_usage api s) as [s1 [[]|e]] eqn:E;
      destruct (parse_api_usage_keeps_comparable api _ _ _ (conj H5 H7) E) as [H5' H7'].
    + cbn [fst]. split; [exact H5'|]. split; [exact H7'|].
      by apply live_config_comparable.
    + cbn [fst]. split; [exact H5'|]. split; [exact H7'|].
      cbn [config_file idle_add].
      by rewrite (keeps_config_parse_api_usage api _ _ _ E).
  - unfold mbind at 1, stmt_bind at 1, bind at 1, read at 1.
    destruct (config_file s) as [config|] eqn:Ec.
    + match goal with |- context [let (_, _) := ?m s in _] =>
        destruct (m s) as [s1 r] eqn:E
      end.
      destruct (cached_statements_keep_presentable config api s _ _ (conj Hs Ec) E)
        as [Hs1 _].
      by destruct r.
    + step_stmt. cbn [fst]. split; [exact I|]. split; [exact I|].
      intros m k v [= <-] Hk Hv.
      destruct (usage_key_cases k Hk) as [-> | [-> | ->]];
        unfold example_config in Hv; by simplify_map_eq.
Qed.

(** The file after a run of [update_claude_usage.py]. *)
Lemma comparable_config_insert (c0 c : gmap string json) (n : Z) cf :
  default (JObj c0) cf = JObj c0 ->
  (cf = None -> forall k, k ∈ usage_keys -> c0 !! k = None) ->
  comparable_config cf ->
  c !! "usage_percentage" = Some (JInt n) ->
  (forall k, k ∈ usage_keys -> k <> "usage_percentage" -> c !! k = c0 !! k) ->
  comparable_config (Some (JObj c)).
Proof.
  intros Hd Hnone Hcf Hp Hk m k v [= <-] Hkey Hv.
  destruct (decide (k = "usage_percentage")) as [->|Hne].
  - rewrite Hp in Hv. by injection Hv as <-.
  - rewrite (Hk _ Hkey Hne) in Hv.
    destruct cf as [config|].
    + cbn in Hd. subst config. by eapply Hcf.
    + by rewrite (Hnone eq_refl _ Hkey) in Hv.
Qed.

Lemma comparable_config_fetch json_loads cookie_exists run now cf :
  comparable_config cf ->
  comparable_config
    (fst (Updater.fetch_and_update json_loads cookie_exists run now cf)).
Proof.
  intros Hcf.
  destruct (CommandProofs.fetch_and_update_cases json_loads cookie_exists run now cf)
    as [[_ ->] | (_ & c3 & data & -> & Hm)]; [done|].
  destruct (CommandProofs.merged_config_written _ _ _ _ Hm)
    as (c0 & c & n & E0 & -> & Hp & _ & Hk).
  apply (comparable_config_insert c0 c n cf); try done.
  - destruct cf; cbn in *; congruence.
  - intros -> k _. cbn in E0. injection E0 as <-. apply lookup_empty.
  - intros k Hkey Hne. apply Hk.
    destruct (usage_key_cases k Hkey) as [-> | [-> | ->]]; try done; not_in_list.
Qed.

Lemma comparable_config_command json_loads py_float argv cookie_exists run now cf :
  comparable_config cf ->
  comparable_config
    (fst (Updater.main json_loads py_float argv cookie_exists run now cf)).
Proof.
  intros Hcf. unfold Updater.main.
  destruct argv as [|prog [|arg rest]]; [done|done|].
  destruct (String.eqb (PyStr.lower arg) "fetch").
  { pose proof (comparable_config_fetch json_loads cookie_exists run now cf Hcf) as H.
    by destruct (Updater.fetch_and_update json_loads cookie_exists run now cf)
      as [c [b|e]]. }
  destruct (String.eqb (PyStr.lower arg) "show").
  { pose proof (CommandProofs.show_current_keeps cf) as H.
    destruct (Updater.show_current cf) as [c [[]|e]]; cbn [fst] in *; by subst c. }
  destruct (py_float arg) as [p|]; [|done].
  destruct (Updater.in_range p); [|done].
  assert (comparable_config (fst (Updater.update_usage p now cf))) as H.
  { unfold Updater.update_usage.
    destruct (Py.int (JFloat p)) as [n|]; [|done]. cbn [mbind res_bind].
    destruct (default (JObj Updater.default_config) cf) as [| | | | | |c0] eqn:E0;
      try done.
    cbn [Py.setitem mbind res_bind fst].
    apply (comparable_config_insert c0 _ n cf); try done.
    - destruct cf; cbn in *; congruence.
    - intros -> k Hkey. cbn in E0. injection E0 as <-.
      destruct (usage_key_cases k Hkey) as [-> | [-> | ->]]; done.
    - by simplify_map_eq.
    - intros k Hkey Hne.
      destruct (usage_key_cases k Hkey) as [-> | [-> | ->]]; by simplify_map_eq. }
  destruct (Updater.update_usage p now cf) as [c [[]|e]]; cbn [fst] in *;
    [done|]. by destruct e.
Qed.

Lemma presentable_step json_loads py_float s e :
  presentable s -> presentable (step json_loads py_float s e).
Proof.
  intros Hs. destruct e as [api now|argv cookie_exists run now]; cbn [step].
  - by apply presentable_fetch_usage.
  - destruct Hs as (H5 & H7 & Hc). repeat split; try done.
    by apply comparable_config_command.
Qed.

(** X18. The utilizations can always be shown.  Start from an
    indicator whose two utilizations are numbers ([int], [bool] or
    [float]) and whose configuration file, if any, holds numbers under
    [five_hour_usage], [usage_percentage] and [weekly_usage]: an
    indicator that has just started without a file is one.  Then after
    any series of polls, whatever their outcomes, and of runs of
    [update_claude_usage.py], whatever their arguments, this is still
    so, and [update_label] sets its three labels without raising the
    [TypeError] of a comparison. *)
Theorem labels_can_always_be_drawn
  (json_loads : string -> option json) (py_float : string -> option pyfloat)
  (repr : json -> string) (events : list event) (s : state) (w : widgets) :
  presentable s ->
  presentable (run json_loads py_float events s)
  /\ snd (update_label repr (data (run json_loads py_float events s)) w) = Ok tt.
Proof.
  intros Hs.
  assert (presentable (run json_loads py_float events s)) as H.
  { revert s Hs. induction events as [|e events IH]; intros s Hs; [done|].
    cbn [run fold_left]. apply IH. by apply presentable_step. }
  split; [done|]. destruct H as (H5 & H7 & _). by apply PanelProofs.update_label_ok.
Qed.

End SystemProofs.

(** ** Reset times as the API writes them *)

Module ResetProofs.
Import DateTime DateArith Indicator IndicatorProofs PyStrProofs DateTimeProofs.

Lemma replace_app x by_ a b :
  PyStr.replace x by_ (a ++ b) = (PyStr.replace x by_ a ++ PyStr.replace x by_ b)%string.
Proof.
  induction a as [|c a IH]; [done|]. rewrite append_cons. cbn [PyStr.replace].
  destruct (Ascii.eqb c x); by rewrite IH, ?append_assoc.
Qed.

Lemma valid_naive d : valid d = true -> valid (naive d) = true.
Proof.
  unfold valid, naive. cbn [year month day hour minute second microsecond tzinfo].
  rewrite !andb_true_iff. tauto.
Qed.

(** The text of a UTC value: that of its fields, then the offset. *)
Lemma isoformat_utc d :
  tzinfo d = Some 0 -> isoformat d = (isoformat (naive d) ++ "+00:00")%string.
Proof.
  intros H. unfold isoformat, naive.
  cbn [year month day hour minute second microsecond tzinfo]. rewrite H.
  change (format_time (mk (year d) (month d) (day d) (hour d) (minute d)
                          (second d) (microsecond d) None))
    with (format_time d).
  change (format_offset None) with "".
  change (format_offset (Some 0)) with "+00:00".
  by rewrite append_nil_r, !append_assoc.
Qed.

(** X19. A reset time that the API writes in UTC with the suffix [Z] is
    read as that instant in UTC.  For every value [d] the [datetime]
    constructor accepts, the text of its date and time followed by [Z],
    with or without microseconds, is turned by [replace("Z", "+00:00")]
    and [fromisoformat] into [d] with the UTC offset 0; the block of
    [_parse_api_usage] for a window with that [resets_at] stores the
    utilization and this reset time. *)
Theorem z_suffix_is_read_as_utc
  (d : datetime) (f : gmap string json) (n : Z)
  (upd : (window -> window) -> usage_data -> usage_data) (s : state) :
  valid d = true ->
  tzinfo d = Some 0 ->
  f !! "resets_at" = Some (JStr (isoformat (naive d) ++ "Z")) ->
  Py.int (default (JInt 0) (f !! "utilization")) = Ok n ->
  try_parse_reset (JStr (isoformat (naive d) ++ "Z")) = Ok (Some d)
  /\ parse_window (JObj f) upd s
     = (set_data (upd (set_reset d)) (set_data (upd (set_usage (JInt n))) s), Ok tt).
Proof.
  intros Hv Htz Hr Hn.
  assert (try_parse_reset (JStr (isoformat (naive d) ++ "Z")) = Ok (Some d)) as Hp.
  { unfold try_parse_reset, Py.replace_Z. cbn [mbind res_bind].
    rewrite replace_app, (isoformat_no_Z _ (valid_naive _ Hv)).
    change (PyStr.replace "Z" "+00:00" "Z") with "+00:00".
    by rewrite <- (isoformat_utc _ Htz), (fromisoformat_isoformat _ Hv). }
  split; [done|].
  rewrite (parse_window_dict _ _ _ (truthy_lookup _ _ _ Hr)), Hn, Hr.
  cbn [default from_option id]. cbn zeta. rewrite Hp.
  assert (Py.truthy (JStr (isoformat (naive d) ++ "Z")) = true) as ->; [|done].
  unfold isoformat. by destruct (fixed 4 (year (naive d))).
Qed.

End ResetProofs.

(** ** A fetch that returns nothing *)

Module SilentProofs.
Import GetUsage Indicator.

(** The child process when [get_usage] returned [None]: status 1 and
    nothing on either stream. *)
Lemma run_get_usage_none json_dumps traceback (h : host) :
  timed_out h = false ->
  is_Some (cookie_text (script_world h)) ->
  snd (get_usage (script_world h) None true) = Ok JNull ->
  run_get_usage json_dumps traceback h = Completed 1 "" "".
Proof.
  intros Hto [text Hc] Hd. unfold run_get_usage, GetUsage.main.
  rewrite Hto, Hc.
  destruct (SessionProofs.get_usage_total (script_world h) None true)
    as (err1 & data & E & Hq).
  rewrite E in *. cbn [snd] in Hd. injection Hd as ->.
  by rewrite (Hq eq_refl).
Qed.

(** [get_usage] when the navigation is answered 200 and no body was
    kept. *)
Lemma get_usage_nothing_captured (w : world) org_id quiet text :
  playwright w = true ->
  cookie_text w = Some text ->
  PyStr.strip text <> "" ->
  (forall url cookies,
     goto (browse w url cookies) = Response 200
     /\ omap (Login.captured url) (events (browse w url cookies)) = []) ->
  get_usage w org_id quiet = ([], Ok JNull).
Proof.
  intros Hp Hc Ht Hb.
  destruct (GetUsageProofs.resolve_org_id_total org_id (PyStr.strip text)) as [org Ho].
  rewrite (GetUsageProofs.get_usage_fetches _ _ _ _ _ Hp Hc Ht Ho).
  unfold browser_fetch.
  destruct (Hb (usage_url org) (parse_cookies (PyStr.strip text))) as [-> Hev].
  by rewrite SessionProofs.fold_handle_response, Hev.
Qed.

(** X20. A fetch that returns nothing is shown as an unknown system
    error.  Whenever [get_usage] returns [None] in the child process
    (Playwright cannot be imported, the cookie file is blank, or the
    navigation is answered 200 while no JSON body of the usage URL
    could be decoded), [get_usage.py --quiet] exits with status 1
    without a word, and the indicator's orchestrator reports
    [{"error": "System error: Unknown error..."}]: the cause is not
    told apart.  So it is, in particular, for a browser that gets
    status 200 and a body that is not JSON. *)
Theorem silent_failure_is_unknown_error
  (json_loads : string -> option json) (json_dumps : option Z -> json -> string)
  (traceback : exn -> string) (h : host) :
  script_exists h = true ->
  timed_out h = false ->
  is_Some (cookie_text (script_world h)) ->
  (snd (get_usage (script_world h) None true) = Ok JNull ->
   fetch_outcome json_loads json_dumps traceback h
   = Py.error_dict "System error: Unknown error...")
  /\ (playwright (script_world h) = false ->
      snd (get_usage (script_world h) None true) = Ok JNull)
  /\ (playwright (script_world h) = true ->
      (forall text, cookie_text (script_world h) = Some text -> PyStr.strip text <> "") ->
      (forall url cookies,
         goto (browse (script_world h) url cookies) = Response 200
         /\ omap (Login.captured url) (events (browse (script_world h) url cookies)) = []) ->
      snd (get_usage (script_world h) None true) = Ok JNull).
Proof.
  intros Hs Hto Hc. split; [|split].
  - intros Hn. unfold fetch_outcome.
    rewrite (run_get_usage_none _ _ _ Hto Hc Hn), Hs.
    by rewrite bool_decide_eq_true_2 by done.
  - intros Hp. unfold get_usage. by rewrite Hp.
  - intros Hp Ht Hb. destruct Hc as [text Hc].
    by rewrite (get_usage_nothing_captured _ None true text Hp Hc (Ht _ Hc) Hb).
Qed.

End SilentProofs.

(** ** [update_claude_usage.py]: the [show] command *)

Module ReportProofs.
Import DateTime Indicator Updater Report.

(** X21. What [show] prints does not follow the last write.  After a
    manual update of a file that holds a [last_auto_update], [show]
    prints the new percentage next to the older automatic stamp: the
    manual stamp is printed only when no automatic one is saved.  And
    for a file written by the live case of the indicator, which saves
    its figures under [five_hour_usage] and [weekly_usage], [show]
    prints [Current usage: 0%] whatever the figures are. *)
Theorem show_prefers_the_automatic_stamp
  (repr : json -> string) (config_path : string)
  (q : Q) (now : datetime) (saved : option json) (c0 : gmap string json) :
  default (JObj default_config) saved = JObj c0 ->
  (exists (c' : gmap string json) (rest : list string),
     fst (update_usage (FFinite q) now saved) = Some (JObj c')
     /\ show_current repr config_path (Some (JObj c'))
        = Ok (("📊 Current usage: "
               ++ Py.str_of_int (Z.quot (Qnum q) (Zpos (Qden q))) ++ "%")%string
              :: ("🕐 Last update: "
                  ++ match c0 !! "last_auto_update" with
                     | Some stamp =>
                         if Py.truthy stamp then Panel.str repr stamp
                         else isoformat now
                     | None => isoformat now
                     end)%string
              :: rest))
  /\ (forall u now0,
        show_current repr config_path (Some (JObj (live_config u now0)))
        = Ok ["📊 Current usage: 0%";
              ("🕐 Last update: " ++ isoformat now0)%string;
              ("📁 Configuration file: " ++ config_path)%string]).
Proof.
  intros Hc. split.
  - rewrite (UpdaterProofs.update_usage_writes q now saved c0 Hc). cbn [fst].
    do 2 eexists. split; [reflexivity|].
    unfold show_current, Py.get. cbn [mbind res_bind].
    rewrite lookup_insert_ne by done. rewrite lookup_insert.
    rewrite (lookup_insert_ne _ "last_manual_update" "last_auto_update") by done.
    rewrite (lookup_insert_ne _ "usage_percentage" "last_auto_update") by done.
    cbn [default from_option id Panel.str].
    destruct (c0 !! "last_auto_update") as [stamp|]; cbn [default from_option id].
    + destruct (Py.truthy stamp); cbn [mbind res_bind]; [reflexivity|].
      rewrite lookup_insert. reflexivity.
    + cbn [Py.truthy mbind res_bind]. rewrite lookup_insert. reflexivity.
  - intros u now0.
    unfold show_current, Py.get. cbn [mbind res_bind].
    rewrite (IndicatorProofs.live_config_keys u now0 "usage_percentage")
      by (unfold live_keys; rewrite !not_elem_of_cons; repeat split; try done;
          apply not_elem_of_nil).
    rewrite (IndicatorProofs.live_config_keys u now0 "reset_at")
      by (unfold live_keys; rewrite !not_elem_of_cons; repeat split; try done;
          apply not_elem_of_nil).
    assert (live_config u now0 !! "last_auto_update" = Some (JStr (isoformat now0)))
      as -> by (unfold live_config;
                destruct (reset (five_hour u)), (reset (weekly u)); by simplify_map_eq).
    cbn [default from_option id]. rewrite RoundTripProofs.isoformat_truthy.
    reflexivity.
Qed.

End ReportProofs.

(** ** The further properties on the example inputs *)

Module ScenarioProofs.
Import DateTime DateArith Indicator GetUsage Login Panel System.

(** X2 on two cookies of a browser: the line saved, and the cookies
    sent by the next fetch, with the domain and the path replaced. *)
Lemma login_witness :
  playwright Scenarios.before_login = true
  /\ Forall plain Scenarios.browser_cookies
  /\ Login.main true (LoggedIn Scenarios.browser_cookies) None
     = (Some "sessionKey=sk-ant-sid01; lastActiveOrg=1234", 0)
  /\ parse_cookies "sessionKey=sk-ant-sid01; lastActiveOrg=1234"
     = [ {| name := "sessionKey"; value := "sk-ant-sid01";
            domain := "claude.ai"; path := "/" |};
         {| name := "lastActiveOrg"; value := "1234";
            domain := "claude.ai"; path := "/" |} ].
Proof.
  assert (Forall plain Scenarios.browser_cookies) as Hplain
    by (repeat constructor; done).
  split; [reflexivity|]. split; [exact Hplain|].
  destruct (CookieProofs.login_cookies_are_sent Scenarios.before_login
              Scenarios.browser_cookies None true eq_refl Hplain)
    as (Hmain & Hparse & _).
  split; [exact Hmain|exact Hparse].
Defined.

(** X4 on the session answered 401 in which a response with status 200
    was seen: the live data are the body of that response. *)
Lemma capture_witness :
  is_success (browser_fetch
                (Examples.world_with "sessionKey=abc" Examples.answers_401_then_200)
                "https://claude.ai/api/organizations/1234/usage" [])
  = Ok true
  /\ exists r,
       r ∈ [ {| r_url := "https://claude.ai/api/organizations/1234/usage";
                r_status := 200; r_json := Some (JObj Examples.payload) |} ]
       /\ r_status r = 200 /\ r_json r = Some (JObj Examples.payload).
Proof.
  assert (is_success (browser_fetch
                        (Examples.world_with "sessionKey=abc" Examples.answers_401_then_200)
                        "https://claude.ai/api/organizations/1234/usage" [])
          = Ok true) as Hlive by reflexivity.
  split; [exact Hlive|].
  destruct (SessionProofs.live_data_comes_from_a_capture _ _ _ Hlive)
    as (r & Hr & _ & Hs & Hj).
  exists r. split; [exact Hr|]. split; [exact Hs|exact Hj].
Defined.

(** X6 on the machine whose fetch succeeds: the document seen by the
    browser is what the indicator is handed. *)
Lemma pipe_witness :
  snd (get_usage (script_world Scenarios.working_host) None true)
  = Ok (JObj Examples.response_json)
  /\ Examples.loads (lines [Examples.dumps None (JObj Examples.response_json)])
     = Some (JObj Examples.response_json)
  /\ fetch_outcome Examples.loads Examples.dumps Examples.traceback
       Scenarios.working_host
     = JObj Examples.response_json.
Proof.
  split; [reflexivity|]. split; [reflexivity|].
  apply (PipeProofs.outcome_is_the_script_result Examples.loads Examples.dumps
           Examples.traceback Scenarios.working_host (JObj Examples.response_json));
    try reflexivity; done.
Defined.

(** X7 on a child that ends with status 1 and a traceback. *)
Lemma failed_fetch_witness :
  _fetch_usage_from_api Examples.loads true true
    (Completed 1 "" "Traceback (most recent call last):")
  = Py.error_dict "System error: Traceback (most recent call last):..."
  /\ exists message,
       _fetch_usage_from_api Examples.loads true true
         (Completed 1 "" "Traceback (most recent call last):")
       = Py.error_dict message
       /\ is_success (_fetch_usage_from_api Examples.loads true true
                        (Completed 1 "" "Traceback (most recent call last):"))
          = Ok false
       /\ (String.length message <= 67)%nat.
Proof.
  split; [reflexivity|].
  destruct (PipeProofs.failed_fetch_is_an_error Examples.loads
              (Completed 1 "" "Traceback (most recent call last):"))
    as (message & E & Hfail & _ & Hlen).
  { intros returncode stdout stderr [= <- <- <-]. reflexivity. }
  exists message. split; [exact E|]. split; [exact Hfail|].
  exact (Hlen _ _ _ eq_refl eq_refl).
Defined.

(** X9 on a response without any window: the poll is a live one, the
    figures shown stay 50 % and 20 %, and they are what is saved. *)
Lemma windowless_witness :
  Py.truthy (JObj Scenarios.windowless) = true
  /\ Scenarios.windowless !! "error" = None
  /\ fetch_usage (JObj Scenarios.windowless) Examples.noon Examples.showing
     = (idle_add UpdateUI
          (write_config (JObj (live_config (data Examples.showing) Examples.noon))
             Examples.showing),
        Ok Live)
  /\ live_config (data Examples.showing) Examples.noon !! "five_hour_usage"
     = Some (JInt 50).
Proof.
  split; [reflexivity|]. split; [reflexivity|].
  split; [|reflexivity].
  exact (proj2 (FrameProofs.missing_window_keeps_figures Scenarios.windowless
                  Examples.noon Examples.showing) eq_refl eq_refl eq_refl eq_refl).
Defined.

(** X10 on the indicator restarted next to the example configuration:
    after a timeout, two more polls without live data change nothing. *)
Lemma offline_witness :
  no_live_data (JObj Examples.failure)
  /\ readable_config Examples.restarted
  /\ data (polls [(JNull, Examples.later); (JObj Examples.failure, Examples.later)]
             (fst (fetch_usage (JObj Examples.failure) Examples.noon Examples.restarted)))
     = data (fst (fetch_usage (JObj Examples.failure) Examples.noon Examples.restarted)).
Proof.
  assert (no_live_data (JObj Examples.failure)) as Hf
    by (right; exists Examples.failure, (JStr "Timeout connecting to Claude");
        split; reflexivity).
  assert (readable_config Examples.restarted) as Hr
    by (exists Examples.saved; split; [reflexivity|split; exact I]).
  split; [exact Hf|]. split; [exact Hr|].
  refine (proj1 (FrameProofs.offline_polls_are_stable (JObj Examples.failure)
                   Examples.noon Examples.restarted
                   [(JNull, Examples.later); (JObj Examples.failure, Examples.later)]
                   Hf Hr _)).
  apply Forall_cons; [left; reflexivity|].
  apply Forall_cons; [exact Hf|]. apply Forall_nil.
Defined.

(** X13 on the argument [99.5]: 99 is stored. *)
Lemma truncation_witness :
  Scenarios.float_of_text "99.5" = Some (FFinite (199 # 2))
  /\ exists c' : gmap string json,
       Updater.main Examples.loads Scenarios.float_of_text
         ["update_claude_usage.py"; "99.5"] true TimeoutExpired Examples.noon
         (Some (JObj Examples.saved))
       = (Some (JObj c'), Updater.Exit 0)
       /\ c' !! "usage_percentage" = Some (JInt 99).
Proof.
  split; [reflexivity|].
  destruct (CommandProofs.manual_percentage_is_truncated Examples.loads
              Scenarios.float_of_text "update_claude_usage.py" "99.5" [] true
              TimeoutExpired Examples.noon (Some (JObj Examples.saved))
              ltac:(discriminate) ltac:(discriminate) Examples.saved eq_refl)
    as (c' & n & E & Hp & _ & Hle & Hlt).
  exists c'. split; [exact E|]. rewrite Hp.
  unfold Qle, Qlt in *. cbn [Qnum Qden inject_Z] in *.
  do 2 f_equal. lia.
Defined.

(** X14 on a file saved by the live case at 50 %: the manual update to
    45 % is stored, and the next poll without live data shows 50 %. *)
Lemma shadow_witness :
  no_live_data JNull
  /\ exists c' : gmap string json,
       fst (Updater.update_usage (FFinite (inject_Z 45)) Examples.later
              (Some (JObj Scenarios.live_saved))) = Some (JObj c')
       /\ c' !! "usage_percentage" = Some (JInt 45)
       /\ usage (five_hour (data (fst (fetch_usage JNull Examples.later
                    (fresh_state (fst (Updater.update_usage (FFinite (inject_Z 45))
                                         Examples.later
                                         (Some (JObj Scenarios.live_saved)))))))))
          = JInt 50.
Proof.
  split; [by left|].
  destruct (CommandProofs.manual_update_is_shadowed (inject_Z 45) Examples.later
              (Some (JObj Scenarios.live_saved)) Scenarios.live_saved JNull
              Examples.later
              (fresh_state (fst (Updater.update_usage (FFinite (inject_Z 45))
                                   Examples.later (Some (JObj Scenarios.live_saved)))))
              eq_refl (or_introl eq_refl) eq_refl)
    as (c' & Hc & Hp & _ & Hlive).
  exists c'. split; [exact Hc|]. split; [exact Hp|].
  exact (Hlive (data Examples.showing) Examples.noon eq_refl).
Defined.

(** X15 on a response with a seven-day window at 37 % only: 37 is
    stored under [usage_percentage], and the indicator restarted next to
    that file shows 37 % for the five-hour window. *)
Lemma fallback_witness :
  Scenarios.loads_weekly Scenarios.weekly_text = Some (JObj Scenarios.weekly_json)
  /\ Examples.saved !! "five_hour_usage" = None
  /\ exists c' : gmap string json,
       Updater.fetch_and_update Scenarios.loads_weekly true
         (Completed 0 Scenarios.weekly_text "") Examples.later
         (Some (JObj Examples.saved))
       = (Some (JObj c'), Ok true)
       /\ c' !! "usage_percentage" = Some (JInt 37)
       /\ usage (five_hour (data (fst (fetch_usage JNull Examples.later
                                         (fresh_state (Some (JObj c'))))))) = JInt 37.
Proof.
  split; [reflexivity|]. split; [reflexivity|].
  destruct (CommandProofs.command_fetch_falls_back_to_seven_day
              Scenarios.loads_weekly Scenarios.weekly_text ""
              Scenarios.weekly_json {["utilization" := JInt 37]} Examples.saved 37
              Examples.later ltac:(by vm_compute) eq_refl eq_refl eq_refl eq_refl
              eq_refl)
    as (c' & E & Hp & Hshow).
  exists c'. split; [exact E|]. split; [exact Hp|].
  exact (Hshow eq_refl JNull Examples.later (fresh_state (Some (JObj c')))
           (or_introl eq_refl) eq_refl).
Defined.

(** X16 for a reset at 17:00 UTC read at 12:29:30.5 UTC: four hours and
    thirty minutes are shown, the half minute is dropped. *)
Lemma countdown_witness :
  sound Scenarios.half_past_noon
  /\ valid Examples.reset_5h = true
  /\ instant Examples.reset_5h - instant (utc_now Scenarios.half_past_noon)
     = 16229500000
  /\ exists w',
       update_ui Scenarios.repr Scenarios.half_past_noon (data Examples.showing)
         create_menu = (w', Ok false)
       /\ reset_item w' = "⏰ Reset (5h) in: 4h 30m".
Proof.
  assert (sound Scenarios.half_past_noon) as Hs by (by repeat split).
  split; [exact Hs|]. split; [reflexivity|]. split; [reflexivity|].
  destruct (PanelProofs.reset_item_counts_whole_minutes Scenarios.repr
              Scenarios.half_past_noon (data Examples.showing) create_menu
              Examples.reset_5h Hs eq_refl eq_refl I I)
    as (w' & E & _ & Hleft).
  exists w'. split; [exact E|].
  change (instant Examples.reset_5h
          - instant match tzinfo Examples.reset_5h with
                    | Some _ => utc_now Scenarios.half_past_noon
                    | None => local_now Scenarios.half_past_noon
                    end) with 16229500000 in Hleft.
  destruct (Hleft ltac:(split; reflexivity)) as (hours & minutes & -> & H0 & Hm & Hb).
  assert (hours = 4 /\ minutes = 30) as [-> ->] by lia. reflexivity.
Defined.

(** X17 on a manual refresh that ends in a timeout served from the
    example configuration: the error and the offline mark are queued,
    and the five-hour item, which read [Updating...], ends as the usage
    text. *)
Lemma labels_witness :
  icon (JInt 40) = Ok "🟢"
  /\ five_hour_item (manual_refresh create_menu) = "🔄 Updating..."
  /\ idle (fst (fetch_usage (JObj Examples.failure) Examples.noon Examples.restarted))
     = [ShowError (JStr "Timeout connecting to Claude"); MarkOffline; UpdateUI]
  /\ five_hour_item
       (drain Scenarios.repr Scenarios.exn_text (fun _ => Scenarios.half_past_noon) 0
          (data (fst (fetch_usage (JObj Examples.failure) Examples.noon
                        Examples.restarted)))
          (idle (fst (fetch_usage (JObj Examples.failure) Examples.noon
                        Examples.restarted)))
          (manual_refresh create_menu))
     = "🟢 Usage (5h): 40%".
Proof.
  split; [reflexivity|]. split; [reflexivity|].
  destruct (PanelProofs.labels_after_a_poll Scenarios.repr Scenarios.exn_text
              (fun _ => Scenarios.half_past_noon) (JObj Examples.failure)
              Examples.noon Examples.restarted (manual_refresh create_menu))
    as [Hlast Hqueue].
  destruct (Hqueue Examples.failure Examples.saved _ eq_refl eq_refl eq_refl I I)
    as [Hr Hq].
  split; [exact Hq|].
  rewrite Hr in Hlast. exact (proj1 (Hlast "🟢" eq_refl)).
Defined.

(** X18 for an indicator that starts without a file, shows 0 % in
    green, and goes through a live poll, a manual update and a failed
    poll. *)
Lemma drawable_witness :
  presentable (fresh_state None)
  /\ init Scenarios.repr
     = {| indicator_label := "Claude: 0%";
          five_hour_item := "🟢 Usage (5h): 0%";
          weekly_item := "🟢 Weekly Usage: 0%";
          reset_item := "Next reset: calculating..." |}
  /\ snd (update_label Scenarios.repr
            (data (run Examples.loads Examples.float_of_literal Scenarios.busy_day
                     (fresh_state None)))
            create_menu) = Ok tt.
Proof.
  assert (presentable (fresh_state None)) as Hs
    by (split; [exact I|split; [exact I|intros m k v H; discriminate H]]).
  split; [exact Hs|]. split; [reflexivity|].
  exact (proj2 (SystemProofs.labels_can_always_be_drawn Examples.loads
                  Examples.float_of_literal Scenarios.repr Scenarios.busy_day
                  (fresh_state None) create_menu Hs)).
Defined.

(** X19 on the reset time [2025-06-01T17:00:00Z]. *)
Lemma utc_witness :
  valid Examples.reset_5h = true
  /\ (isoformat (naive Examples.reset_5h) ++ "Z")%string = "2025-06-01T17:00:00Z"
  /\ try_parse_reset (JStr "2025-06-01T17:00:00Z") = Ok (Some Examples.reset_5h).
Proof.
  split; [reflexivity|]. split; [reflexivity|].
  exact (proj1 (ResetProofs.z_suffix_is_read_as_utc Examples.reset_5h
                  (Examples.window_fields (JInt 150) "2025-06-01T17:00:00Z") 150
                  with_five_hour Examples.showing eq_refl eq_refl eq_refl eq_refl)).
Defined.

(** X20 on the machine whose browser gets status 200 and no JSON body. *)
Lemma silent_witness :
  snd (get_usage (script_world Scenarios.challenged_host) None true) = Ok JNull
  /\ fetch_outcome Examples.loads Examples.dumps Examples.traceback
       Scenarios.challenged_host
     = Py.error_dict "System error: Unknown error...".
Proof.
  destruct (SilentProofs.silent_failure_is_unknown_error Examples.loads
              Examples.dumps Examples.traceback Scenarios.challenged_host
              eq_refl eq_refl ltac:(by eexists)) as (Hout & _ & Hnone).
  assert (snd (get_usage (script_world Scenarios.challenged_host) None true)
          = Ok JNull) as Hn.
  { apply Hnone; [reflexivity| |by intros url cookies].
    intros text [= <-]. by vm_compute. }
  split; [exact Hn|exact (Hout Hn)].
Defined.

(** X21 on the example configuration, which holds an automatic stamp
    of May 30th: after the manual update at noon on June 1st, [show]
    prints 45 % and the stamp of May 30th. *)
Lemma show_witness :
  exists (c' : gmap string json) rest,
    fst (Updater.update_usage (FFinite (inject_Z 45)) Examples.noon
           (Some (JObj Examples.saved))) = Some (JObj c')
    /\ Report.show_current Scenarios.repr "config.json" (Some (JObj c'))
       = Ok ("📊 Current usage: 45%" :: "🕐 Last update: 2025-05-30T08:00:00" :: rest).
Proof.
  destruct (ReportProofs.show_prefers_the_automatic_stamp Scenarios.repr
              "config.json" (inject_Z 45) Examples.noon (Some (JObj Examples.saved))
              Examples.saved eq_refl) as [(c' & rest & Hc & Hshow) _].
  exists c', rest. split; [exact Hc|exact Hshow].
Defined.

End ScenarioProofs.
